(** * Janggi rule engine, move codec and match state machine

    A shallow embedding of [janggiLogic.ts] (board model, [isValidMove],
    [generateFen]) and of the game logic of [App.tsx] (the React component
    that owns board, turn and history and talks to the engine process),
    followed by the properties of the specification that concern them.

    Conventions.
    - JavaScript numbers that hold coordinates and counters are integers
      here ([Z]); the guarded divisions [dy / 2], [dy / 3] are exact.
    - An array is a list; reading outside it yields [undefined], which the
      code only ever tests for truthiness, so [null] and [undefined] are both
      [None].  Indexing [undefined] raises: that is [TypeError].
    - A [while] loop is run with fuel; [Diverge] marks exhausted fuel.  The
      one loop of the code, in [countObstacles], is given enough fuel to
      end or raise on every input. *)

From Stdlib Require Import ZArith List Bool String Ascii Lia.
From Stdlib Require DecimalString.
Import ListNotations.
Open Scope Z_scope.

(** ** Outcomes of a JavaScript computation *)

Inductive Res (A : Type) : Type :=
| Ok (a : A)
| TypeError
| Diverge.
Arguments Ok {A} a.
Arguments TypeError {A}.
Arguments Diverge {A}.

Definition Res_bind {A B : Type} (m : Res A) (k : A -> Res B) : Res B :=
  match m with
  | Ok a => k a
  | TypeError => TypeError
  | Diverge => Diverge
  end.

Notation "'let?' x ':=' m 'in' k" := (Res_bind m (fun x => k))
  (at level 10, x name, m at level 100, k at level 200).

(** ** types.ts *)

Inductive Team : Type := RED | BLUE.

Inductive PieceType : Type := cha | ma | sang | po | sa | jang | jol.

Record Piece : Type := p { team : Team; type : PieceType }.

Definition Row : Type := list (option Piece).
Definition Board : Type := list Row.

Inductive SetupType : Type := wan | oreun | an | bak.

Inductive GameMode : Type := PvP | CvC | PvC | CvP.

Definition Team_eqb (x y : Team) : bool :=
  match x, y with
  | RED, RED | BLUE, BLUE => true
  | _, _ => false
  end.

Definition PieceType_eqb (x y : PieceType) : bool :=
  match x, y with
  | cha, cha | ma, ma | sang, sang | po, po | sa, sa | jang, jang | jol, jol => true
  | _, _ => false
  end.

Definition PIECE_SCORES (t : PieceType) : Z :=
  match t with
  | cha => 13 | po => 7 | ma => 5 | sang => 3 | sa => 3 | jol => 2 | jang => 0
  end.

(** ** Array access *)

(** [a[i]] for an array [a]: the element, or [None] for [undefined]. *)
Definition index {A : Type} (a : list A) (i : Z) : option A :=
  if i <? 0 then None else nth_error a (Z.to_nat i).

(** [board[r][c]]: raises when [board[r]] is [undefined]. *)
Definition cell (board : Board) (r c : Z) : Res (option Piece) :=
  match index board r with
  | None => TypeError
  | Some row =>
      Ok (match index row c with Some x => x | None => None end)
  end.

(** [row[c] = v] on an array: an index past the end extends the array with
    holes.  A negative index names a property that is not an element: no
    element changes.  Rows are modelled by their elements only, so a
    property set this way is not kept and reading it back is outside the
    model; the application never does either (every write and every read
    through the interface is at a grid coordinate). *)
Fixpoint assign (row : Row) (c : nat) (v : option Piece) : Row :=
  match c, row with
  | O, [] => [v]
  | O, _ :: rest => v :: rest
  | S c', [] => None :: assign [] c' v
  | S c', x :: rest => x :: assign rest c' v
  end.

Fixpoint assign_row (board : Board) (r : nat) (f : Row -> Row) : option Board :=
  match r, board with
  | _, [] => None
  | O, row :: rest => Some (f row :: rest)
  | S r', row :: rest =>
      match assign_row rest r' f with
      | Some rest' => Some (row :: rest')
      | None => None
      end
  end.

(** [board[r][c] = v]: raises when [board[r]] is [undefined]. *)
Definition store (board : Board) (r c : Z) (v : option Piece) : Res Board :=
  if r <? 0 then TypeError
  else match assign_row board (Z.to_nat r)
               (fun row => if c <? 0 then row else assign row (Z.to_nat c) v) with
       | Some board' => Ok board'
       | None => TypeError
       end.

(** ** janggiLogic.ts: initBoard *)

(** An assignment at a coordinate known to be on the fresh grid. *)
Definition place (board : Board) (r c : Z) (x : Piece) : Board :=
  match store board r c (Some x) with
  | Ok board' => board'
  | _ => board
  end.

Definition inner (setup : SetupType) : PieceType * PieceType * PieceType * PieceType :=
  match setup with
  | wan => (ma, sang, ma, sang)
  | oreun => (sang, ma, sang, ma)
  | an => (ma, sang, sang, ma)
  | bak => (sang, ma, ma, sang)
  end.

Definition setupHomeRank (board : Board) (row : Z) (tm : Team) (setup : SetupType) : Board :=
  let board := place board row 0 (p tm cha) in
  let board := place board row 8 (p tm cha) in
  let '(i0, i1, i2, i3) := inner setup in
  let board := place board row 1 (p tm i0) in
  let board := place board row 2 (p tm i1) in
  let board := place board row 6 (p tm i2) in
  place board row 7 (p tm i3).

Definition initBoard (redSetup blueSetup : SetupType) : Board :=
  let board : Board := repeat (repeat None 9%nat) 10%nat in
  (* Pawns: c = 0, 2, 4, 6, 8 *)
  let board :=
    fold_left (fun bd c => place (place bd 3 c (p BLUE jol)) 6 c (p RED jol))
              [0; 2; 4; 6; 8] board in
  (* Cannons *)
  let board := place board 2 1 (p BLUE po) in
  let board := place board 2 7 (p BLUE po) in
  let board := place board 7 1 (p RED po) in
  let board := place board 7 7 (p RED po) in
  (* Kings and guards *)
  let board := place board 1 4 (p BLUE jang) in
  let board := place board 0 3 (p BLUE sa) in
  let board := place board 0 5 (p BLUE sa) in
  let board := place board 8 4 (p RED jang) in
  let board := place board 9 3 (p RED sa) in
  let board := place board 9 5 (p RED sa) in
  let board := setupHomeRank board 0 BLUE blueSetup in
  setupHomeRank board 9 RED redSetup.

(** ** janggiLogic.ts: movement logic *)

(** The [while (r !== ey || c !== ex)] loop of [countObstacles]. *)
Fixpoint countObstacles_loop (fuel : nat) (board : Board)
         (r c ey ex dy dx : Z) (count : Z) : Res Z :=
  if (r =? ey) && (c =? ex) then Ok count
  else match fuel with
       | O => Diverge
       | S fuel' =>
           let? x := cell board r c in
           countObstacles_loop fuel' board (r + dy) (c + dx) ey ex dy dx
                               (match x with Some _ => count + 1 | None => count end)
       end.

(** Number of loop iterations that a call on a rank, a file or an exact
    diagonal needs at most; [isValidMove] makes no other call. *)
Definition span (start end' : Z * Z) : nat :=
  Z.to_nat (Z.max (Z.abs (fst end' - fst start)) (Z.abs (snd end' - snd start))).

Definition countObstacles_fuel (fuel : nat) (board : Board) (start end' : Z * Z) : Res Z :=
  let '(sy, sx) := start in
  let '(ey, ex) := end' in
  let dy := Z.sgn (ey - sy) in
  let dx := Z.sgn (ex - sx) in
  countObstacles_loop fuel board (sy + dy) (sx + dx) ey ex dy dx 0.

(** The loop always ends.  On a rank, a file or an exact diagonal it
    reaches [end'] within [span] iterations.  On any other pair of cells
    [r] moves by one row in every iteration, so that after at most as many
    iterations as the board has rows [board[r]] is [undefined] and the
    access raises. *)
Definition countObstacles (board : Board) (start end' : Z * Z) : Res Z :=
  countObstacles_fuel (span start end' + List.length board + 1) board start end'.

Definition hasObstacle (board : Board) (start end' : Z * Z) : Res bool :=
  let? n := countObstacles board start end' in Ok (0 <? n).

Definition inPalace (r c : Z) (tm : Team) : bool :=
  if (c <? 3) || (5 <? c) then false
  else match tm with
       | BLUE => (0 <=? r) && (r <=? 2)
       | RED => (7 <=? r) && (r <=? 9)
       end.

(** [!board[r][c]] *)
Definition vacant (board : Board) (r c : Z) : Res bool :=
  let? x := cell board r c in
  Ok (match x with Some _ => false | None => true end).

Definition isValidMove (board : Board) (start end' : Z * Z) (turn : Team) : Res bool :=
  let '(sy, sx) := start in
  let '(ey, ex) := end' in
  if (sy =? ey) && (sx =? ex) then Ok false else
  let? piece := cell board sy sx in
  match piece with
  | None => Ok false
  | Some piece =>
  if negb (Team_eqb (team piece) turn) then Ok false else
  let? target := cell board ey ex in
  if match target with
     | Some t => Team_eqb (team t) (team piece)
     | None => false
     end then Ok false else
  let dy := ey - sy in
  let dx := ex - sx in
  let absDy := Z.abs dy in
  let absDx := Z.abs dx in
  match type piece with
  | cha =>
      let? line :=
        if (sx =? ex) || (sy =? ey)
        then let? h := hasObstacle board start end' in Ok (negb h)
        else Ok false in
      if line then Ok true else
      let? diag :=
        if inPalace sy sx (team piece) && inPalace ey ex (team piece) && (absDx =? absDy)
        then let? h := hasObstacle board start end' in Ok (negb h)
        else Ok false in
      if diag then Ok true else Ok false
  | jol =>
      if 1 <? absDx + absDy then
        if inPalace sy sx (team piece) && inPalace ey ex (team piece)
           && (absDx =? 1) && (absDy =? 1)
        then match team piece with
             | BLUE => Ok (0 <? dy)
             | RED => Ok (dy <? 0)
             end
        else Ok false
      else match team piece with
           | BLUE => if dy <? 0 then Ok false else Ok true
           | RED => if 0 <? dy then Ok false else Ok true
           end
  | ma =>
      if (absDx =? 1) && (absDy =? 2) then vacant board (sy + dy / 2) sx
      else if (absDx =? 2) && (absDy =? 1) then vacant board sy (sx + dx / 2)
      else Ok false
  | sang =>
      if (absDx =? 2) && (absDy =? 3) then
        let? v1 := vacant board (sy + dy / 3) sx in
        if v1 then vacant board (sy + dy / 3 * 2) (sx + dx / 2) else Ok false
      else if (absDx =? 3) && (absDy =? 2) then
        let? v1 := vacant board sy (sx + dx / 3) in
        if v1 then vacant board (sy + dy / 2) (sx + dx / 3 * 2) else Ok false
      else Ok false
  | sa | jang =>
      if negb (inPalace ey ex (team piece)) then Ok false
      else if absDx + absDy =? 1 then Ok true
      else if (absDx =? 1) && (absDy =? 1) then
        let isCenterStart := ((sy =? 1) && (sx =? 4)) || ((sy =? 8) && (sx =? 4)) in
        let isCenterEnd := ((ey =? 1) && (ex =? 4)) || ((ey =? 8) && (ex =? 4)) in
        Ok (isCenterStart || isCenterEnd)
      else Ok false
  | po =>
      if match target with
         | Some t => PieceType_eqb (type t) po
         | None => false
         end then Ok false
      else if (sx =? ex) || (sy =? ey) then
        let? n := countObstacles board start end' in Ok (n =? 1)
      else if inPalace sy sx (team piece) && inPalace ey ex (team piece) && (absDx =? absDy)
      then let? n := countObstacles board start end' in Ok (n =? 1)
      else Ok false
  end
  end.

(** ** janggiLogic.ts: calculateMaterialScore, generateFen *)

Fixpoint foldM {A S : Type} (f : S -> A -> Res S) (l : list A) (s : S) : Res S :=
  match l with
  | [] => Ok s
  | x :: rest => let? s' := f s x in foldM f rest s'
  end.

Definition rows10 : list Z := [0; 1; 2; 3; 4; 5; 6; 7; 8; 9].
Definition cols9 : list Z := [0; 1; 2; 3; 4; 5; 6; 7; 8].

(** The cells visited by [for r < 10] around [for c < 9]. *)
Definition grid : list (Z * Z) :=
  flat_map (fun r => map (fun c => (r, c)) cols9) rows10.

(** The pair is (red, blue). *)
Definition calculateMaterialScore (board : Board) : Res (Z * Z) :=
  foldM (fun '(redScore, blueScore) '(r, c) =>
           let? piece := cell board r c in
           Ok (match piece with
               | Some pc =>
                   match team pc with
                   | RED => (redScore + PIECE_SCORES (type pc), blueScore)
                   | BLUE => (redScore, blueScore + PIECE_SCORES (type pc))
                   end
               | None => (redScore, blueScore)
               end))
        grid (0, 0).

(** [Number.MAX_SAFE_INTEGER].  Up to it every integer is a JavaScript
    number, sums and products of such integers that stay below it are
    exact, and a template literal prints them in plain decimal. *)
Definition MAX_SAFE_INTEGER : Z := 2 ^ 53 - 1.

(** [`${z}`] for an integer [z]: its decimal digits.  This is what
    JavaScript prints for a safe integer.  Beyond [MAX_SAFE_INTEGER] a
    number is a rounded double, printed in exponent notation from [1e21]
    on, which [dec] does not follow: there the text of [dec] is not the
    text of the program. *)
Definition dec (z : Z) : string :=
  DecimalString.NilZero.string_of_int (Z.to_int z).

(** A think time in seconds whose milliseconds are a safe integer, so that
    [dec (seconds * 1000)] is the text of [`${timeControl * 1000}`]. *)
Definition safeThinkTime (seconds : Z) : bool :=
  seconds * 1000 <=? MAX_SAFE_INTEGER.

Definition fenMap (pc : Piece) : string :=
  match team pc, type pc with
  | RED, cha => "R" | RED, ma => "N" | RED, sang => "E" | RED, po => "C"
  | RED, sa => "A" | RED, jang => "K" | RED, jol => "P"
  | BLUE, cha => "r" | BLUE, ma => "n" | BLUE, sang => "e" | BLUE, po => "c"
  | BLUE, sa => "a" | BLUE, jang => "k" | BLUE, jol => "p"
  end%string.

Definition flushEmpty (rowStr : string) (emptyCount : Z) : string :=
  if 0 <? emptyCount then (rowStr ++ dec emptyCount)%string else rowStr.

Definition fenRow (board : Board) (r : Z) : Res string :=
  let? acc :=
    foldM (fun (acc : string * Z) c =>
             let '(rowStr, emptyCount) := acc in
             let? piece := cell board r c in
             Ok (match piece with
                 | Some pc => ((flushEmpty rowStr emptyCount ++ fenMap pc)%string, 0)
                 | None => (rowStr, emptyCount + 1)
                 end))
          cols9 (EmptyString, 0) in
  Ok (flushEmpty (fst acc) (snd acc)).

Definition generateFen (board : Board) (turn : Team) : Res string :=
  let? rows := foldM (fun rows r => let? s := fenRow board r in Ok (rows ++ [s]))
                     rows10 [] in
  let turnChar := match turn with BLUE => "b" | RED => "w" end%string in
  Ok (String.concat "/" rows ++ " " ++ turnChar ++ " - - 0 1")%string.

(** ** App.tsx: state *)

Module MoveRecord.
Record t : Type := mk {
  seq : Z;
  notation : string;
  turn : Team;
  prevBoard : Board
}.
End MoveRecord.

(** The values of the [useState] hooks as one render of the component sees
    them.  ([isFlipped] and [engineScore] are display only and left out: no
    modelled function reads them.) *)
Record Render : Type := mkRender {
  board : Board;
  turn : Team;
  gameStarted : bool;
  redSetup : SetupType;
  blueSetup : SetupType;
  gameMode : GameMode;
  selected : option (Z * Z);
  legalMoves : list (Z * Z);
  history : list MoveRecord.t;
  materialScore : Z * Z;
  engineEnabled : bool;
  timeControl : Z
}.

(** The whole application: the hook state that the next render will see,
    the [isEngineThinking] ref, whether [window.electronAPI] exists, the
    commands handed to [sendCommand] (oldest first) and the tokens reported
    through [console.error]. *)
Record App : Type := mkApp {
  state : Render;
  isEngineThinking : bool;
  electronAPI : bool;
  sent : list string;
  console : list string
}.

(** Handlers run in a state monad over [App] in which an exception stops the
    handler and keeps what was written before it. *)
Definition M (A : Type) : Type := App -> Res A * App.

Definition ret {A : Type} (x : A) : M A := fun a => (Ok x, a).

Definition bind {A B : Type} (m : M A) (k : A -> M B) : M B :=
  fun a =>
    match m a with
    | (Ok x, a') => k x a'
    | (TypeError, a') => (TypeError, a')
    | (Diverge, a') => (Diverge, a')
    end.

Notation "x <- m ;; k" := (bind m (fun x => k))
  (at level 61, m at next level, right associativity).
Notation "m ;; k" := (bind m (fun _ => k))
  (at level 61, right associativity).

Definition lift {A : Type} (x : Res A) : M A := fun a => (x, a).

Definition update (f : Render -> Render) : M unit :=
  fun a => (Ok tt, mkApp (f (state a)) (isEngineThinking a) (electronAPI a)
                         (sent a) (console a)).

Definition setBoard (v : Board) : M unit :=
  update (fun s => mkRender v (turn s) (gameStarted s) (redSetup s) (blueSetup s)
                     (gameMode s) (selected s) (legalMoves s) (history s)
                     (materialScore s) (engineEnabled s) (timeControl s)).

Definition setTurn (f : Team -> Team) : M unit :=
  update (fun s => mkRender (board s) (f (turn s)) (gameStarted s) (redSetup s)
                     (blueSetup s) (gameMode s) (selected s) (legalMoves s) (history s)
                     (materialScore s) (engineEnabled s) (timeControl s)).

Definition setGameStarted (v : bool) : M unit :=
  update (fun s => mkRender (board s) (turn s) v (redSetup s) (blueSetup s)
                     (gameMode s) (selected s) (legalMoves s) (history s)
                     (materialScore s) (engineEnabled s) (timeControl s)).

Definition setRedSetup (v : SetupType) : M unit :=
  update (fun s => mkRender (board s) (turn s) (gameStarted s) v (blueSetup s)
                     (gameMode s) (selected s) (legalMoves s) (history s)
                     (materialScore s) (engineEnabled s) (timeControl s)).

Definition setBlueSetup (v : SetupType) : M unit :=
  update (fun s => mkRender (board s) (turn s) (gameStarted s) (redSetup s) v
                     (gameMode s) (selected s) (legalMoves s) (history s)
                     (materialScore s) (engineEnabled s) (timeControl s)).

Definition setGameMode (v : GameMode) : M unit :=
  update (fun s => mkRender (board s) (turn s) (gameStarted s) (redSetup s)
                     (blueSetup s) v (selected s) (legalMoves s) (history s)
                     (materialScore s) (engineEnabled s) (timeControl s)).

Definition setSelected (v : option (Z * Z)) : M unit :=
  update (fun s => mkRender (board s) (turn s) (gameStarted s) (redSetup s)
                     (blueSetup s) (gameMode s) v (legalMoves s) (history s)
                     (materialScore s) (engineEnabled s) (timeControl s)).

Definition setLegalMoves (v : list (Z * Z)) : M unit :=
  update (fun s => mkRender (board s) (turn s) (gameStarted s) (redSetup s)
                     (blueSetup s) (gameMode s) (selected s) v (history s)
                     (materialScore s) (engineEnabled s) (timeControl s)).

Definition setHistory (f : list MoveRecord.t -> list MoveRecord.t) : M unit :=
  update (fun s => mkRender (board s) (turn s) (gameStarted s) (redSetup s)
                     (blueSetup s) (gameMode s) (selected s) (legalMoves s)
                     (f (history s)) (materialScore s) (engineEnabled s)
                     (timeControl s)).

Definition setMaterialScore (v : Z * Z) : M unit :=
  update (fun s => mkRender (board s) (turn s) (gameStarted s) (redSetup s)
                     (blueSetup s) (gameMode s) (selected s) (legalMoves s) (history s)
                     v (engineEnabled s) (timeControl s)).

Definition setEngineEnabled (v : bool) : M unit :=
  update (fun s => mkRender (board s) (turn s) (gameStarted s) (redSetup s)
                     (blueSetup s) (gameMode s) (selected s) (legalMoves s) (history s)
                     (materialScore s) v (timeControl s)).

Definition setTimeControl (v : Z) : M unit :=
  update (fun s => mkRender (board s) (turn s) (gameStarted s) (redSetup s)
                     (blueSetup s) (gameMode s) (selected s) (legalMoves s) (history s)
                     (materialScore s) (engineEnabled s) v).

(** [isEngineThinking.current = v] *)
Definition setThinking (v : bool) : M unit :=
  fun a => (Ok tt, mkApp (state a) v (electronAPI a) (sent a) (console a)).

(** [window.electronAPI.sendCommand(cmd)] *)
Definition sendCommand (cmd : string) : M unit :=
  fun a => (Ok tt, mkApp (state a) (isEngineThinking a) (electronAPI a)
                         (sent a ++ [cmd]) (console a)).

Definition console_error (msg : string) : M unit :=
  fun a => (Ok tt, mkApp (state a) (isEngineThinking a) (electronAPI a)
                         (sent a) (console a ++ [msg])).

Definition other (t : Team) : Team :=
  match t with BLUE => RED | RED => BLUE end.

(** ** App.tsx: engine requests *)

Definition requestEngineMove (rd : Render) : M unit :=
  fun a =>
    if negb (electronAPI a) then (Ok tt, a)
    else (setThinking true ;;
          fen <- lift (generateFen (board rd) (turn rd)) ;;
          sendCommand ("position fen " ++ fen) ;;
          sendCommand ("go movetime " ++ dec (timeControl rd * 1000))) a.

Definition checkEngineMove (rd : Render) : M unit :=
  fun a =>
    if negb (engineEnabled rd) || negb (gameStarted rd) || isEngineThinking a
    then (Ok tt, a)
    else
      let shouldEngineMove :=
        match gameMode rd with
        | CvC => true
        | PvC => Team_eqb (turn rd) RED
        | CvP => Team_eqb (turn rd) BLUE
        | PvP => false
        end in
      if shouldEngineMove then requestEngineMove rd a else (Ok tt, a).

(** ** App.tsx: game actions *)

Definition startGame (rd : Render) : M unit :=
  let newBoard := initBoard (redSetup rd) (blueSetup rd) in
  setBoard newBoard ;;
  setTurn (fun _ => BLUE) ;;
  setHistory (fun _ => []) ;;
  setGameStarted true ;;
  setSelected None ;;
  setLegalMoves [] ;;
  setThinking false.

Definition executeMove (rd : Render) (start end' : Z * Z) : M unit :=
  let '(sr, sc) := start in
  let '(er, ec) := end' in
  let prevBoard := board rd in
  let newBoard := board rd in
  piece <- lift (cell newBoard sr sc) ;;
  newBoard <- lift (store newBoard er ec piece) ;;
  newBoard <- lift (store newBoard sr sc None) ;;
  let notation := (dec sr ++ "," ++ dec sc ++ " > " ++ dec er ++ "," ++ dec ec)%string in
  setBoard newBoard ;;
  setSelected None ;;
  setLegalMoves [] ;;
  setHistory (fun prev =>
                prev ++ [MoveRecord.mk (Z.of_nat (List.length prev) + 1) notation
                                       (turn rd) prevBoard]) ;;
  setTurn other ;;
  fun a =>
    if electronAPI a && engineEnabled rd then
      (fen <- lift (generateFen newBoard (other (turn rd))) ;;
       sendCommand ("position fen " ++ fen) ;;
       sendCommand ("go movetime " ++ dec (timeControl rd * 1000))) a
    else (Ok tt, a).

Definition undoMove (rd : Render) : M unit :=
  match rev (history rd) with
  | [] => ret tt
  | lastMove :: _ =>
      setBoard (MoveRecord.prevBoard lastMove) ;;
      setHistory (fun prev => removelast prev) ;;
      setTurn (fun _ => MoveRecord.turn lastMove) ;;
      setSelected None ;;
      setLegalMoves []
  end.

Definition passTurn (rd : Render) : M unit :=
  setHistory (fun prev =>
                prev ++ [MoveRecord.mk (Z.of_nat (List.length prev) + 1) "PASS"
                                       (turn rd) (board rd)]) ;;
  setTurn other.

Definition resign (rd : Render) : M unit :=
  setGameStarted false.

(** The two nested loops that collect the highlighted destinations. *)
Definition legalDestinations (bd : Board) (from : Z * Z) (tm : Team) : Res (list (Z * Z)) :=
  foldM (fun moves to =>
           let? ok := isValidMove bd from to tm in
           Ok (if ok then moves ++ [to] else moves))
        grid [].

Definition handleSquareClick (rd : Render) (r c : Z) : M unit :=
  if negb (gameStarted rd) then ret tt else
  if engineEnabled rd
     && match gameMode rd with
        | PvP => false
        | CvC => true
        | PvC => Team_eqb (turn rd) RED
        | CvP => Team_eqb (turn rd) BLUE
        end
  then ret tt else
  match selected rd with
  | None =>
      piece <- lift (cell (board rd) r c) ;;
      match piece with
      | Some pc =>
          if Team_eqb (team pc) (turn rd) then
            setSelected (Some (r, c)) ;;
            moves <- lift (legalDestinations (board rd) (r, c) (turn rd)) ;;
            setLegalMoves moves
          else ret tt
      | None => ret tt
      end
  | Some (sr, sc) =>
      if (sr =? r) && (sc =? c) then
        setSelected None ;; setLegalMoves []
      else
        piece <- lift (cell (board rd) sr sc) ;;
        match piece with
        | None => ret tt
        | Some pc =>
            target <- lift (cell (board rd) r c) ;;
            if match target with
               | Some t => Team_eqb (team t) (team pc)
               | None => false
               end
            then
              setSelected (Some (r, c)) ;;
              moves <- lift (legalDestinations (board rd) (r, c) (turn rd)) ;;
              setLegalMoves moves
            else
              ok <- lift (isValidMove (board rd) (sr, sc) (r, c) (turn rd)) ;;
              if ok then executeMove rd (sr, sc) (r, c)
              else setSelected None ;; setLegalMoves []
        end
  end.

(** ** App.tsx: the engine's move token and output lines *)

Definition colMap (ch : option ascii) : option Z :=
  match ch with
  | Some "a"%char => Some 0 | Some "b"%char => Some 1 | Some "c"%char => Some 2
  | Some "d"%char => Some 3 | Some "e"%char => Some 4 | Some "f"%char => Some 5
  | Some "g"%char => Some 6 | Some "h"%char => Some 7 | Some "i"%char => Some 8
  | _ => None
  end.

(** [parseInt(s, 10)] for [s] a one-character string or [undefined];
    [None] is [NaN]. *)
Definition parseInt (ch : option ascii) : option Z :=
  match ch with
  | Some "0"%char => Some 0 | Some "1"%char => Some 1 | Some "2"%char => Some 2
  | Some "3"%char => Some 3 | Some "4"%char => Some 4 | Some "5"%char => Some 5
  | Some "6"%char => Some 6 | Some "7"%char => Some 7 | Some "8"%char => Some 8
  | Some "9"%char => Some 9
  | _ => None
  end.

(** The parsing half of [applyEngineMove]: the four reads [moveStr[0..3]],
    the column table, the rank flip and the [isNaN] test. *)
Definition decode_move (moveStr : string) : option ((Z * Z) * (Z * Z)) :=
  let scStr := String.get 0 moveStr in
  let srStr := String.get 1 moveStr in
  let ecStr := String.get 2 moveStr in
  let erStr := String.get 3 moveStr in
  let sc := colMap scStr in
  let sr := option_map (fun d => 9 - d) (parseInt srStr) in
  let ec := colMap ecStr in
  let er := option_map (fun d => 9 - d) (parseInt erStr) in
  match sr, sc, er, ec with
  | Some sr, Some sc, Some er, Some ec => Some ((sr, sc), (er, ec))
  | _, _, _, _ => None
  end.

Definition applyEngineMove (rd : Render) (moveStr : string) : M unit :=
  match decode_move moveStr with
  | Some (start, end') => executeMove rd start end'
  | None => console_error moveStr ;; setThinking false
  end.

(** [s.split(' ')] *)
Fixpoint split_space (s : string) : list string :=
  match s with
  | EmptyString => [EmptyString]
  | String ch rest =>
      if Ascii.eqb ch " " then EmptyString :: split_space rest
      else match split_space rest with
           | part :: parts => String ch part :: parts
           | [] => [String ch EmptyString]
           end
  end.

(** The listener handed to [onEngineOutput].  The two score branches only
    call [setEngineScore] and are left out. *)
Definition onEngineOutput (rd : Render) (output : string) : M unit :=
  if String.prefix "bestmove" output then
    setThinking false ;;
    let parts := split_space output in
    match nth_error parts 1 with
    | Some moveStr =>
        if negb (String.eqb moveStr "") && negb (String.eqb moveStr "(none)")
        then applyEngineMove rd moveStr
        else ret tt
    | None => ret tt
    end
  else ret tt.

(** ** App.tsx: the component over time *)

(** The first render: the initial value of every [useState], among them
    [useState<Board>([])], [useState<Team>('b')] and [useState(false)] for
    [gameStarted] and [engineEnabled]. *)
Definition mountRender : Render :=
  mkRender [] BLUE false an an PvP None [] [] (0, 0) false 6.

Definition mount (api : bool) : App := mkApp mountRender false api [] [].

(** The effect on [board, turn, gameStarted, engineEnabled]. *)
Definition boardEffect (rd : Render) : M unit :=
  if gameStarted rd then
    score <- lift (calculateMaterialScore (board rd)) ;;
    setMaterialScore score ;;
    checkEngineMove rd
  else ret tt.

(** Whether the cell [(r, c)] is on screen and can be clicked. *)
Definition rendered (rd : Render) (r c : Z) : bool :=
  gameStarted rd
  && match index (board rd) r with
     | Some row => (0 <=? c) && (c <? Z.of_nat (List.length row))
     | None => false
     end.

Inductive Event : Type :=
| StartGame
| Click (r c : Z)
| Undo
| Pass
| Resign
| ToggleEngine
| SetGameMode (m : GameMode)
| SetRedSetup (s : SetupType)
| SetBlueSetup (s : SetupType)
| SetTimeControl (v : option Z)
| EngineOutput (output : string)
| Effect.

(** What one event runs.  The handlers in the JSX and the effect on
    [board, turn, gameStarted, engineEnabled] are those of the latest render
    and read its values.  The engine listener is different: the effect that
    registers it has the dependency list [[]], so it runs once, after the
    first render, and the [applyEngineMove] and [executeMove] it reaches are
    the closures of that first render, over [mountRender].  Setters, the
    [isEngineThinking] ref and [window.electronAPI] act on the live
    application in either case.  Without [window.electronAPI] no listener is
    registered.  A disabled button and a cell that is not on screen take no
    click. *)
Definition handle (e : Event) : M unit :=
  fun a =>
    let rd := state a in
    match e with
    | StartGame => startGame rd a
    | Click r c => if rendered rd r c then handleSquareClick rd r c a else (Ok tt, a)
    | Undo => undoMove rd a
    | Pass => passTurn rd a
    | Resign => if gameStarted rd then resign rd a else (Ok tt, a)
    | ToggleEngine => setEngineEnabled (negb (engineEnabled rd)) a
    | SetGameMode m => setGameMode m a
    | SetRedSetup s => setRedSetup s a
    | SetBlueSetup s => setBlueSetup s a
    | SetTimeControl v =>
        setTimeControl (Z.max 1 (match v with
                                 | Some n => if n =? 0 then 1 else n
                                 | None => 1
                                 end)) a
    | EngineOutput output =>
        if electronAPI a then onEngineOutput mountRender output a else (Ok tt, a)
    | Effect => boardEffect rd a
    end.

Definition dispatch (e : Event) (a : App) : App := snd (handle e a).

Definition run (es : list Event) (a : App) : App :=
  fold_left (fun a e => dispatch e a) es a.

(** The part of the application that the match state machine owns. *)
Definition position (a : App) : Board * Team * list MoveRecord.t :=
  (board (state a), turn (state a), history (state a)).

(** ** Notions used to state the properties *)

(** [n] cells from [(r, c)] in steps of [(dy, dx)]. *)
Fixpoint ray (r c dy dx : Z) (n : nat) : list (Z * Z) :=
  match n with
  | O => []
  | S n' => (r, c) :: ray (r + dy) (c + dx) dy dx n'
  end.

(** The cells strictly between two cells of one rank, file or diagonal. *)
Definition between (start end' : Z * Z) : list (Z * Z) :=
  let dy := Z.sgn (fst end' - fst start) in
  let dx := Z.sgn (snd end' - snd start) in
  ray (fst start + dy) (snd start + dx) dy dx (span start end' - 1).

(** Two cells of one file, one rank or one exact diagonal. *)
Definition aligned (start end' : Z * Z) : Prop :=
  snd start = snd end' \/ fst start = fst end'
  \/ Z.abs (snd end' - snd start) = Z.abs (fst end' - fst start).

Definition occupied (bd : Board) (rc : Z * Z) : bool :=
  match cell bd (fst rc) (snd rc) with
  | Ok (Some _) => true
  | _ => false
  end.

Definition holds (bd : Board) (rc : Z * Z) (t : PieceType) : bool :=
  match cell bd (fst rc) (snd rc) with
  | Ok (Some pc) => PieceType_eqb (type pc) t
  | _ => false
  end.

(** The pieces standing strictly between two cells. *)
Definition screens (bd : Board) (start end' : Z * Z) : list (Z * Z) :=
  filter (occupied bd) (between start end').

Definition straight (start end' : Z * Z) : bool :=
  (snd start =? snd end') || (fst start =? fst end').

Definition palaceDiagonal (start end' : Z * Z) (tm : Team) : bool :=
  inPalace (fst start) (snd start) tm && inPalace (fst end') (snd end') tm
  && (Z.abs (snd end' - snd start) =? Z.abs (fst end' - fst start)).

(** Both rows of a move are rows of the board. *)
Definition rowsOnBoard (bd : Board) (start end' : Z * Z) : Prop :=
  0 <= fst start < Z.of_nat (List.length bd)
  /\ 0 <= fst end' < Z.of_nat (List.length bd).

(** The filters that [isValidMove] applies before it looks at the kind of
    the piece: distinct cells, a piece of the side to move on the first, no
    piece of that side on the second. *)
Definition passesFilters (bd : Board) (start end' : Z * Z) (tm : Team)
           (t : PieceType) (target : option Piece) : Prop :=
  start <> end'
  /\ cell bd (fst start) (snd start) = Ok (Some (p tm t))
  /\ cell bd (fst end') (snd end') = Ok target
  /\ match target with Some x => team x <> tm | None => True end.

(** The cannon rule in the words of the specification: a straight line or a
    diagonal of the mover's palace, exactly one piece in between, no cannon
    on the destination and no cannon as the screen. *)
Definition po_rule_as_specified (bd : Board) (start end' : Z * Z) (tm : Team) : bool :=
  (straight start end' || palaceDiagonal start end' tm)
  && (Z.of_nat (List.length (screens bd start end')) =? 1)
  && negb (holds bd end' po)
  && negb (existsb (fun rc => holds bd rc po) (screens bd start end')).

(** The cannon rule that the code applies. *)
Definition po_rule (bd : Board) (start end' : Z * Z) (tm : Team) : bool :=
  (straight start end' || palaceDiagonal start end' tm)
  && (Z.of_nat (List.length (screens bd start end')) =? 1)
  && negb (holds bd end' po).

(** The elephant's first intermediate cell in the words of the
    specification: one step from the source along the axis of the shorter
    displacement. *)
Definition sang_first_as_specified (start end' : Z * Z) : Z * Z :=
  let dy := fst end' - fst start in
  let dx := snd end' - snd start in
  if Z.abs dx <? Z.abs dy
  then (fst start, snd start + Z.sgn dx)
  else (fst start + Z.sgn dy, snd start).

(** The two cells that the code inspects for the elephant: one step from
    the source along the axis of the longer displacement, then one diagonal
    step further towards the destination. *)
Definition sang_first (start end' : Z * Z) : Z * Z :=
  let dy := fst end' - fst start in
  let dx := snd end' - snd start in
  if Z.abs dx <? Z.abs dy
  then (fst start + Z.sgn dy, snd start)
  else (fst start, snd start + Z.sgn dx).

Definition sang_second (start end' : Z * Z) : Z * Z :=
  let dy := fst end' - fst start in
  let dx := snd end' - snd start in
  if Z.abs dx <? Z.abs dy
  then (fst start + 2 * Z.sgn dy, snd start + Z.sgn dx)
  else (fst start + Z.sgn dy, snd start + 2 * Z.sgn dx).

(** The horse's leg: the cell next to the source along the axis of the
    longer displacement. *)
Definition ma_leg (start end' : Z * Z) : Z * Z :=
  let dy := fst end' - fst start in
  let dx := snd end' - snd start in
  if Z.abs dx <? Z.abs dy
  then (fst start + Z.sgn dy, snd start)
  else (fst start, snd start + Z.sgn dx).

Definition jumpShape (start end' : Z * Z) (short long : Z) : Prop :=
  let dy := Z.abs (fst end' - fst start) in
  let dx := Z.abs (snd end' - snd start) in
  (dx = short /\ dy = long) \/ (dx = long /\ dy = short).

(** The first four characters of a move token are a file, a rank, a file
    and a rank. *)
Definition isFile (ch : ascii) : bool :=
  let n := nat_of_ascii ch in (97 <=? n)%nat && (n <=? 105)%nat.

Definition isRank (ch : ascii) : bool :=
  let n := nat_of_ascii ch in (48 <=? n)%nat && (n <=? 57)%nat.

Definition fileOf (ch : ascii) : Z := Z.of_nat (nat_of_ascii ch) - 97.
Definition rankOf (ch : ascii) : Z := Z.of_nat (nat_of_ascii ch) - 48.

Definition wellFormedPrefix (moveStr : string) : bool :=
  match moveStr with
  | String f1 (String r1 (String f2 (String r2 _))) =>
      isFile f1 && isRank r1 && isFile f2 && isRank r2
  | _ => false
  end.

(** The events through which a move can be requested, and the effect run
    that React may interleave with them. *)
Definition moveRequest (e : Event) : bool :=
  match e with
  | Click _ _ | EngineOutput _ => true
  | _ => false
  end.

Definition moveRequestOrEffect (e : Event) : bool :=
  match e with
  | Click _ _ | EngineOutput _ | Effect => true
  | _ => false
  end.

(** The button that starts a new game. *)
Definition isStartGame (e : Event) : bool :=
  match e with
  | StartGame => true
  | _ => false
  end.

(** The board after the piece on [start] has been put on [end']. *)
Definition relocate (bd : Board) (start end' : Z * Z) : Res Board :=
  let? piece := cell bd (fst start) (snd start) in
  let? bd1 := store bd (fst end') (snd end') piece in
  store bd1 (fst start) (snd start) None.

Definition moveNotation (start end' : Z * Z) : string :=
  (dec (fst start) ++ "," ++ dec (snd start) ++ " > "
   ++ dec (fst end') ++ "," ++ dec (snd end'))%string.

(** The hook state after [executeMove] has run its five setters: the board
    is the one it built, the selection is cleared, the record is appended
    and the side has changed.  The record holds the board and the side of
    the render that the closure belongs to. *)
Definition afterMove (rd : Render) (s : Render) (start end' : Z * Z)
           (newBoard : Board) : Render :=
  mkRender newBoard (other (turn s)) (gameStarted s) (redSetup s) (blueSetup s)
           (gameMode s) None []
           (history s ++ [MoveRecord.mk (Z.of_nat (List.length (history s)) + 1)
                                        (moveNotation start end') (turn rd) (board rd)])
           (materialScore s) (engineEnabled s) (timeControl s).

(** A move token in the words of the specification: exactly four
    characters, a file, a rank, a file and a rank. *)
Definition wellFormedToken (moveStr : string) : bool :=
  (String.length moveStr =? 4)%nat && wellFormedPrefix moveStr.

(** A coordinate of the 10-row by 9-column grid. *)
Definition inGrid (rc : Z * Z) : bool :=
  (0 <=? fst rc) && (fst rc <=? 9) && (0 <=? snd rc) && (snd rc <=? 8).

(** A human playing Cho against the engine: choose the mode, switch the
    engine on, start, and push the leftmost soldier one step.  React runs
    the effect after the first render and after each commit that changed
    [board], [turn], [gameStarted] or [engineEnabled]. *)
Definition pvc_opening : list Event :=
  [Effect; SetGameMode PvC; ToggleEngine; Effect; StartGame; Effect;
   Click 3 0; Click 4 0; Effect].

(** A search command among the commands sent. *)
Definition isGo (cmd : string) : bool := String.prefix "go movetime " cmd.

Definition isBestmove (e : Event) : bool :=
  match e with
  | EngineOutput output => String.prefix "bestmove" output
  | _ => false
  end.

(** ** App.tsx: saveGibo *)

(** The text that [saveGibo] puts in the file it offers for download: one
    line per record, joined by line feeds. *)
Definition giboLine (h : MoveRecord.t) : string :=
  (dec (MoveRecord.seq h) ++ ". "
   ++ match MoveRecord.turn h with RED => "r" | BLUE => "b" end
   ++ ": " ++ MoveRecord.notation h)%string.

Definition saveGibo (rd : Render) : string :=
  String.concat (String (ascii_of_nat 10) EmptyString) (map giboLine (history rd)).

(** ** More notions *)

(** A board of ten rows of nine cells. *)
Definition fullGrid (bd : Board) : Prop :=
  List.length bd = 10%nat /\ Forall (fun row : Row => List.length row = 9%nat) bd.

(** The states that the application can be in: the mounted component, and
    whatever an event makes of a state it can be in. *)
Inductive reachable (api : bool) : App -> Prop :=
| reachable_mount : reachable api (mount api)
| reachable_step (a : App) (e : Event) :
    reachable api a -> reachable api (dispatch e a).

(** The side that makes the move with the given index in the history. *)
Definition sideAt (n : nat) : Team := if Nat.even n then BLUE else RED.

(** Forward or sideways for a side: Cho moves down the rows, Han up. *)
Definition notBackward (tm : Team) (dy : Z) : Prop :=
  match tm with BLUE => 0 <= dy | RED => dy <= 0 end.

Definition strictlyForward (tm : Team) (dy : Z) : Prop :=
  match tm with BLUE => 0 < dy | RED => dy < 0 end.

(** The two cells that [isCenterStart] and [isCenterEnd] name. *)
Definition palaceCentre (rc : Z * Z) : Prop := rc = (1, 4) \/ rc = (8, 4).

(** A move or a pass as the live handlers carry it out. *)
Inductive Ply : Type :=
| PassPly
| MovePly (start end' : Z * Z).

Definition play (a : App) (pl : Ply) : App :=
  match pl with
  | PassPly => dispatch Pass a
  | MovePly start end' => snd (executeMove (state a) start end' a)
  end.

(** Every move of the list is one that [isValidMove] accepts when its turn
    comes. *)
Fixpoint playable (a : App) (pls : list Ply) : Prop :=
  match pls with
  | [] => True
  | pl :: rest =>
      match pl with
      | PassPly => True
      | MovePly start end' =>
          isValidMove (board (state a)) start end' (turn (state a)) = Ok true
      end
      /\ playable (play a pl) rest
  end.

(** Reading a position line back.  A rank is read character by character:
    a digit stands for that many empty cells, a letter for its piece. *)
Definition unfenChar (ch : ascii) : Row :=
  match ch with
  | "R" => [Some (p RED cha)] | "N" => [Some (p RED ma)]
  | "E" => [Some (p RED sang)] | "C" => [Some (p RED po)]
  | "A" => [Some (p RED sa)] | "K" => [Some (p RED jang)]
  | "P" => [Some (p RED jol)]
  | "r" => [Some (p BLUE cha)] | "n" => [Some (p BLUE ma)]
  | "e" => [Some (p BLUE sang)] | "c" => [Some (p BLUE po)]
  | "a" => [Some (p BLUE sa)] | "k" => [Some (p BLUE jang)]
  | "p" => [Some (p BLUE jol)]
  | "1" => repeat None 1 | "2" => repeat None 2 | "3" => repeat None 3
  | "4" => repeat None 4 | "5" => repeat None 5 | "6" => repeat None 6
  | "7" => repeat None 7 | "8" => repeat None 8 | "9" => repeat None 9
  | _ => []
  end%char.

Fixpoint unfenRow (s : string) : Row :=
  match s with
  | EmptyString => []
  | String ch rest => unfenChar ch ++ unfenRow rest
  end.

(** The fields of a string between occurrences of a separator. *)
Fixpoint split_on (sep : ascii) (s : string) : list string :=
  match s with
  | EmptyString => [EmptyString]
  | String ch rest =>
      if Ascii.eqb ch sep then EmptyString :: split_on sep rest
      else match split_on sep rest with
           | part :: parts => String ch part :: parts
           | [] => [String ch EmptyString]
           end
  end.

Definition parseFen (line : string) : option (Board * Team) :=
  match split_on " " line with
  | ranks :: side :: _ =>
      let bd := map unfenRow (split_on "/" ranks) in
      if String.eqb side "b" then Some (bd, BLUE)
      else if String.eqb side "w" then Some (bd, RED)
      else None
  | _ => None
  end.

(** Events that enter no think time beyond the safe range. *)
Definition modestTimes (e : Event) : bool :=
  match e with
  | SetTimeControl (Some n) => safeThinkTime n
  | _ => true
  end.

(** The two commands of one search request. *)
Definition searchRequest (fen : string) (seconds : Z) : list string :=
  [("position fen " ++ fen)%string; ("go movetime " ++ dec (seconds * 1000))%string].

(** The hook state with another selection and other highlights. *)
Definition withSelection (s : Render) (sel : option (Z * Z)) (moves : list (Z * Z))
  : Render :=
  mkRender (board s) (turn s) (gameStarted s) (redSetup s) (blueSetup s)
           (gameMode s) sel moves (history s) (materialScore s)
           (engineEnabled s) (timeControl s).

(** The number of pieces of one side and kind on a board. *)
Definition countPieces (bd : Board) (tm : Team) (t : PieceType) : nat :=
  List.length
    (filter (fun x : option Piece =>
               match x with
               | Some pc => Team_eqb (team pc) tm && PieceType_eqb (type pc) t
               | None => false
               end)
            (List.concat bd)).

(** What one cell adds to the pair (red, blue) of material scores. *)
Definition cellScore (x : option Piece) : Z * Z :=
  match x with
  | Some pc =>
      match team pc with
      | RED => (PIECE_SCORES (type pc), 0)
      | BLUE => (0, PIECE_SCORES (type pc))
      end
  | None => (0, 0)
  end.

(** A board with the two generals and one rook of Han only. *)
Definition loneRook : Board :=
  place (place (place (repeat (repeat None 9%nat) 10%nat) 1 4 (p BLUE jang))
               8 4 (p RED jang))
        9 0 (p RED cha).

(** What a read of a cell finds, with nothing for a cell off the board. *)
Definition peek (bd : Board) (rc : Z * Z) : option Piece :=
  match cell bd (fst rc) (snd rc) with
  | Ok x => x
  | _ => None
  end.

(** One step of the inner loop of [generateFen], and a whole rank. *)
Definition fenStep (acc : string * Z) (x : option Piece) : string * Z :=
  match x with
  | Some pc => ((flushEmpty (fst acc) (snd acc) ++ fenMap pc)%string, 0)
  | None => (fst acc, snd acc + 1)
  end.

Definition fenOfRow (row : Row) : string :=
  let acc := fold_left fenStep row (EmptyString, 0) in
  flushEmpty (fst acc) (snd acc).

(** What [generateFen] builds from the ranks and the side. *)
Definition fenLine (ranks : list string) (tm : Team) : string :=
  (String.concat "/" ranks ++ " "
   ++ match tm with BLUE => "b" | RED => "w" end ++ " - - 0 1")%string.

(** The sum of the material of all cells of a list, as (red, blue). *)
Definition addScore (acc : Z * Z) (x : option Piece) : Z * Z :=
  (fst acc + fst (cellScore x), snd acc + snd (cellScore x)).

Definition material (cells : list (option Piece)) : Z * Z :=
  fold_left addScore cells (0, 0).

(** The outcome of the two [sendCommand] calls behind a test of
    [window.electronAPI] and [engineEnabled]: the result and the commands
    sent. *)
Definition sendOutcome (a : App) (enabled : bool) (fen : Res string) (seconds : Z)
  : Res unit * list string :=
  if electronAPI a && enabled then
    match fen with
    | Ok line => (Ok tt, sent a ++ searchRequest line seconds)
    | TypeError => (TypeError, sent a)
    | Diverge => (Diverge, sent a)
    end
  else (Ok tt, sent a).

Definition withMaterialScore (s : Render) (score : Z * Z) : Render :=
  mkRender (board s) (turn s) (gameStarted s) (redSetup s) (blueSetup s)
           (gameMode s) (selected s) (legalMoves s) (history s) score
           (engineEnabled s) (timeControl s).

(** The shapes of the boards that the component holds: nothing at all
    before the first start, ten rows of nine cells ever after. *)
Definition boardsOK (s : Render) : Prop :=
  (gameStarted s = false /\ board s = []
   /\ Forall (fun h => MoveRecord.prevBoard h = []) (history s))
  \/ (fullGrid (board s)
      /\ Forall (fun h => fullGrid (MoveRecord.prevBoard h)) (history s)).

(** Records are numbered from one and name the sides in turn, Cho first. *)
Definition wellNumbered (hs : list MoveRecord.t) : Prop :=
  forall i h, nth_error hs i = Some h ->
              MoveRecord.seq h = Z.of_nat i + 1 /\ MoveRecord.turn h = sideAt i.

Definition Inv (s : Render) : Prop :=
  boardsOK s
  /\ (forall rc, selected s = Some rc -> inGrid rc = true)
  /\ wellNumbered (history s)
  /\ turn s = sideAt (List.length (history s))
  /\ 1 <= timeControl s.

(** The engine's side is to move, as [checkEngineMove] and
    [handleSquareClick] decide it. *)
Definition engineToMove (s : Render) : bool :=
  match gameMode s with
  | CvC => true
  | PvC => Team_eqb (turn s) RED
  | CvP => Team_eqb (turn s) BLUE
  | PvP => false
  end.

(** Whether [isValidMove] accepts a move. *)
Definition accepts (bd : Board) (from : Z * Z) (tm : Team) (to : Z * Z) : bool :=
  match isValidMove bd from to tm with
  | Ok true => true
  | _ => false
  end.


Definition isEngineOutput (e : Event) : bool :=
  match e with
  | EngineOutput _ => true
  | _ => false
  end.

(** The application after a [bestmove] line has cleared the in-flight
    flag. *)
Definition flagCleared (a : App) : App :=
  mkApp (state a) false (electronAPI a) (sent a) (console a).

(** The commands of a list of requests, each a position line and a think
    time in seconds. *)
Definition requestCommands (reqs : list (string * Z)) : list string :=
  flat_map (fun req => searchRequest (fst req) (snd req)) reqs.

(** A string without a given character. *)
Fixpoint freeOf (sep : ascii) (s : string) : bool :=
  match s with
  | EmptyString => true
  | String ch rest => negb (Ascii.eqb ch sep) && freeOf sep rest
  end.

(** The sum of a measure of the pieces over a list of cells of a board. *)
Definition sumOver (h : option Piece -> Z) (f : Z * Z -> option Piece)
           (l : list (Z * Z)) : Z :=
  fold_right (fun rc s => h (f rc) + s) 0 l.

(** The line of the exported log for the record with a given index. *)
Definition numberedLine (i : nat) (h : MoveRecord.t) : string :=
  (dec (Z.of_nat i + 1) ++ ". "
   ++ match sideAt i with RED => "r" | BLUE => "b" end
   ++ ": " ++ MoveRecord.notation h)%string.

(** Events that neither start a game, nor click a cell, nor come from the
    engine. *)
Definition bystander (e : Event) : bool :=
  match e with
  | StartGame | Click _ _ | EngineOutput _ => false
  | _ => true
  end.

(** Every general and guard of a board stands inside the palace of its
    side. *)
Definition palaceBound (bd : Board) : Prop :=
  forall r c pc,
    cell bd r c = Ok (Some pc) -> type pc = sa \/ type pc = jang ->
    inPalace r c (team pc) = true.

Definition atHome (bd : Board) (rc : Z * Z) : bool :=
  match peek bd rc with
  | Some pc =>
      match type pc with
      | sa | jang => inPalace (fst rc) (snd rc) (team pc)
      | _ => true
      end
  | None => true
  end.

(** The same of the board on display and of every board kept for undo. *)
Definition palacesKept (s : Render) : Prop :=
  palaceBound (board s)
  /\ Forall (fun h => palaceBound (MoveRecord.prevBoard h)) (history s).

(** * Properties *)

#[global] Arguments countObstacles : simpl never.
#[global] Arguments hasObstacle : simpl never.
#[global] Arguments vacant : simpl never.
#[global] Arguments inPalace : simpl never.

(** ** Array reads *)

Lemma index_Some_iff {A : Type} (l : list A) (i : Z) :
  (exists x, index l i = Some x) <-> 0 <= i < Z.of_nat (List.length l).
Proof.
  unfold index. destruct (Z.ltb_spec i 0) as [Hneg | Hpos].
  - split; [intros [x Hx]; discriminate | lia].
  - split.
    + intros [x Hx].
      assert (Hn : nth_error l (Z.to_nat i) <> None) by congruence.
      apply nth_error_Some in Hn. lia.
    + intros Hi. destruct (nth_error l (Z.to_nat i)) eqn:E; [eauto |].
      apply nth_error_None in E. lia.
Qed.

Lemma cell_row_defined (bd : Board) (r c : Z) (x : option Piece) :
  cell bd r c = Ok x -> 0 <= r < Z.of_nat (List.length bd).
Proof.
  unfold cell. destruct (index bd r) eqn:E; [| discriminate].
  intros _. apply index_Some_iff. eauto.
Qed.

Lemma cell_on_board (bd : Board) (r c : Z) :
  0 <= r < Z.of_nat (List.length bd) -> exists x, cell bd r c = Ok x.
Proof.
  intros Hr. apply index_Some_iff in Hr. destruct Hr as [row Hrow].
  unfold cell. rewrite Hrow. eauto.
Qed.

Lemma cell_never_diverges (bd : Board) (r c : Z) : cell bd r c <> Diverge.
Proof. unfold cell. destruct (index bd r); discriminate. Qed.

Lemma vacant_on_board (bd : Board) (r c : Z) :
  0 <= r < Z.of_nat (List.length bd) ->
  vacant bd r c = Ok (negb (occupied bd (r, c))).
Proof.
  intros Hr. destruct (cell_on_board bd r c Hr) as [x Hx].
  unfold vacant, occupied. simpl. rewrite Hx. simpl. destruct x; reflexivity.
Qed.

(** ** countObstacles *)

Section CountObstacles.

Variable bd : Board.

(** The loop, started [n] unit steps before its target and given at least
    [n] units of fuel, ends and has counted the pieces on those [n] cells. *)
Lemma countObstacles_loop_spec (ey ex dy dx : Z) :
  (dy <> 0 \/ dx <> 0) ->
  forall (n fuel : nat) (r c count : Z),
    (n <= fuel)%nat ->
    ey = r + Z.of_nat n * dy ->
    ex = c + Z.of_nat n * dx ->
    (forall k, 0 <= k < Z.of_nat n ->
               0 <= r + k * dy < Z.of_nat (List.length bd)) ->
    countObstacles_loop fuel bd r c ey ex dy dx count
    = Ok (count + Z.of_nat (List.length (filter (occupied bd) (ray r c dy dx n)))).
Proof.
  intros Hdir. induction n as [| n IH]; intros fuel r c count Hfuel Hy Hx Hrows.
  - assert (r = ey) by lia. assert (c = ex) by lia. subst r c.
    destruct fuel; simpl; rewrite !Z.eqb_refl; simpl; f_equal; lia.
  - destruct fuel as [| fuel]; [lia |].
    assert (Hne : (r =? ey) && (c =? ex) = false).
    { apply andb_false_iff.
      destruct Hdir as [Hd | Hd]; [left | right]; apply Z.eqb_neq; nia. }
    simpl. rewrite Hne.
    destruct (cell_on_board bd r c) as [x Hx'].
    { specialize (Hrows 0). rewrite Z.mul_0_l, Z.add_0_r in Hrows. apply Hrows. lia. }
    rewrite Hx'. simpl.
    rewrite (IH fuel (r + dy) (c + dx)); try lia.
    + unfold occupied at 2. simpl. rewrite Hx'.
      destruct x; simpl; f_equal; lia.
    + intros k Hk. specialize (Hrows (k + 1)).
      replace (r + dy + k * dy) with (r + (k + 1) * dy) by lia.
      apply Hrows. lia.
Qed.

(** On a rank, a file or an exact diagonal whose two rows are rows of the
    board, [countObstacles] returns, whatever fuel beyond the span it is
    given, the number of pieces strictly between the two cells. *)
Lemma countObstacles_fuel_spec (start end' : Z * Z) (fuel : nat) :
  aligned start end' -> start <> end' -> rowsOnBoard bd start end' ->
  (span start end' - 1 <= fuel)%nat ->
  countObstacles_fuel fuel bd start end'
  = Ok (Z.of_nat (List.length (screens bd start end'))).
Proof.
  destruct start as [sy sx], end' as [ey ex].
  unfold aligned, rowsOnBoard, span, screens, between, countObstacles_fuel. simpl.
  intros Hal Hne [Hs He] Hfuel.
  assert (Hne' : ey - sy <> 0 \/ ex - sx <> 0).
  { destruct (Z.eq_dec ey sy), (Z.eq_dec ex sx); try lia.
    exfalso. apply Hne. f_equal; lia. }
  set (dy := Z.sgn (ey - sy)) in *. set (dx := Z.sgn (ex - sx)) in *.
  set (m := Z.max (Z.abs (ey - sy)) (Z.abs (ex - sx))) in *.
  assert (Hm : 1 <= m) by lia.
  assert (Hy : ey - sy = m * dy) by (subst dy m; lia).
  assert (Hx : ex - sx = m * dx) by (subst dx m; lia).
  rewrite (countObstacles_loop_spec ey ex dy dx) with (n := (Z.to_nat m - 1)%nat).
  - f_equal.
  - subst dy dx. lia.
  - exact Hfuel.
  - rewrite Nat2Z.inj_sub, Z2Nat.id by lia. simpl. lia.
  - rewrite Nat2Z.inj_sub, Z2Nat.id by lia. simpl. lia.
  - intros k Hk. rewrite Nat2Z.inj_sub, Z2Nat.id in Hk by lia. simpl in Hk.
    assert (Hdy : -1 <= dy <= 1) by (subst dy; lia).
    nia.
Qed.

Lemma countObstacles_spec (start end' : Z * Z) :
  aligned start end' -> start <> end' -> rowsOnBoard bd start end' ->
  countObstacles bd start end' = Ok (Z.of_nat (List.length (screens bd start end'))).
Proof.
  intros Hal Hne Hrows. unfold countObstacles.
  apply countObstacles_fuel_spec; auto. lia.
Qed.

(** More fuel does not change the answer. *)
Lemma countObstacles_fuel_enough (start end' : Z * Z) (fuel : nat) :
  aligned start end' -> start <> end' -> rowsOnBoard bd start end' ->
  (span start end' <= fuel)%nat ->
  countObstacles_fuel fuel bd start end' = countObstacles bd start end'.
Proof.
  intros Hal Hne Hrows Hfuel.
  rewrite countObstacles_spec by assumption.
  apply countObstacles_fuel_spec; auto. lia.
Qed.

(** Started a whole number of steps before its target, the loop ends. *)
Lemma countObstacles_loop_reaches (ey ex dy dx : Z) (n : nat) :
  forall (fuel : nat) (r c count : Z),
    (n <= fuel)%nat ->
    ey = r + Z.of_nat n * dy ->
    ex = c + Z.of_nat n * dx ->
    countObstacles_loop fuel bd r c ey ex dy dx count <> Diverge.
Proof.
  induction n as [| n IH]; intros fuel r c count Hfuel Hy Hx.
  - assert (r = ey) by lia. assert (c = ex) by lia. subst r c.
    destruct fuel; simpl; rewrite !Z.eqb_refl; discriminate.
  - destruct fuel as [| fuel]; [lia |]. simpl.
    destruct ((r =? ey) && (c =? ex)); [discriminate |].
    destruct (cell bd r c) as [x | |] eqn:Hcell; simpl; try discriminate.
    + apply IH; lia.
    + exfalso. exact (cell_never_diverges _ _ _ Hcell).
Qed.

(** Moving from row to row, the loop ends or leaves the board. *)
Lemma countObstacles_loop_leaves (ey ex dy dx : Z) :
  dy = 1 \/ dy = -1 ->
  forall (fuel : nat) (r c count : Z),
    (0 < fuel)%nat ->
    (0 <= r < Z.of_nat (List.length bd) ->
     (Z.to_nat (if (dy =? 1)%Z then (Z.of_nat (List.length bd) - r)%Z else (r + 1)%Z)
      < fuel)%nat) ->
    countObstacles_loop fuel bd r c ey ex dy dx count <> Diverge.
Proof.
  intros Hdy. induction fuel as [| fuel IH]; intros r c count Hpos Hfuel; [lia |].
  simpl. destruct ((r =? ey) && (c =? ex)); [discriminate |].
  destruct (cell bd r c) as [x | |] eqn:Hcell; simpl; try discriminate.
  - apply cell_row_defined in Hcell. specialize (Hfuel Hcell).
    apply IH.
    + destruct Hdy as [-> | ->]; simpl in Hfuel; lia.
    + intros Hnext. destruct Hdy as [-> | ->]; simpl in *; lia.
  - exfalso. exact (cell_never_diverges _ _ _ Hcell).
Qed.

(** [countObstacles] returns or raises, whatever the two cells. *)
Lemma countObstacles_never_diverges (start end' : Z * Z) :
  countObstacles bd start end' <> Diverge.
Proof.
  destruct start as [sy sx], end' as [ey ex].
  unfold countObstacles, countObstacles_fuel, span. cbn [fst snd].
  set (m := Z.max (Z.abs (ey - sy)) (Z.abs (ex - sx))).
  destruct (Z.eq_dec ey sy) as [-> | Hrows].
  - rewrite Z.sub_diag. cbn [Z.sgn]. rewrite Z.add_0_r.
    apply (countObstacles_loop_reaches sy ex 0 (Z.sgn (ex - sx)) (Z.to_nat m - 1));
      [subst m; lia | lia |].
    subst m. rewrite Z.sub_diag.
    destruct (Z.sgn_spec (ex - sx)) as [[Hlt ->] | [[Heq ->] | [Hgt ->]]]; lia.
  - apply countObstacles_loop_leaves; [lia | lia |].
    intros Hrow. destruct (Z.sgn (ey - sy) =? 1); lia.
Qed.

End CountObstacles.

(** A cell is strictly between two aligned cells exactly when it is a
    proper number of unit steps from the first towards the second. *)
Lemma in_ray (r c dy dx : Z) (n : nat) (rc : Z * Z) :
  In rc (ray r c dy dx n)
  <-> exists k, 0 <= k < Z.of_nat n /\ rc = (r + k * dy, c + k * dx).
Proof.
  revert r c. induction n as [| n IH]; intros r c; simpl.
  - split; [tauto | intros [k [Hk _]]; lia].
  - rewrite IH. split.
    + intros [Heq | [k [Hk Heq]]].
      * exists 0. split; [lia |]. subst rc. f_equal; lia.
      * exists (k + 1). split; [lia |]. subst rc. f_equal; lia.
    + intros [k [Hk Heq]]. destruct (Z.eq_dec k 0) as [-> | Hk0].
      * left. subst rc. f_equal; lia.
      * right. exists (k - 1). split; [lia |]. subst rc. f_equal; lia.
Qed.

Lemma in_between (start end' rc : Z * Z) :
  In rc (between start end')
  <-> exists k, 0 < k < Z.of_nat (span start end')
                /\ rc = (fst start + k * Z.sgn (fst end' - fst start),
                         snd start + k * Z.sgn (snd end' - snd start)).
Proof.
  unfold between. rewrite in_ray. split.
  - intros [k [Hk Heq]]. exists (k + 1). split; [lia |]. subst rc. f_equal; lia.
  - intros [k [Hk Heq]]. exists (k - 1). split; [lia |]. subst rc. f_equal; lia.
Qed.

(** ** isValidMove *)

Lemma distinct_cells (sy sx ey ex : Z) :
  (sy =? ey) && (sx =? ex) = false <-> (sy, sx) <> (ey, ex).
Proof.
  rewrite andb_false_iff, !Z.eqb_neq. split.
  - intros [H | H] Heq; injection Heq; lia.
  - intros H. destruct (Z.eq_dec sy ey); [right | left; assumption].
    intros ->. subst. apply H. reflexivity.
Qed.

Lemma Team_eqb_eq (x y : Team) : Team_eqb x y = true <-> x = y.
Proof. destruct x, y; simpl; split; congruence. Qed.

Lemma straight_aligned (start end' : Z * Z) :
  straight start end' = true -> aligned start end'.
Proof.
  unfold straight, aligned. rewrite orb_true_iff, !Z.eqb_eq. tauto.
Qed.

Lemma palaceDiagonal_aligned (start end' : Z * Z) (tm : Team) :
  palaceDiagonal start end' tm = true -> aligned start end'.
Proof.
  unfold palaceDiagonal, aligned. rewrite !andb_true_iff, Z.eqb_eq. tauto.
Qed.

Lemma filters_rowsOnBoard (bd : Board) (start end' : Z * Z) (tm : Team)
      (t : PieceType) (target : option Piece) :
  passesFilters bd start end' tm t target -> rowsOnBoard bd start end'.
Proof.
  intros (_ & Hpiece & Htarget & _).
  split; eapply cell_row_defined; eassumption.
Qed.

Lemma filters_not_own (target : option Piece) (tm : Team) :
  match target with Some x => team x <> tm | None => True end ->
  match target with Some x => Team_eqb (team x) tm | None => false end = false.
Proof.
  destruct target as [x |]; [| reflexivity]. intros Hx.
  destruct (Team_eqb (team x) tm) eqn:E; [| reflexivity].
  apply Team_eqb_eq in E. contradiction.
Qed.

(** Runs [isValidMove] through its filters. *)
Ltac pass_filters Hf :=
  let Hne := fresh "Hne" in
  let Hpiece := fresh "Hpiece" in
  let Htarget := fresh "Htarget" in
  let Hteam := fresh "Hteam" in
  pose proof Hf as (Hne & Hpiece & Htarget & Hteam);
  simpl in Hpiece, Htarget;
  unfold isValidMove;
  apply distinct_cells in Hne; rewrite Hne, Hpiece; simpl;
  replace (Team_eqb _ _) with true by (match goal with
                                        | |- true = Team_eqb ?x _ => destruct x
                                        end; reflexivity);
  simpl; rewrite Htarget; simpl;
  rewrite (filters_not_own _ _ Hteam).

Lemma cannon_after_filters (bd : Board) (start end' : Z * Z) (tm : Team)
      (target : option Piece) :
  passesFilters bd start end' tm po target ->
  isValidMove bd start end' tm = Ok (po_rule bd start end' tm).
Proof.
  intros Hf. pose proof (filters_rowsOnBoard _ _ _ _ _ _ Hf) as Hrows.
  destruct start as [sy sx], end' as [ey ex].
  pass_filters Hf.
  unfold po_rule, holds. simpl fst. simpl snd. rewrite Htarget.
  apply distinct_cells in Hne.
  destruct (match target with Some t => PieceType_eqb (type t) po | None => false end)
    eqn:Hpo.
  { rewrite andb_false_r. reflexivity. }
  simpl negb. rewrite andb_true_r.
  change ((sx =? ex) || (sy =? ey)) with (straight (sy, sx) (ey, ex)).
  change (inPalace sy sx tm && inPalace ey ex tm && (Z.abs (ex - sx) =? Z.abs (ey - sy)))
    with (palaceDiagonal (sy, sx) (ey, ex) tm).
  destruct (straight (sy, sx) (ey, ex)) eqn:Hs.
  { rewrite countObstacles_spec; auto using straight_aligned. }
  destruct (palaceDiagonal (sy, sx) (ey, ex) tm) eqn:Hd.
  { rewrite countObstacles_spec; eauto using palaceDiagonal_aligned. }
  reflexivity.
Qed.

(** The guarded divisions are exact unit steps. *)
Lemma exact_step (d n : Z) : 0 < n -> Z.abs d = n -> d / n = Z.sgn d.
Proof.
  intros Hn Hd. assert (Hcases : d = n \/ d = - n) by lia.
  destruct Hcases as [-> | ->].
  - rewrite Z.div_same by lia. lia.
  - rewrite Z.div_opp_l_z by (try lia; apply Z.mod_same; lia).
    rewrite Z.div_same by lia. lia.
Qed.

Lemma horse_after_filters (bd : Board) (start end' : Z * Z) (tm : Team)
      (target : option Piece) :
  passesFilters bd start end' tm ma target ->
  jumpShape start end' 1 2 ->
  isValidMove bd start end' tm = Ok (negb (occupied bd (ma_leg start end'))).
Proof.
  intros Hf Hshape. pose proof (filters_rowsOnBoard _ _ _ _ _ _ Hf) as [Hs He].
  destruct start as [sy sx], end' as [ey ex]. simpl in Hs, He.
  pass_filters Hf.
  unfold jumpShape, ma_leg in *. simpl fst in *. simpl snd in *.
  destruct Hshape as [[Hdx Hdy] | [Hdx Hdy]]; rewrite Hdx, Hdy; simpl.
  - rewrite (exact_step (ey - sy) 2) by lia.
    apply vacant_on_board. lia.
  - rewrite (exact_step (ex - sx) 2) by lia.
    apply vacant_on_board. lia.
Qed.

Lemma elephant_after_filters (bd : Board) (start end' : Z * Z) (tm : Team)
      (target : option Piece) :
  passesFilters bd start end' tm sang target ->
  jumpShape start end' 2 3 ->
  isValidMove bd start end' tm
  = Ok (negb (occupied bd (sang_first start end'))
        && negb (occupied bd (sang_second start end'))).
Proof.
  intros Hf Hshape. pose proof (filters_rowsOnBoard _ _ _ _ _ _ Hf) as [Hs He].
  destruct start as [sy sx], end' as [ey ex]. simpl in Hs, He.
  pass_filters Hf.
  unfold jumpShape, sang_first, sang_second in *. simpl fst in *. simpl snd in *.
  destruct Hshape as [[Hdx Hdy] | [Hdx Hdy]]; rewrite Hdx, Hdy; simpl.
  - rewrite (exact_step (ey - sy) 3), (exact_step (ex - sx) 2) by lia.
    rewrite vacant_on_board by lia. simpl.
    destruct (occupied bd (sy + Z.sgn (ey - sy), sx)); simpl; [reflexivity |].
    rewrite vacant_on_board by lia.
    replace (Z.sgn (ey - sy) * 2) with (2 * Z.sgn (ey - sy)) by lia. reflexivity.
  - rewrite (exact_step (ex - sx) 3), (exact_step (ey - sy) 2) by lia.
    rewrite vacant_on_board by lia. simpl.
    destruct (occupied bd (sy, sx + Z.sgn (ex - sx))); simpl; [reflexivity |].
    rewrite vacant_on_board by lia.
    replace (Z.sgn (ex - sx) * 2) with (2 * Z.sgn (ex - sx)) by lia. reflexivity.
Qed.

Lemma hasObstacle_spec (bd : Board) (start end' : Z * Z) :
  aligned start end' -> start <> end' -> rowsOnBoard bd start end' ->
  hasObstacle bd start end'
  = Ok (0 <? Z.of_nat (List.length (screens bd start end'))).
Proof.
  intros Hal Hne Hrows. unfold hasObstacle.
  rewrite countObstacles_spec by assumption. reflexivity.
Qed.

(** With both rows on the board every read that [isValidMove] makes is
    defined and every loop it starts ends. *)
Lemma isValidMove_returns (bd : Board) (start end' : Z * Z) (tm : Team) :
  rowsOnBoard bd start end' -> exists ok, isValidMove bd start end' tm = Ok ok.
Proof.
  intros Hrows. pose proof Hrows as [Hs He].
  destruct start as [sy sx], end' as [ey ex]. simpl in Hs, He.
  unfold isValidMove.
  destruct ((sy =? ey) && (sx =? ex)) eqn:Hsame; [eauto |].
  apply distinct_cells in Hsame.
  destruct (cell_on_board bd sy sx Hs) as [piece Hpiece]. rewrite Hpiece. simpl.
  destruct piece as [piece |]; [| eauto].
  destruct (negb (Team_eqb (team piece) tm)); [eauto |].
  destruct (cell_on_board bd ey ex He) as [target Htarget]. rewrite Htarget. simpl.
  destruct (match target with
            | Some t => Team_eqb (team t) (team piece)
            | None => false
            end); [eauto |].
  change ((sx =? ex) || (sy =? ey)) with (straight (sy, sx) (ey, ex)).
  change (inPalace sy sx (team piece) && inPalace ey ex (team piece)
          && (Z.abs (ex - sx) =? Z.abs (ey - sy)))
    with (palaceDiagonal (sy, sx) (ey, ex) (team piece)).
  destruct (type piece).
  - (* cha *)
    destruct (straight (sy, sx) (ey, ex)) eqn:Hl; simpl.
    + rewrite (hasObstacle_spec bd _ _ (straight_aligned _ _ Hl) Hsame Hrows). simpl.
      destruct (negb _); [eauto |].
      destruct (palaceDiagonal (sy, sx) (ey, ex) (team piece)); simpl; eauto.
    + destruct (palaceDiagonal (sy, sx) (ey, ex) (team piece)) eqn:Hd; simpl.
      * rewrite (hasObstacle_spec bd _ _ (palaceDiagonal_aligned _ _ _ Hd) Hsame Hrows).
        simpl.
        destruct (negb _); eauto.
      * eauto.
  - (* ma *)
    destruct ((Z.abs (ex - sx) =? 1) && (Z.abs (ey - sy) =? 2)) eqn:H12.
    { apply andb_true_iff in H12. destruct H12 as [_ H2%Z.eqb_eq].
      rewrite (exact_step (ey - sy) 2) by lia.
      rewrite (vacant_on_board bd (sy + Z.sgn (ey - sy)) sx) by lia. eauto. }
    destruct ((Z.abs (ex - sx) =? 2) && (Z.abs (ey - sy) =? 1)); [| eauto].
    rewrite (vacant_on_board bd sy) by lia. eauto.
  - (* sang *)
    destruct ((Z.abs (ex - sx) =? 2) && (Z.abs (ey - sy) =? 3)) eqn:H23.
    { apply andb_true_iff in H23. destruct H23 as [_ H3%Z.eqb_eq].
      rewrite (exact_step (ey - sy) 3) by lia.
      rewrite (vacant_on_board bd (sy + Z.sgn (ey - sy)) sx) by lia. simpl.
      destruct (negb _); [| eauto].
      rewrite (vacant_on_board bd (sy + Z.sgn (ey - sy) * 2)) by lia. eauto. }
    destruct ((Z.abs (ex - sx) =? 3) && (Z.abs (ey - sy) =? 2)) eqn:H32; [| eauto].
    apply andb_true_iff in H32. destruct H32 as [_ H2%Z.eqb_eq].
    rewrite (vacant_on_board bd sy) by lia. simpl.
    destruct (negb _); [| eauto].
    rewrite (exact_step (ey - sy) 2) by lia.
    rewrite (vacant_on_board bd (sy + Z.sgn (ey - sy))) by lia. eauto.
  - (* po *)
    destruct (match target with
              | Some t => PieceType_eqb (type t) po
              | None => false
              end); [eauto |].
    destruct (straight (sy, sx) (ey, ex)) eqn:Hl.
    { rewrite (countObstacles_spec bd _ _ (straight_aligned _ _ Hl) Hsame Hrows).
      simpl. eauto. }
    destruct (palaceDiagonal (sy, sx) (ey, ex) (team piece)) eqn:Hd; [| eauto].
    rewrite (countObstacles_spec bd _ _ (palaceDiagonal_aligned _ _ _ Hd) Hsame Hrows).
    simpl. eauto.
  - (* sa *)
    destruct (negb _); [eauto |].
    destruct (_ =? 1); [eauto |]. destruct (_ && _); eauto.
  - (* jang *)
    destruct (negb _); [eauto |].
    destruct (_ =? 1); [eauto |]. destruct (_ && _); eauto.
  - (* jol *)
    destruct (1 <? _).
    + destruct (_ && _); [| eauto]. destruct (team piece); eauto.
    + destruct (team piece); [destruct (0 <? _) | destruct (_ <? 0)]; eauto.
Qed.


(** [isValidMove] never runs out of fuel: every call of [countObstacles] it
    makes is on a rank, a file or an exact diagonal. *)
Lemma isValidMove_never_diverges (bd : Board) (start end' : Z * Z) (tm : Team) :
  isValidMove bd start end' tm <> Diverge.
Proof.
  destruct start as [sy sx], end' as [ey ex].
  destruct (cell bd sy sx) as [piece | |] eqn:Hpiece.
  - destruct (cell bd ey ex) as [target | |] eqn:Htarget.
    + destruct (isValidMove_returns bd (sy, sx) (ey, ex) tm) as [ok Hok].
      { split; simpl; eapply cell_row_defined; eassumption. }
      congruence.
    + unfold isValidMove. rewrite Hpiece, Htarget. simpl.
      destruct (_ && _); [discriminate |].
      destruct piece; [| discriminate].
      destruct (negb _); discriminate.
    + exfalso. eapply cell_never_diverges. eassumption.
  - unfold isValidMove. rewrite Hpiece. simpl. destruct (_ && _); discriminate.
  - exfalso. eapply cell_never_diverges. eassumption.
Qed.

(** ** The move token *)

Lemma colMap_spec (ch : ascii) :
  colMap (Some ch) = if isFile ch then Some (fileOf ch) else None.
Proof.
  destruct ch as [[] [] [] [] [] [] [] []]; reflexivity.
Qed.

Lemma parseInt_spec (ch : ascii) :
  parseInt (Some ch) = if isRank ch then Some (rankOf ch) else None.
Proof.
  destruct ch as [[] [] [] [] [] [] [] []]; reflexivity.
Qed.

Lemma decode_move_prefix (f1 r1 f2 r2 : ascii) (rest : string) :
  decode_move (String f1 (String r1 (String f2 (String r2 rest))))
  = if isFile f1 && isRank r1 && isFile f2 && isRank r2
    then Some ((9 - rankOf r1, fileOf f1), (9 - rankOf r2, fileOf f2))
    else None.
Proof.
  unfold decode_move. cbn [String.get].
  rewrite !colMap_spec, !parseInt_spec.
  destruct (isFile f1), (isRank r1), (isFile f2), (isRank r2); reflexivity.
Qed.

Lemma decode_move_short (moveStr : string) :
  (String.length moveStr < 4)%nat -> decode_move moveStr = None.
Proof.
  intros Hlen. unfold decode_move.
  destruct moveStr as [| f1 [| r1 [| f2 [| r2 rest]]]]; simpl in Hlen; try lia;
    cbn [String.get]; rewrite ?colMap_spec, ?parseInt_spec;
    change (colMap None) with (@None Z); change (parseInt None) with (@None Z);
    repeat match goal with
           | |- context [isFile ?ch] => destruct (isFile ch)
           | |- context [isRank ?ch] => destruct (isRank ch)
           end; reflexivity.
Qed.

Lemma decode_move_spec (moveStr : string) :
  decode_move moveStr
  = match moveStr with
    | String f1 (String r1 (String f2 (String r2 _))) =>
        if wellFormedPrefix moveStr
        then Some ((9 - rankOf r1, fileOf f1), (9 - rankOf r2, fileOf f2))
        else None
    | _ => None
    end.
Proof.
  destruct moveStr as [| f1 [| r1 [| f2 [| r2 rest]]]];
    try (apply decode_move_short; simpl; lia).
  apply decode_move_prefix.
Qed.

(** The coordinates that a decoded token names are on the grid. *)
Lemma decode_move_on_grid (moveStr : string) (start end' : Z * Z) :
  decode_move moveStr = Some (start, end') ->
  (0 <= fst start <= 9 /\ 0 <= snd start <= 8)
  /\ (0 <= fst end' <= 9 /\ 0 <= snd end' <= 8).
Proof.
  rewrite decode_move_spec.
  destruct moveStr as [| f1 [| r1 [| f2 [| r2 rest]]]]; try discriminate.
  unfold wellFormedPrefix.
  destruct (isFile f1) eqn:F1; [| discriminate].
  destruct (isRank r1) eqn:R1; [| discriminate].
  destruct (isFile f2) eqn:F2; [| discriminate].
  destruct (isRank r2) eqn:R2; [| discriminate].
  cbn [andb]. intros Heq.
  assert (Hs : start = (9 - rankOf r1, fileOf f1)) by congruence.
  assert (He : end' = (9 - rankOf r2, fileOf f2)) by congruence.
  subst start end'. clear Heq. cbn [fst snd].
  unfold isFile, isRank in *.
  apply andb_true_iff in F1, R1, F2, R2.
  rewrite !Nat.leb_le in F1, R1, F2, R2.
  unfold fileOf, rankOf. lia.
Qed.

(** ** executeMove *)

Lemma index_nil {A : Type} (i : Z) : @index A [] i = None.
Proof. unfold index. destruct (i <? 0); [| destruct (Z.to_nat i)]; reflexivity. Qed.

(** Called from the first render, whose board is the empty array,
    [executeMove] raises on its first read and calls no setter. *)
Lemma executeMove_mount (start end' : Z * Z) (a : App) :
  executeMove mountRender start end' a = (TypeError, a).
Proof.
  destruct start as [sr sc], end' as [er ec].
  unfold executeMove, bind, lift, cell. simpl board. rewrite index_nil. reflexivity.
Qed.

Lemma executeMove_spec (rd : Render) (start end' : Z * Z) (a : App) :
  match relocate (board rd) start end' with
  | Ok newBoard =>
      exists res commands,
      executeMove rd start end' a
      = (res, mkApp (afterMove rd (state a) start end' newBoard)
                    (isEngineThinking a) (electronAPI a) commands (console a))
  | TypeError => executeMove rd start end' a = (TypeError, a)
  | Diverge => executeMove rd start end' a = (Diverge, a)
  end.
Proof.
  destruct start as [sr sc], end' as [er ec].
  unfold executeMove, relocate, bind, lift. cbn [fst snd].
  destruct (cell (board rd) sr sc) as [piece | |]; cbn [Res_bind]; try reflexivity.
  destruct (store (board rd) er ec piece) as [bd1 | |]; cbn [Res_bind]; try reflexivity.
  destruct (store bd1 sr sc None) as [bd2 | |]; cbn [Res_bind]; try reflexivity.
  cbn [setBoard setSelected setLegalMoves setHistory setTurn update
       state isEngineThinking electronAPI sent console board turn gameStarted
       redSetup blueSetup gameMode selected legalMoves history materialScore
       engineEnabled timeControl].
  destruct (electronAPI a && engineEnabled rd).
  - destruct (generateFen bd2 (other (turn rd)));
      cbn [sendCommand state isEngineThinking electronAPI sent console];
      eexists; eexists; reflexivity.
  - eexists; eexists; reflexivity.
Qed.

(** ** The engine listener *)

(** Whatever the engine prints, the listener leaves the hook state and the
    commands sent as they are; a [bestmove] line clears the in-flight
    flag. *)
Lemma onEngineOutput_mount (output : string) (a : App) :
  exists res log,
    onEngineOutput mountRender output a
    = (res, mkApp (state a)
                  (if String.prefix "bestmove" output then false else isEngineThinking a)
                  (electronAPI a) (sent a) log).
Proof.
  unfold onEngineOutput.
  destruct (String.prefix "bestmove" output).
  - unfold bind at 1. unfold setThinking at 1.
    destruct (nth_error (split_space output) 1) as [moveStr |].
    + destruct (negb (moveStr =? "")%string && negb (moveStr =? "(none)")%string).
      * unfold applyEngineMove.
        destruct (decode_move moveStr) as [[start end'] |].
        -- rewrite executeMove_mount. eexists; eexists; reflexivity.
        -- unfold bind, console_error, setThinking. cbn.
           eexists; eexists; reflexivity.
      * unfold ret. eexists; eexists; reflexivity.
    + unfold ret. eexists; eexists; reflexivity.
  - unfold ret. destruct a. eexists; eexists; reflexivity.
Qed.

Lemma dispatch_EngineOutput (output : string) (a : App) :
  state (dispatch (EngineOutput output) a) = state a
  /\ sent (dispatch (EngineOutput output) a) = sent a
  /\ electronAPI (dispatch (EngineOutput output) a) = electronAPI a
  /\ isEngineThinking (dispatch (EngineOutput output) a)
     = if electronAPI a && String.prefix "bestmove" output
       then false else isEngineThinking a.
Proof.
  unfold dispatch, handle.
  destruct (electronAPI a) eqn:Hapi.
  - destruct (onEngineOutput_mount output a) as (res & log & ->).
    cbn. rewrite Hapi. auto.
  - cbn. auto.
Qed.

(** ** handleSquareClick *)

(** A click either leaves board, side and history alone, or it is the
    second click of a move that [isValidMove] accepted on the current board
    for the current side, and the state is the one [executeMove] builds. *)
Lemma handleSquareClick_spec (a : App) (r c : Z) :
  exists res a',
    handleSquareClick (state a) r c a = (res, a')
    /\ ((position a' = position a /\ gameStarted (state a') = gameStarted (state a))
        \/ exists start newBoard,
            selected (state a) = Some start
            /\ isValidMove (board (state a)) start (r, c) (turn (state a)) = Ok true
            /\ relocate (board (state a)) start (r, c) = Ok newBoard
            /\ state a' = afterMove (state a) (state a) start (r, c) newBoard).
Proof.
  assert (Hquiet : forall (res : Res unit) (a' : App),
             position a' = position a ->
             gameStarted (state a') = gameStarted (state a) ->
             exists res0 a0,
               (res, a') = (res0, a0)
               /\ ((position a0 = position a
                    /\ gameStarted (state a0) = gameStarted (state a))
                   \/ exists start newBoard,
                       selected (state a) = Some start
                       /\ isValidMove (board (state a)) start (r, c) (turn (state a))
                          = Ok true
                       /\ relocate (board (state a)) start (r, c) = Ok newBoard
                       /\ state a0
                          = afterMove (state a) (state a) start (r, c) newBoard)).
  { intros res a' Hpos Hgs. exists res, a'. auto. }
  unfold handleSquareClick.
  destruct (negb (gameStarted (state a))); [apply Hquiet; reflexivity |].
  destruct (engineEnabled (state a) && _); [apply Hquiet; reflexivity |].
  destruct (selected (state a)) as [[sr sc] |] eqn:Hsel.
  - destruct ((sr =? r) && (sc =? c)); [apply Hquiet; reflexivity |].
    unfold bind at 1, lift at 1.
    destruct (cell (board (state a)) sr sc) as [[pc |] | |];
      try (apply Hquiet; reflexivity).
    unfold bind at 1, lift at 1.
    destruct (cell (board (state a)) r c) as [target | |];
      try (apply Hquiet; reflexivity).
    destruct (match target with
              | Some t => Team_eqb (team t) (team pc)
              | None => false
              end).
    { unfold bind, lift, setSelected, setLegalMoves, update.
      destruct (legalDestinations _ _ _); apply Hquiet; reflexivity. }
    unfold bind at 1, lift at 1.
    destruct (isValidMove (board (state a)) (sr, sc) (r, c) (turn (state a)))
      as [[|] | |] eqn:Hok; try (apply Hquiet; reflexivity).
    pose proof (executeMove_spec (state a) (sr, sc) (r, c) a) as Hexec.
    destruct (relocate (board (state a)) (sr, sc) (r, c)) as [newBoard | |] eqn:Hrel.
    + destruct Hexec as (res & commands & ->).
      eexists. eexists. split; [reflexivity |]. right.
      exists (sr, sc), newBoard. auto.
    + rewrite Hexec. apply Hquiet; reflexivity.
    + rewrite Hexec. apply Hquiet; reflexivity.
  - unfold bind at 1, lift at 1.
    destruct (cell (board (state a)) r c) as [[pc |] | |];
      try (apply Hquiet; reflexivity).
    destruct (Team_eqb (team pc) (turn (state a))); [| apply Hquiet; reflexivity].
    unfold bind, lift, setSelected, setLegalMoves, update.
    destruct (legalDestinations _ _ _); apply Hquiet; reflexivity.
Qed.

(** ** The effect, a stopped game *)

Lemma boardEffect_spec (a : App) :
  exists res a',
    boardEffect (state a) a = (res, a')
    /\ position a' = position a
    /\ gameStarted (state a') = gameStarted (state a).
Proof.
  assert (Hquiet : forall (res : Res unit) (a' : App),
             position a' = position a ->
             gameStarted (state a') = gameStarted (state a) ->
             exists res0 a0,
               (res, a') = (res0, a0)
               /\ position a0 = position a
               /\ gameStarted (state a0) = gameStarted (state a)).
  { intros res a' Hpos Hgs. exists res, a'. auto. }
  unfold boardEffect.
  destruct (gameStarted (state a)) eqn:Hg; [| apply Hquiet; [reflexivity | exact Hg]].
  unfold bind at 1, lift at 1.
  destruct (calculateMaterialScore (board (state a))) as [score | |];
    try (apply Hquiet; [reflexivity | exact Hg]).
  unfold bind at 1. unfold setMaterialScore, update.
  unfold checkEngineMove, requestEngineMove.
  cbn [state isEngineThinking electronAPI sent console board turn gameStarted
       redSetup blueSetup gameMode selected legalMoves history materialScore
       engineEnabled timeControl].
  destruct (negb _ || negb _ || _); [apply Hquiet; [reflexivity | exact Hg] |].
  destruct (match gameMode (state a) with
            | PvP => false
            | CvC => true
            | PvC => Team_eqb (turn (state a)) RED
            | CvP => Team_eqb (turn (state a)) BLUE
            end); [| apply Hquiet; [reflexivity | exact Hg]].
  destruct (negb (electronAPI a)); [apply Hquiet; [reflexivity | exact Hg] |].
  unfold bind, setThinking, lift, sendCommand.
  cbn [state isEngineThinking electronAPI sent console].
  destruct (generateFen _ _); (apply Hquiet; [reflexivity | exact Hg]).
Qed.

(** While the game is not started, clicks, engine output and effect runs
    leave the hook state as it is. *)
Lemma stopped_game_is_quiet (a : App) (e : Event) :
  gameStarted (state a) = false ->
  moveRequestOrEffect e = true ->
  state (dispatch e a) = state a.
Proof.
  intros Hstopped He. destruct e; try discriminate.
  - unfold dispatch, handle, rendered. rewrite Hstopped. reflexivity.
  - apply dispatch_EngineOutput.
  - unfold dispatch, handle, boardEffect. rewrite Hstopped. reflexivity.
Qed.

Lemma stopped_game_stays_quiet (es : list Event) (a : App) :
  gameStarted (state a) = false ->
  forallb moveRequestOrEffect es = true ->
  state (run es a) = state a.
Proof.
  revert a. induction es as [| e es IH]; intros a Hstopped Hes; [reflexivity |].
  simpl in Hes. apply andb_true_iff in Hes. destruct Hes as [He Hes].
  pose proof (stopped_game_is_quiet a e Hstopped He) as Hstep.
  unfold run in *. simpl. rewrite IH; [assumption | | assumption].
  rewrite Hstep. assumption.
Qed.

(** ** Undo *)

Lemma store_on_board (bd : Board) (r c : Z) (v : option Piece) :
  0 <= r < Z.of_nat (List.length bd) ->
  exists bd', store bd r c v = Ok bd' /\ List.length bd' = List.length bd.
Proof.
  intros Hr. unfold store.
  destruct (Z.ltb_spec r 0) as [Hneg | _]; [lia |].
  assert (Hn : (Z.to_nat r < List.length bd)%nat) by lia.
  generalize (fun row : Row => if c <? 0 then row else assign row (Z.to_nat c) v).
  intros f. revert Hn. generalize (Z.to_nat r). clear Hr.
  induction bd as [| row rest IH]; intros n Hn; simpl in Hn; [lia |].
  destruct n as [| n]; simpl.
  - eexists. split; reflexivity.
  - destruct (IH n) as (rest' & Hrest & Hlen); [lia |].
    destruct (assign_row rest n f) as [rest'' |] eqn:E; [| discriminate].
    injection Hrest as <-. eexists. split; [reflexivity |]. simpl. congruence.
Qed.

Lemma isValidMove_true_rows (bd : Board) (start end' : Z * Z) (tm : Team) :
  isValidMove bd start end' tm = Ok true -> rowsOnBoard bd start end'.
Proof.
  destruct start as [sy sx], end' as [ey ex]. unfold isValidMove, rowsOnBoard.
  destruct ((sy =? ey) && (sx =? ex)); [discriminate |].
  destruct (cell bd sy sx) as [[piece |] | |] eqn:Hpiece; try discriminate.
  cbn [Res_bind].
  destruct (negb (Team_eqb (team piece) tm)); [discriminate |].
  destruct (cell bd ey ex) as [target | |] eqn:Htarget; try discriminate.
  intros _. split; simpl; eapply cell_row_defined; eassumption.
Qed.

(** A move that [isValidMove] accepts can be carried out. *)
Lemma relocate_valid (bd : Board) (start end' : Z * Z) (tm : Team) :
  isValidMove bd start end' tm = Ok true ->
  exists newBoard, relocate bd start end' = Ok newBoard.
Proof.
  intros Hok. apply isValidMove_true_rows in Hok. destruct Hok as [Hs He].
  unfold relocate.
  destruct (cell_on_board bd (fst start) (snd start) Hs) as [piece ->].
  cbn [Res_bind].
  destruct (store_on_board bd (fst end') (snd end') piece He) as (bd1 & -> & Hlen).
  cbn [Res_bind]. rewrite <- Hlen in Hs.
  destruct (store_on_board bd1 (fst start) (snd start) None Hs) as (bd2 & -> & _).
  eauto.
Qed.

(** [undoMove] on a state whose last record is [rec]. *)
Lemma undoMove_last (a : App) (older : list MoveRecord.t) (rec : MoveRecord.t) :
  history (state a) = older ++ [rec] ->
  position (dispatch Undo a)
  = (MoveRecord.prevBoard rec, MoveRecord.turn rec, older).
Proof.
  intros Hh. unfold dispatch, handle, undoMove. rewrite Hh, rev_app_distr. simpl.
  unfold position. cbn. rewrite Hh, removelast_last. reflexivity.
Qed.

(** * The rule engine *)

(** C3 (as amended).  Once the filters have passed, a cannon's move is legal
    exactly when it runs along a rank, a file or a diagonal inside the
    mover's own palace, exactly one piece stands strictly between source
    and destination, and the destination holds no cannon.  The kind of the
    screening piece is not examined.  The call always returns. *)
Theorem cannon_legal_iff (bd : Board) (start end' : Z * Z) (tm : Team)
        (target : option Piece) :
  passesFilters bd start end' tm po target ->
  (isValidMove bd start end' tm = Ok true \/ isValidMove bd start end' tm = Ok false)
  /\ (isValidMove bd start end' tm = Ok true
      <-> (straight start end' = true \/ palaceDiagonal start end' tm = true)
          /\ List.length (screens bd start end') = 1%nat
          /\ holds bd end' po = false).
Proof.
  intros Hf. rewrite (cannon_after_filters _ _ _ _ _ Hf). unfold po_rule.
  split.
  - destruct (_ && _ && _); auto.
  - rewrite <- orb_true_iff, <- negb_true_iff.
    assert (Hlen : (Z.of_nat (List.length (screens bd start end')) =? 1) = true
                   <-> List.length (screens bd start end') = 1%nat)
      by (rewrite Z.eqb_eq; lia).
    rewrite <- Hlen, <- !andb_true_iff, andb_assoc.
    split; [intros [= Heq]; exact Heq | intros ->; reflexivity].
Qed.

(** In the starting position the cannon on (7,1) has exactly one piece
    between itself and the empty cell (1,1), the one on (2,1). *)
Lemma cannon_legal_iff_witness :
  isValidMove (initBoard an an) (7, 1) (1, 1) RED = Ok true.
Proof.
  apply (proj2 (cannon_legal_iff (initBoard an an) (7, 1) (1, 1) RED None
                  ltac:(repeat split; [discriminate | reflexivity ..]))).
  repeat split; try reflexivity. left. reflexivity.
Defined.

(** C3 (as stated) fails: in the starting position the cannon on (7,1) may
    move to (1,1) although the one piece it jumps, on (2,1), is a cannon. *)
Lemma cannon_jumps_cannon :
  isValidMove (initBoard an an) (7, 1) (1, 1) RED = Ok true
  /\ screens (initBoard an an) (7, 1) (1, 1) = [(2, 1)]
  /\ cell (initBoard an an) 2 1 = Ok (Some (p BLUE po))
  /\ po_rule_as_specified (initBoard an an) (7, 1) (1, 1) RED = false.
Proof. repeat split; reflexivity. Qed.




(** C8 (as amended).  Once the filters have passed, an elephant's (2,3)- or
    (3,2)-shaped jump is legal exactly when two cells are empty: the cell
    one step from the source along the axis of the longer displacement,
    and the cell one diagonal step further towards the destination. *)
Theorem elephant_legal_iff (bd : Board) (start end' : Z * Z) (tm : Team)
        (target : option Piece) :
  passesFilters bd start end' tm sang target ->
  jumpShape start end' 2 3 ->
  (isValidMove bd start end' tm = Ok true \/ isValidMove bd start end' tm = Ok false)
  /\ (isValidMove bd start end' tm = Ok true
      <-> occupied bd (sang_first start end') = false
          /\ occupied bd (sang_second start end') = false).
Proof.
  intros Hf Hshape. rewrite (elephant_after_filters _ _ _ _ _ Hf Hshape).
  destruct (occupied bd (sang_first start end')),
           (occupied bd (sang_second start end')); simpl;
    (split; [auto | split; [intros [= ] | intros [? ?]]; auto; discriminate]).
Qed.

Lemma elephant_legal_iff_witness :
  isValidMove (initBoard oreun an) (9, 1) (6, 3) RED = Ok true.
Proof.
  apply (proj2 (elephant_legal_iff (initBoard oreun an) (9, 1) (6, 3) RED None
                  ltac:(repeat split; [discriminate | reflexivity ..])
                  ltac:(left; split; reflexivity))).
  split; reflexivity.
Defined.

(** C8 (as stated) fails: with Han set up as [oreun] the elephant on (9,1)
    may jump to (6,3) although the cell one step from it along the axis of
    the shorter displacement, (9,2), holds the horse. *)
Lemma elephant_short_axis_not_checked :
  isValidMove (initBoard oreun an) (9, 1) (6, 3) RED = Ok true
  /\ sang_first_as_specified (9, 1) (6, 3) = (9, 2)
  /\ cell (initBoard oreun an) 9 2 = Ok (Some (p RED ma))
  /\ occupied (initBoard oreun an) (sang_first_as_specified (9, 1) (6, 3)) = true.
Proof. repeat split; reflexivity. Qed.

(** C10.  Once the filters have passed, a horse's (1,2)- or (2,1)-shaped
    jump is legal exactly when the cell next to the source along the axis
    of the longer displacement is empty; from (9,1) to (7,2) that cell is
    (8,1). *)
Theorem horse_leg_rule :
  (forall (bd : Board) (start end' : Z * Z) (tm : Team) (target : option Piece),
      passesFilters bd start end' tm ma target ->
      jumpShape start end' 1 2 ->
      (isValidMove bd start end' tm = Ok true
       \/ isValidMove bd start end' tm = Ok false)
      /\ (isValidMove bd start end' tm = Ok true
          <-> occupied bd (ma_leg start end') = false))
  /\ (forall (bd : Board) (tm : Team) (target : option Piece),
         passesFilters bd (9, 1) (7, 2) tm ma target ->
         (isValidMove bd (9, 1) (7, 2) tm = Ok true
          <-> cell bd 8 1 = Ok None)).
Proof.
  split.
  - intros bd start end' tm target Hf Hshape.
    rewrite (horse_after_filters _ _ _ _ _ Hf Hshape).
    destruct (occupied bd (ma_leg start end')); simpl;
      (split; [auto | split; [intros [= ] | intros ?]; auto; discriminate]).
  - intros bd tm target Hf.
    rewrite (horse_after_filters _ _ _ _ _ Hf) by (left; split; reflexivity).
    change (ma_leg (9, 1) (7, 2)) with (8, 1). unfold occupied. cbn [fst snd].
    destruct (filters_rowsOnBoard _ _ _ _ _ _ Hf) as [Hs He]. cbn [fst snd] in Hs, He.
    destruct (cell_on_board bd 8 1) as [x Hx]; [lia |]. rewrite Hx.
    destruct x; simpl; split; congruence.
Qed.

Lemma horse_leg_rule_witness :
  isValidMove (initBoard an an) (9, 1) (7, 2) RED = Ok true.
Proof.
  apply (proj2 horse_leg_rule (initBoard an an) RED None).
  - repeat split; [discriminate | reflexivity ..].
  - reflexivity.
Defined.

(** * The move codec *)

(** C5 (as amended).  [decode_move] looks at the first four characters only.
    When they are a file [a..i], a rank digit, a file and a rank digit it
    yields the pair of coordinates with column [0..8] for the file and row
    nine minus the digit; otherwise, which includes every token shorter
    than four characters, it fails, and [applyEngineMove] then returns
    normally, calls no setter, logs the token and clears the in-flight
    flag.  Characters after the fourth are ignored. *)
Theorem decode_move_first_four (moveStr : string) :
  (wellFormedPrefix moveStr = true ->
   exists f1 r1 f2 r2 rest,
     moveStr = String f1 (String r1 (String f2 (String r2 rest)))
     /\ decode_move moveStr
        = Some ((9 - rankOf r1, fileOf f1), (9 - rankOf r2, fileOf f2))
     /\ 0 <= fileOf f1 <= 8 /\ 0 <= rankOf r1 <= 9
     /\ 0 <= fileOf f2 <= 8 /\ 0 <= rankOf r2 <= 9)
  /\ (wellFormedPrefix moveStr = false ->
      decode_move moveStr = None
      /\ forall (rd : Render) (a : App),
          applyEngineMove rd moveStr a
          = (Ok tt, mkApp (state a) false (electronAPI a) (sent a)
                          (console a ++ [moveStr]))).
Proof.
  split.
  - intros Hwf.
    destruct moveStr as [| f1 [| r1 [| f2 [| r2 rest]]]]; try discriminate.
    exists f1, r1, f2, r2, rest.
    assert (Hdec : decode_move (String f1 (String r1 (String f2 (String r2 rest))))
                   = Some ((9 - rankOf r1, fileOf f1), (9 - rankOf r2, fileOf f2))).
    { rewrite decode_move_spec, Hwf. reflexivity. }
    pose proof (decode_move_on_grid _ _ _ Hdec) as Hgrid. cbn [fst snd] in Hgrid.
    repeat split; try assumption; try reflexivity; lia.
  - intros Hwf.
    assert (Hdec : decode_move moveStr = None).
    { rewrite decode_move_spec.
      destruct moveStr as [| f1 [| r1 [| f2 [| r2 rest]]]]; try reflexivity.
      rewrite Hwf. reflexivity. }
    split; [exact Hdec |].
    intros rd a. unfold applyEngineMove. rewrite Hdec. reflexivity.
Qed.

Lemma decode_move_first_four_witness :
  decode_move "b0c2" = Some ((9, 1), (7, 2)).
Proof.
  destruct (proj1 (decode_move_first_four "b0c2") eq_refl)
    as (f1 & r1 & f2 & r2 & rest & Heq & Hdec & _).
  injection Heq as <- <- <- <- <-. exact Hdec.
Defined.

(** C5 (as stated) fails: a token of five characters has the wrong length,
    yet it is decoded from its first four. *)
Lemma decode_move_long_token :
  String.length "a0a1x" = 5%nat
  /\ wellFormedToken "a0a1x" = false
  /\ decode_move "a0a1x" = Some ((9, 0), (8, 0)).
Proof. repeat split; reflexivity. Qed.

(** * The match state machine *)

(** C1.  A click or a line of engine output either leaves board, side to
    move and history as they are, or applies one move: a pair of cells that
    [isValidMove] accepted on the current board for the current side. *)
Theorem moves_are_validated (a : App) (e : Event) :
  moveRequest e = true ->
  position (dispatch e a) = position a
  \/ exists start end' newBoard,
      isValidMove (board (state a)) start end' (turn (state a)) = Ok true
      /\ relocate (board (state a)) start end' = Ok newBoard
      /\ position (dispatch e a)
         = (newBoard, other (turn (state a)),
            history (state a)
            ++ [MoveRecord.mk (Z.of_nat (List.length (history (state a))) + 1)
                              (moveNotation start end') (turn (state a))
                              (board (state a))]).
Proof.
  intros He. destruct e; try discriminate.
  - unfold dispatch, handle.
    destruct (rendered (state a) r c); [| left; reflexivity].
    destruct (handleSquareClick_spec a r c) as (res & a' & -> & [[Hpos _] | Hmove]);
      cbn [snd].
    + left. exact Hpos.
    + destruct Hmove as (start & newBoard & _ & Hok & Hrel & Hstate).
      right. exists start, (r, c), newBoard.
      repeat split; try assumption.
      unfold position. rewrite Hstate. reflexivity.
  - left. unfold position.
    destruct (dispatch_EngineOutput output a) as (-> & _). reflexivity.
Qed.

Lemma moves_are_validated_witness :
  position (dispatch (Click 4 0) (run [StartGame; Click 3 0] (mount true)))
  = position (run [StartGame; Click 3 0] (mount true))
  \/ exists start end' newBoard,
      isValidMove (initBoard an an) start end' BLUE = Ok true
      /\ relocate (initBoard an an) start end' = Ok newBoard
      /\ position (dispatch (Click 4 0) (run [StartGame; Click 3 0] (mount true)))
         = (newBoard, RED,
            [MoveRecord.mk 1 (moveNotation start end') BLUE (initBoard an an)]).
Proof.
  exact (moves_are_validated (run [StartGame; Click 3 0] (mount true)) (Click 4 0)
                             eq_refl).
Defined.

(** C2.  While no search request is pending, a line of engine output, a
    [bestmove] line included, changes neither board, side to move and
    history nor any other hook state, sends nothing and leaves the
    in-flight flag clear. *)
Theorem stray_bestmove_is_ignored (a : App) (output : string) :
  isEngineThinking a = false ->
  position (dispatch (EngineOutput output) a) = position a
  /\ state (dispatch (EngineOutput output) a) = state a
  /\ sent (dispatch (EngineOutput output) a) = sent a
  /\ isEngineThinking (dispatch (EngineOutput output) a) = false.
Proof.
  intros Hidle.
  destruct (dispatch_EngineOutput output a) as (Hstate & Hsent & _ & Hflag).
  unfold position. rewrite Hstate, Hsent, Hflag, Hidle.
  destruct (_ && _); auto.
Qed.

Lemma stray_bestmove_is_ignored_witness :
  position (dispatch (EngineOutput "bestmove a6a5") (run [StartGame] (mount true)))
  = position (run [StartGame] (mount true)).
Proof.
  exact (proj1 (stray_bestmove_is_ignored (run [StartGame] (mount true))
                                          "bestmove a6a5" eq_refl)).
Defined.

(** C6.  After [executeMove] has applied a move that [isValidMove] accepts,
    one undo restores board, side to move and history (so also its
    length); undo on an empty history changes nothing; one undo likewise
    takes back one pass. *)
Theorem undo_reverses_move_and_pass :
  (forall (a : App) (start end' : Z * Z),
      isValidMove (board (state a)) start end' (turn (state a)) = Ok true ->
      let a1 := snd (executeMove (state a) start end' a) in
      List.length (history (state a1)) = S (List.length (history (state a)))
      /\ position (dispatch Undo a1) = position a)
  /\ (forall a : App, history (state a) = [] -> dispatch Undo a = a)
  /\ (forall a : App,
         List.length (history (state (dispatch Pass a)))
         = S (List.length (history (state a)))
         /\ position (dispatch Undo (dispatch Pass a)) = position a).
Proof.
  split; [| split].
  - intros a start end' Hok. cbv zeta.
    destruct (relocate_valid _ _ _ _ Hok) as [newBoard Hrel].
    pose proof (executeMove_spec (state a) start end' a) as Hexec.
    rewrite Hrel in Hexec. destruct Hexec as (res & commands & ->).
    cbn [snd state]. split.
    + unfold afterMove. cbn [history]. rewrite length_app. simpl. lia.
    + erewrite undoMove_last by (unfold afterMove; cbn [state history]; reflexivity).
      reflexivity.
  - intros a Hempty. unfold dispatch, handle, undoMove. rewrite Hempty. reflexivity.
  - intros a. split.
    + unfold dispatch, handle, passTurn. cbn. rewrite length_app. simpl. lia.
    + erewrite undoMove_last by (unfold dispatch, handle, passTurn; cbn; reflexivity).
      reflexivity.
Qed.

Lemma undo_reverses_move_and_pass_witness :
  position (dispatch Undo
              (snd (executeMove (state (run [StartGame] (mount true))) (3, 0) (4, 0)
                                (run [StartGame] (mount true)))))
  = position (run [StartGame] (mount true)).
Proof.
  exact (proj2 (proj1 undo_reverses_move_and_pass (run [StartGame] (mount true))
                      (3, 0) (4, 0) eq_refl)).
Defined.

Ltac run_setters :=
  cbn [setBoard setTurn setGameStarted setRedSetup setBlueSetup setGameMode
       setSelected setLegalMoves setHistory setMaterialScore setEngineEnabled
       setTimeControl setThinking update
       state isEngineThinking electronAPI sent console board turn gameStarted
       redSetup blueSetup gameMode selected legalMoves history materialScore
       engineEnabled timeControl fst snd].

(** Nothing but the start of a new game sets [gameStarted]. *)
Lemma stopped_game_stays_stopped (a : App) (e : Event) :
  gameStarted (state a) = false -> isStartGame e = false ->
  gameStarted (state (dispatch e a)) = false.
Proof.
  intros Hstopped He. destruct e; try discriminate;
    try (rewrite stopped_game_is_quiet by (assumption || reflexivity); exact Hstopped);
    unfold dispatch, handle.
  - unfold undoMove. destruct (rev (history (state a))); [exact Hstopped |].
    unfold bind. run_setters. exact Hstopped.
  - unfold passTurn, bind. run_setters. exact Hstopped.
  - rewrite Hstopped. exact Hstopped.
  - run_setters. exact Hstopped.
  - run_setters. exact Hstopped.
  - run_setters. exact Hstopped.
  - run_setters. exact Hstopped.
  - run_setters. exact Hstopped.
Qed.

Lemma stopped_run_stays_stopped (es : list Event) (a : App) :
  gameStarted (state a) = false -> existsb isStartGame es = false ->
  gameStarted (state (run es a)) = false.
Proof.
  revert a. induction es as [| e es IH]; intros a Hstopped Hes; [exact Hstopped |].
  cbn [existsb] in Hes. apply orb_false_iff in Hes. destruct Hes as [He Hes].
  unfold run in *. cbn [fold_left].
  apply IH; [| exact Hes]. exact (stopped_game_stays_stopped a e Hstopped He).
Qed.

(** C9.  From the resignation on and until a new game is started, whatever
    buttons are pressed in between (pass, undo, resign, the settings) and
    whatever clicks, engine output and effect runs come, the game stays
    stopped, and in every state so reached a click, a line of engine
    output or an effect run leaves the hook state, and so board, side to
    move and history, as it was.  In particular clicks, engine output and
    effect runs alone, in any number and order, leave board, side to move
    and history of the resigned game as they were at the resignation. *)
Theorem resigned_game_accepts_no_move (a : App) (es : list Event) :
  existsb isStartGame es = false ->
  gameStarted (state (run es (dispatch Resign a))) = false
  /\ (forall e, moveRequestOrEffect e = true ->
                state (dispatch e (run es (dispatch Resign a)))
                = state (run es (dispatch Resign a))
                /\ position (dispatch e (run es (dispatch Resign a)))
                   = position (run es (dispatch Resign a)))
  /\ (forallb moveRequestOrEffect es = true ->
      position (run es (dispatch Resign a)) = position a).
Proof.
  intros Hes.
  assert (Hresign : gameStarted (state (dispatch Resign a)) = false
                    /\ position (dispatch Resign a) = position a).
  { unfold dispatch, handle. destruct (gameStarted (state a)) eqn:Hg.
    - split; reflexivity.
    - split; [exact Hg | reflexivity]. }
  destruct Hresign as [Hstopped Hpos].
  pose proof (stopped_run_stays_stopped es _ Hstopped Hes) as Hlater.
  split; [exact Hlater |]. split.
  - intros e He.
    pose proof (stopped_game_is_quiet _ e Hlater He) as Hquiet.
    unfold position. rewrite Hquiet. split; reflexivity.
  - intros Hquiet.
    pose proof (stopped_game_stays_quiet es _ Hstopped Hquiet) as Hsame.
    unfold position in *. rewrite Hsame. exact Hpos.
Qed.

Lemma resigned_game_accepts_no_move_witness :
  position (dispatch (Click 4 0)
              (run [Pass; Undo; ToggleEngine; Effect; Click 3 0;
                    EngineOutput "bestmove a6a5"; Resign]
                   (dispatch Resign (run [StartGame] (mount true)))))
  = position (run [Pass; Undo; ToggleEngine; Effect; Click 3 0;
                   EngineOutput "bestmove a6a5"; Resign]
                  (dispatch Resign (run [StartGame] (mount true)))).
Proof.
  exact (proj2 (proj1 (proj2 (resigned_game_accepts_no_move
                                (run [StartGame] (mount true))
                                [Pass; Undo; ToggleEngine; Effect; Click 3 0;
                                 EngineOutput "bestmove a6a5"; Resign]
                                eq_refl))
                      (Click 4 0) eq_refl)).
Defined.

(** * Search requests *)

(** [checkEngineMove] sends nothing while the in-flight flag is set. *)
Lemma checkEngineMove_waits (rd : Render) (a : App) :
  isEngineThinking a = true -> checkEngineMove rd a = (Ok tt, a).
Proof.
  intros Hbusy. unfold checkEngineMove. rewrite Hbusy, !orb_true_r. reflexivity.
Qed.

(** C7 fails on the code.  A human plays Cho against the engine.  The move
    itself sends a search request from [executeMove], which neither looks
    at the in-flight flag nor sets it; the effect that follows finds the
    flag clear and [requestEngineMove] sends a second request for the same
    position, before the engine has printed anything. *)
Theorem analysis_request_ignores_flag :
  existsb isBestmove pvc_opening = false
  /\ sent (run (firstn 8 pvc_opening) (mount true))
     = ["position fen rnea1aenr/4k4/1c5c1/2p1p1p1p/p8/9/P1P1P1P1P/1C5C1/4K4/RNEA1AENR w - - 0 1";
        "go movetime 6000"]%string
  /\ isEngineThinking (run (firstn 8 pvc_opening) (mount true)) = false
  /\ sent (run pvc_opening (mount true))
     = ["position fen rnea1aenr/4k4/1c5c1/2p1p1p1p/p8/9/P1P1P1P1P/1C5C1/4K4/RNEA1AENR w - - 0 1";
        "go movetime 6000";
        "position fen rnea1aenr/4k4/1c5c1/2p1p1p1p/p8/9/P1P1P1P1P/1C5C1/4K4/RNEA1AENR w - - 0 1";
        "go movetime 6000"]%string
  /\ List.length (filter isGo (sent (run pvc_opening (mount true)))) = 2%nat
  /\ isEngineThinking (run pvc_opening (mount true)) = true.
Proof. repeat split; vm_compute; reflexivity. Qed.

(** * Remarks *)

(** The legality check of a human move is made by [handleSquareClick], not
    by [executeMove]: run on the current render, [executeMove] also carries
    out a move that [isValidMove] rejects. *)
Remark executeMove_does_not_validate :
  let a := run [StartGame] (mount true) in
  isValidMove (board (state a)) (3, 0) (6, 0) (turn (state a)) = Ok false
  /\ cell (board (state (snd (executeMove (state a) (3, 0) (6, 0) a)))) 6 0
     = Ok (Some (p BLUE jol)).
Proof. split; vm_compute; reflexivity. Qed.

(** [applyEngineMove] calls [executeMove] without a legality check and
    without looking at [gameStarted] or the in-flight flag.  Were it run on
    the current render it would carry out whatever the token names, here
    the rook from (0,0) through two soldiers to (9,0).  What keeps a line
    of engine output from changing the board is only that the listener
    is the closure of the first render (see [handle]). *)
Remark applyEngineMove_does_not_validate :
  let a := run [StartGame] (mount true) in
  decode_move "a9a0" = Some ((0, 0), (9, 0))
  /\ isValidMove (board (state a)) (0, 0) (9, 0) (turn (state a)) = Ok false
  /\ cell (board (state (snd (applyEngineMove (state a) "a9a0" a)))) 9 0
     = Ok (Some (p BLUE cha))
  /\ position (dispatch (EngineOutput "bestmove a9a0") a) = position a.
Proof. repeat split; vm_compute; reflexivity. Qed.

(** No line of engine output changes board, side to move or history,
    whether a request is pending or not: a move that the engine announces
    is never carried out. *)
Remark engine_output_never_moves (a : App) (output : string) :
  position (dispatch (EngineOutput output) a) = position a.
Proof.
  unfold position. destruct (dispatch_EngineOutput output a) as (-> & _).
  reflexivity.
Qed.

(** A move made with two clicks. *)
Example click_applies_move :
  let a := run [StartGame; Click 3 0; Click 4 0] (mount true) in
  cell (board (state a)) 3 0 = Ok None
  /\ cell (board (state a)) 4 0 = Ok (Some (p BLUE jol))
  /\ turn (state a) = RED
  /\ map MoveRecord.notation (history (state a)) = ["3,0 > 4,0"%string].
Proof. repeat split; vm_compute; reflexivity. Qed.

(** The starting position, as the engine is given it. *)
Example generateFen_initBoard :
  generateFen (initBoard an an) BLUE
  = Ok "rnea1aenr/4k4/1c5c1/p1p1p1p1p/9/9/P1P1P1P1P/1C5C1/4K4/RNEA1AENR b - - 0 1"%string.
Proof. reflexivity. Qed.

(** * Further properties of the rule engine *)

Lemma rook_after_filters (bd : Board) (start end' : Z * Z) (tm : Team)
      (target : option Piece) :
  passesFilters bd start end' tm cha target ->
  isValidMove bd start end' tm
  = Ok ((straight start end' || palaceDiagonal start end' tm)
        && (List.length (screens bd start end') =? 0)%nat).
Proof.
  intros Hf. pose proof (filters_rowsOnBoard _ _ _ _ _ _ Hf) as Hrows.
  destruct start as [sy sx], end' as [ey ex].
  pass_filters Hf. apply distinct_cells in Hne.
  change ((sx =? ex) || (sy =? ey)) with (straight (sy, sx) (ey, ex)).
  change (inPalace sy sx tm && inPalace ey ex tm && (Z.abs (ex - sx) =? Z.abs (ey - sy)))
    with (palaceDiagonal (sy, sx) (ey, ex) tm).
  destruct (straight (sy, sx) (ey, ex)) eqn:Hs.
  - rewrite (hasObstacle_spec bd _ _ (straight_aligned _ _ Hs) Hne Hrows).
    destruct (List.length (screens bd (sy, sx) (ey, ex))); [reflexivity |].
    simpl. destruct (palaceDiagonal (sy, sx) (ey, ex) tm); reflexivity.
  - destruct (palaceDiagonal (sy, sx) (ey, ex) tm) eqn:Hd; [| reflexivity].
    rewrite (hasObstacle_spec bd _ _ (palaceDiagonal_aligned _ _ _ Hd) Hne Hrows).
    destruct (List.length (screens bd (sy, sx) (ey, ex))); reflexivity.
Qed.

(** X1.  Once the filters have passed, a rook's move is legal exactly when
    it runs along a rank, a file or a diagonal inside the mover's own
    palace and no piece stands strictly between source and destination. *)
Theorem rook_legal_iff (bd : Board) (start end' : Z * Z) (tm : Team)
        (target : option Piece) :
  passesFilters bd start end' tm cha target ->
  (isValidMove bd start end' tm = Ok true \/ isValidMove bd start end' tm = Ok false)
  /\ (isValidMove bd start end' tm = Ok true
      <-> (straight start end' = true \/ palaceDiagonal start end' tm = true)
          /\ screens bd start end' = []).
Proof.
  intros Hf. rewrite (rook_after_filters _ _ _ _ _ Hf). split.
  - destruct (_ && _); auto.
  - rewrite <- orb_true_iff.
    destruct (straight start end' || palaceDiagonal start end' tm);
      destruct (screens bd start end'); simpl; split;
      try (intros [= ]); try (intros [? ?]); auto; discriminate.
Qed.

(** With only the two generals and one rook on the board, the rook on
    (9,0) may run along the whole rank to (9,8). *)
Lemma rook_legal_iff_witness :
  isValidMove loneRook (9, 0) (9, 8) RED = Ok true.
Proof.
  apply (proj2 (rook_legal_iff loneRook (9, 0) (9, 8) RED None
                  ltac:(repeat split; [discriminate | reflexivity ..]))).
  split; [left |]; reflexivity.
Defined.

(** X2.  Once the filters have passed, a soldier's move is legal exactly
    when it is one orthogonal step that is not backward for its side, or
    one diagonal step strictly forward with both cells inside the mover's
    own palace.  A soldier never retreats. *)
Theorem soldier_legal_iff (bd : Board) (start end' : Z * Z) (tm : Team)
        (target : option Piece) :
  passesFilters bd start end' tm jol target ->
  let dy := fst end' - fst start in
  let dx := snd end' - snd start in
  (isValidMove bd start end' tm = Ok true
   <-> (Z.abs dx + Z.abs dy = 1 /\ notBackward tm dy)
       \/ (Z.abs dx = 1 /\ Z.abs dy = 1 /\ strictlyForward tm dy
           /\ inPalace (fst start) (snd start) tm = true
           /\ inPalace (fst end') (snd end') tm = true))
  /\ (isValidMove bd start end' tm = Ok true -> notBackward tm dy).
Proof.
  intros Hf. destruct start as [sy sx], end' as [ey ex]. cbn [fst snd].
  pass_filters Hf. apply distinct_cells in Hne.
  assert (Hmoved : ey - sy <> 0 \/ ex - sx <> 0).
  { destruct (Z.eq_dec ey sy), (Z.eq_dec ex sx); try lia.
    exfalso. apply Hne. f_equal; lia. }
  unfold notBackward, strictlyForward.
  destruct (Z.ltb_spec 1 (Z.abs (ex - sx) + Z.abs (ey - sy))) as [Hfar | Hnear].
  - destruct (inPalace sy sx tm) eqn:Hps, (inPalace ey ex tm) eqn:Hpe;
      cbn [andb];
      try (split; [split; [discriminate | intros [[? ?] | (? & ? & ? & ? & ?)];
                                           (lia || discriminate)]
                  | discriminate]).
    destruct (Z.eqb_spec (Z.abs (ex - sx)) 1) as [Hx | Hx]; cbn [andb];
      [| split; [split; [discriminate | intros [[? ?] | (? & ? & ?)]; lia]
               | discriminate]].
    destruct (Z.eqb_spec (Z.abs (ey - sy)) 1) as [Hy | Hy]; cbn [andb];
      [| split; [split; [discriminate | intros [[? ?] | (? & ? & ?)]; lia]
               | discriminate]].
    destruct tm.
    + destruct (Z.ltb_spec (ey - sy) 0); split;
        try (split; [intros _; right; repeat split; auto; lia
                    | reflexivity]);
        try (split; [discriminate | intros [[? ?] | (? & ? & ? & ?)]; lia]);
        intros; try discriminate; lia.
    + destruct (Z.ltb_spec 0 (ey - sy)); split;
        try (split; [intros _; right; repeat split; auto; lia
                    | reflexivity]);
        try (split; [discriminate | intros [[? ?] | (? & ? & ? & ?)]; lia]);
        intros; try discriminate; lia.
  - destruct tm.
    + destruct (Z.ltb_spec 0 (ey - sy)); split;
        try (split; [discriminate | intros [[? ?] | (? & ? & ?)]; lia]);
        try (split; [intros _; left; lia | reflexivity]);
        intros; try discriminate; lia.
    + destruct (Z.ltb_spec (ey - sy) 0); split;
        try (split; [discriminate | intros [[? ?] | (? & ? & ?)]; lia]);
        try (split; [intros _; left; lia | reflexivity]);
        intros; try discriminate; lia.
Qed.

Lemma soldier_legal_iff_witness :
  isValidMove (initBoard an an) (3, 0) (4, 0) BLUE = Ok true.
Proof.
  apply (proj1 (soldier_legal_iff (initBoard an an) (3, 0) (4, 0) BLUE None
                  ltac:(repeat split; [discriminate | reflexivity ..]))).
  left. cbn. lia.
Defined.

(** X3.  Once the filters have passed, the move of a guard or of a general
    is legal exactly when the destination lies inside the mover's own
    palace and the move is one orthogonal step, or one diagonal step that
    starts or ends on (1,4) or (8,4).  Neither piece ever leaves its
    palace. *)
Theorem palace_piece_legal_iff (bd : Board) (start end' : Z * Z) (tm : Team)
        (t : PieceType) (target : option Piece) :
  t = sa \/ t = jang ->
  passesFilters bd start end' tm t target ->
  let dy := fst end' - fst start in
  let dx := snd end' - snd start in
  (isValidMove bd start end' tm = Ok true
   <-> inPalace (fst end') (snd end') tm = true
       /\ (Z.abs dx + Z.abs dy = 1
           \/ (Z.abs dx = 1 /\ Z.abs dy = 1
               /\ (palaceCentre start \/ palaceCentre end'))))
  /\ (isValidMove bd start end' tm = Ok true
      -> inPalace (fst end') (snd end') tm = true).
Proof.
  intros Ht Hf. destruct start as [sy sx], end' as [ey ex]. cbn [fst snd].
  assert (Hcentre : forall y x,
             ((y =? 1) && (x =? 4)) || ((y =? 8) && (x =? 4)) = true
             <-> palaceCentre (y, x)).
  { intros y x. unfold palaceCentre.
    rewrite orb_true_iff, !andb_true_iff, !Z.eqb_eq.
    split; [intros [[-> ->] | [-> ->]]; auto | intros [[= -> ->] | [= -> ->]]; auto]. }
  destruct Ht as [-> | ->]; pass_filters Hf;
    (destruct (inPalace ey ex tm); cbn [negb];
     [| split; [split; [discriminate | intros [? _]; discriminate] | discriminate]];
     destruct (Z.eqb_spec (Z.abs (ex - sx) + Z.abs (ey - sy)) 1) as [H1 | H1];
     [split; [split; auto | auto] |];
     destruct (Z.eqb_spec (Z.abs (ex - sx)) 1) as [Hx | Hx]; cbn [andb];
     [| split; [split; [discriminate | intros [_ [? | (? & ? & ?)]]; lia] | auto]];
     destruct (Z.eqb_spec (Z.abs (ey - sy)) 1) as [Hy | Hy]; cbn [andb];
     [| split; [split; [discriminate | intros [_ [? | (? & ? & ?)]]; lia] | auto]];
     rewrite <- !Hcentre, <- orb_true_iff;
     destruct (_ || _); split; try split; auto; try discriminate;
     intros [_ [? | (_ & _ & ?)]]; (lia || discriminate)).
Qed.

Lemma palace_piece_legal_iff_witness :
  isValidMove (initBoard an an) (8, 4) (9, 4) RED = Ok true.
Proof.
  apply (proj1 (palace_piece_legal_iff (initBoard an an) (8, 4) (9, 4) RED jang None
                  ltac:(right; reflexivity)
                  ltac:(repeat split; [discriminate | reflexivity ..]))).
  split; [reflexivity | left; cbn; lia].
Defined.

Lemma legal_move_passes_filters_aux (bd : Board) (start end' : Z * Z) (tm : Team) :
  isValidMove bd start end' tm = Ok true ->
  exists t target, passesFilters bd start end' tm t target.
Proof.
  destruct start as [sy sx], end' as [ey ex]. unfold isValidMove, passesFilters.
  destruct ((sy =? ey) && (sx =? ex)) eqn:Hsame; [discriminate |].
  apply distinct_cells in Hsame.
  destruct (cell bd sy sx) as [[[ptm pt] |] | |] eqn:Hpiece; try discriminate.
  cbn [Res_bind team type].
  destruct (Team_eqb ptm tm) eqn:Hteam; [| discriminate].
  apply Team_eqb_eq in Hteam. subst ptm. cbn [negb].
  destruct (cell bd ey ex) as [target | |] eqn:Htarget; try discriminate.
  cbn [Res_bind].
  destruct (match target with
            | Some t => Team_eqb (team t) tm
            | None => false
            end) eqn:Hown; [discriminate |].
  intros _. exists pt, target. cbn [fst snd]. repeat split; auto.
  destruct target as [x |]; [| exact I].
  intros Hx. apply Team_eqb_eq in Hx. congruence.
Qed.


(** X4.  A move that [isValidMove] accepts has passed the filters: the two
    cells differ, the first holds a piece of the side to move and the
    second holds no piece of that side. *)
Theorem legal_move_passes_filters (bd : Board) (start end' : Z * Z) (tm : Team) :
  isValidMove bd start end' tm = Ok true ->
  exists t target, passesFilters bd start end' tm t target.
Proof. apply legal_move_passes_filters_aux. Qed.

Lemma legal_move_passes_filters_witness :
  exists t target, passesFilters (initBoard an an) (3, 0) (4, 0) BLUE t target.
Proof.
  exact (legal_move_passes_filters (initBoard an an) (3, 0) (4, 0) BLUE eq_refl).
Defined.
(** * Writing a cell *)

Lemma assign_length (row : Row) (c : nat) (v : option Piece) :
  List.length (assign row c v) = Nat.max (List.length row) (S c).
Proof.
  revert row. induction c as [| c IH]; intros [| x rest]; simpl; try reflexivity.
  - rewrite Nat.max_comm. reflexivity.
  - rewrite IH. simpl. reflexivity.
  - rewrite IH. reflexivity.
Qed.

Lemma assign_same (row : Row) (c : nat) (v : option Piece) :
  nth_error (assign row c v) c = Some v.
Proof.
  revert row. induction c as [| c IH]; intros [| x rest]; simpl; auto.
Qed.

Lemma assign_other (row : Row) (c m : nat) (v : option Piece) :
  m <> c ->
  match nth_error (assign row c v) m with Some x => x | None => None end
  = match nth_error row m with Some x => x | None => None end.
Proof.
  revert row m. induction c as [| c IH]; intros [| x rest] [| m] Hm; simpl;
    try reflexivity; try lia.
  - destruct m; reflexivity.
  - rewrite IH by lia. destruct m; reflexivity.
  - apply IH. lia.
Qed.

Lemma assign_row_spec (bd bd' : Board) (n : nat) (f : Row -> Row) :
  assign_row bd n f = Some bd' ->
  List.length bd' = List.length bd
  /\ nth_error bd' n = option_map f (nth_error bd n)
  /\ forall m, m <> n -> nth_error bd' m = nth_error bd m.
Proof.
  revert bd bd'. induction n as [| n IH]; intros [| row rest] bd'; simpl;
    try discriminate.
  - intros [= <-]. repeat split. intros [| m] Hm; [lia | reflexivity].
  - destruct (assign_row rest n f) as [rest' |] eqn:E; [| discriminate].
    intros [= <-]. destruct (IH _ _ E) as (Hlen & Hn & Hm).
    repeat split; simpl; auto.
    intros [| m] Hne; [reflexivity | apply Hm; lia].
Qed.

(** After [board[r][c] = v] at a column that is not negative the cell
    reads [v] and every other cell reads as before. *)
Lemma store_same (bd bd' : Board) (r c : Z) (v : option Piece) :
  store bd r c v = Ok bd' -> 0 <= c -> cell bd' r c = Ok v.
Proof.
  unfold store, cell, index. intros Hstore Hc.
  destruct (Z.ltb_spec r 0); [discriminate |].
  destruct (assign_row bd (Z.to_nat r) _) as [bd0 |] eqn:E; [| discriminate].
  injection Hstore as <-. destruct (assign_row_spec _ _ _ _ E) as (_ & Hn & _).
  rewrite Hn. destruct (nth_error bd (Z.to_nat r)) as [row |] eqn:Hrow.
  - simpl. destruct (Z.ltb_spec c 0); [lia |]. rewrite assign_same. reflexivity.
  - exfalso. clear Hn. revert E Hrow. generalize (Z.to_nat r). clear.
    intros n. revert bd bd0. induction n as [| n IH]; intros [| row rest] bd0; simpl;
      try discriminate.
    destruct (assign_row rest n _) eqn:E; [| discriminate]. intros _. eauto.
Qed.

Lemma store_other (bd bd' : Board) (r c r' c' : Z) (v : option Piece) :
  store bd r c v = Ok bd' -> (r', c') <> (r, c) -> cell bd' r' c' = cell bd r' c'.
Proof.
  unfold store, cell, index. intros Hstore Hne.
  destruct (Z.ltb_spec r 0); [discriminate |].
  destruct (assign_row bd (Z.to_nat r) _) as [bd0 |] eqn:E; [| discriminate].
  injection Hstore as <-. destruct (assign_row_spec _ _ _ _ E) as (_ & Hn & Hm).
  destruct (Z.ltb_spec r' 0); [reflexivity |].
  destruct (Z.eq_dec r' r) as [-> | Hr].
  - rewrite Hn. destruct (nth_error bd (Z.to_nat r)) as [row |]; [| reflexivity].
    simpl. f_equal. destruct (Z.ltb_spec c' 0); [reflexivity |].
    destruct (Z.ltb_spec c 0); [reflexivity |].
    apply assign_other. intros Heq. apply Hne. f_equal. lia.
  - rewrite Hm by lia. reflexivity.
Qed.

Lemma store_fullGrid (bd : Board) (r c : Z) (v : option Piece) :
  fullGrid bd -> inGrid (r, c) = true ->
  exists bd', store bd r c v = Ok bd' /\ fullGrid bd'.
Proof.
  intros [Hlen Hrows] Hin. unfold inGrid in Hin. cbn [fst snd] in Hin.
  rewrite !andb_true_iff, !Z.leb_le in Hin.
  destruct (store_on_board bd r c v) as (bd' & Hstore & Hlen'); [lia |].
  exists bd'. split; [exact Hstore |]. split; [congruence |].
  unfold store in Hstore. destruct (Z.ltb_spec r 0); [lia |].
  destruct (assign_row bd (Z.to_nat r) _) as [bd0 |] eqn:E; [| discriminate].
  injection Hstore as <-. destruct (assign_row_spec _ _ _ _ E) as (_ & Hn & Hm).
  apply Forall_forall. intros row' Hin'. apply In_nth_error in Hin'.
  destruct Hin' as [m Hm'].
  destruct (Nat.eq_dec m (Z.to_nat r)) as [-> | Hne].
  - rewrite Hn in Hm'. destruct (nth_error bd (Z.to_nat r)) as [row |] eqn:Hrow;
      [| discriminate].
    injection Hm' as <-. apply nth_error_In in Hrow.
    rewrite Forall_forall in Hrows. specialize (Hrows _ Hrow).
    destruct (Z.ltb_spec c 0); [lia |]. rewrite assign_length. lia.
  - rewrite Hm in Hm' by exact Hne. apply nth_error_In in Hm'.
    rewrite Forall_forall in Hrows. auto.
Qed.

Lemma relocate_fullGrid (bd : Board) (start end' : Z * Z) :
  fullGrid bd -> inGrid start = true -> inGrid end' = true ->
  exists newBoard, relocate bd start end' = Ok newBoard /\ fullGrid newBoard.
Proof.
  intros Hgrid Hs He. unfold relocate.
  destruct (cell_on_board bd (fst start) (snd start)) as [piece ->].
  { destruct Hgrid as [Hlen _]. unfold inGrid in Hs.
    rewrite !andb_true_iff, !Z.leb_le in Hs. lia. }
  cbn [Res_bind]. destruct end' as [er ec], start as [sr sc]. cbn [fst snd].
  destruct (store_fullGrid bd er ec piece Hgrid He) as (bd1 & -> & Hgrid1).
  cbn [Res_bind]. exact (store_fullGrid bd1 sr sc None Hgrid1 Hs).
Qed.

Lemma relocate_cells (bd newBoard : Board) (start end' : Z * Z) :
  relocate bd start end' = Ok newBoard ->
  start <> end' -> 0 <= snd start -> 0 <= snd end' ->
  cell newBoard (fst end') (snd end') = cell bd (fst start) (snd start)
  /\ cell newBoard (fst start) (snd start) = Ok None
  /\ forall rc, rc <> start -> rc <> end' ->
                cell newBoard (fst rc) (snd rc) = cell bd (fst rc) (snd rc).
Proof.
  destruct start as [sr sc], end' as [er ec]. unfold relocate. cbn [fst snd].
  destruct (cell bd sr sc) as [piece | |] eqn:Hpiece; try discriminate.
  cbn [Res_bind].
  destruct (store bd er ec piece) as [bd1 | |] eqn:H1; try discriminate.
  cbn [Res_bind]. intros H2 Hne Hsc Hec. repeat split.
  - rewrite (store_other _ _ _ _ _ _ _ H2) by congruence.
    apply (store_same _ _ _ _ _ H1 Hec).
  - apply (store_same _ _ _ _ _ H2 Hsc).
  - intros [r c] Hs He. cbn [fst snd].
    rewrite (store_other _ _ _ _ _ _ _ H2) by exact Hs.
    apply (store_other _ _ _ _ _ _ _ H1). exact He.
Qed.

(** X5.  A move that [isValidMove] accepts, to a column that is not
    negative, is carried out by [executeMove] as the relocation of one
    piece: the destination then holds what stood on the source (whatever
    stood there before is gone), the source is empty, every other cell
    reads as before and the board has as many rows as before. *)
Theorem executeMove_relocates_one_piece (a : App) (start end' : Z * Z) :
  isValidMove (board (state a)) start end' (turn (state a)) = Ok true ->
  0 <= snd end' ->
  let bd := board (state a) in
  let bd' := board (state (snd (executeMove (state a) start end' a))) in
  (exists pc, cell bd (fst start) (snd start) = Ok (Some pc)
              /\ cell bd' (fst end') (snd end') = Ok (Some pc))
  /\ cell bd' (fst start) (snd start) = Ok None
  /\ (forall rc, rc <> start -> rc <> end' ->
                 cell bd' (fst rc) (snd rc) = cell bd (fst rc) (snd rc))
  /\ List.length bd' = List.length bd.
Proof.
  intros Hok Hec. cbv zeta.
  destruct (legal_move_passes_filters_aux _ _ _ _ Hok)
    as (t & target & Hne & Hpiece & _).
  destruct (relocate_valid _ _ _ _ Hok) as [newBoard Hrel].
  pose proof (executeMove_spec (state a) start end' a) as Hexec.
  rewrite Hrel in Hexec. destruct Hexec as (res & commands & ->).
  cbn [snd state afterMove board].
  assert (Hsc : 0 <= snd start).
  { unfold cell in Hpiece. destruct (index (board (state a)) (fst start)); [| discriminate].
    unfold index in Hpiece. destruct (Z.ltb_spec (snd start) 0); [discriminate | lia]. }
  destruct (relocate_cells _ _ _ _ Hrel Hne Hsc Hec) as (He & Hs & Hothers).
  repeat split; auto.
  - exists (p (turn (state a)) t). rewrite He. auto.
  - unfold relocate in Hrel.
    destruct (cell _ _ _) as [piece | |]; try discriminate. cbn [Res_bind] in Hrel.
    destruct (store (board (state a)) _ _ piece) as [bd1 | |] eqn:H1; try discriminate.
    cbn [Res_bind] in Hrel.
    unfold store in H1, Hrel.
    destruct (fst end' <? 0); [discriminate |].
    destruct (fst start <? 0); [discriminate |].
    destruct (assign_row (board (state a)) _ _) as [x |] eqn:E1; [| discriminate].
    injection H1 as <-.
    destruct (assign_row x _ _) as [y |] eqn:E2; [| discriminate].
    injection Hrel as <-.
    destruct (assign_row_spec _ _ _ _ E1) as (L1 & _).
    destruct (assign_row_spec _ _ _ _ E2) as (L2 & _). congruence.
Qed.

Lemma executeMove_relocates_one_piece_witness :
  let a := run [StartGame] (mount true) in
  cell (board (state (snd (executeMove (state a) (3, 0) (4, 0) a)))) 3 0 = Ok None.
Proof.
  exact (proj1 (proj2 (executeMove_relocates_one_piece
                         (run [StartGame] (mount true)) (3, 0) (4, 0) eq_refl
                         ltac:(cbn; lia)))).
Defined.
(** * Loops over the grid *)

Lemma foldM_pure {A S : Type} (f : S -> A -> Res S) (h : S -> A -> S) (l : list A) :
  (forall s x, In x l -> f s x = Ok (h s x)) ->
  forall s, foldM f l s = Ok (fold_left h l s).
Proof.
  induction l as [| x rest IH]; intros Hf s; [reflexivity |].
  simpl. rewrite Hf by (left; reflexivity). simpl.
  apply IH. intros s' y Hy. apply Hf. right. exact Hy.
Qed.

Lemma in_grid (rc : Z * Z) : In rc grid <-> inGrid rc = true.
Proof.
  destruct rc as [r c]. unfold grid, inGrid. cbn [fst snd].
  rewrite in_flat_map, !andb_true_iff, !Z.leb_le. split.
  - intros (r' & Hr & Hc). apply in_map_iff in Hc. destruct Hc as (c' & [= <- <-] & Hc).
    unfold rows10 in Hr. unfold cols9 in Hc. simpl in Hr, Hc. lia.
  - intros Hrc. exists r. split.
    + unfold rows10. simpl. lia.
    + apply in_map_iff. exists c. split; [reflexivity |]. unfold cols9. simpl. lia.
Qed.

Lemma fullGrid_row (bd : Board) (r : Z) :
  fullGrid bd -> 0 <= r <= 9 ->
  exists row, index bd r = Some row /\ List.length row = 9%nat.
Proof.
  intros [Hlen Hrows] Hr.
  destruct (proj2 (index_Some_iff bd r)) as [row Hrow]; [lia |].
  exists row. split; [exact Hrow |].
  unfold index in Hrow. destruct (r <? 0); [discriminate |].
  apply nth_error_In in Hrow. rewrite Forall_forall in Hrows. auto.
Qed.

Lemma cell_peek (bd : Board) (r c : Z) :
  0 <= r < Z.of_nat (List.length bd) -> cell bd r c = Ok (peek bd (r, c)).
Proof.
  intros Hr. destruct (cell_on_board bd r c Hr) as [x Hx].
  unfold peek. cbn [fst snd]. rewrite Hx. reflexivity.
Qed.

(** The cells of a rank of nine, read column by column, are the rank. *)
Lemma peek_row (bd : Board) (r : Z) (row : Row) :
  index bd r = Some row -> List.length row = 9%nat ->
  map (fun c => peek bd (r, c)) cols9 = row.
Proof.
  intros Hrow Hlen. unfold peek, cell. cbn [fst snd]. rewrite Hrow.
  destruct row as [| x0 [| x1 [| x2 [| x3 [| x4 [| x5 [| x6 [| x7 [| x8 [| x9 rest]]]]]]]]]];
    try discriminate.
  reflexivity.
Qed.

(** ** calculateMaterialScore on a full grid *)

Lemma fold_left_map {A B S : Type} (h : S -> B -> S) (g : A -> B) (l : list A) (s : S) :
  fold_left (fun acc x => h acc (g x)) l s = fold_left h (map g l) s.
Proof. revert s. induction l; intros s; simpl; auto. Qed.

Lemma calculateMaterialScore_grid (bd : Board) :
  fullGrid bd ->
  calculateMaterialScore bd = Ok (material (map (peek bd) grid)).
Proof.
  intros Hgrid. unfold calculateMaterialScore, material.
  rewrite <- fold_left_map.
  apply foldM_pure. intros [redScore blueScore] [r c] Hin.
  apply in_grid in Hin. unfold inGrid in Hin. cbn [fst snd] in Hin.
  rewrite !andb_true_iff, !Z.leb_le in Hin.
  rewrite cell_peek by (destruct Hgrid as [-> _]; lia).
  cbn [Res_bind]. unfold addScore, cellScore. cbn [fst snd].
  destruct (peek bd (r, c)) as [pc |].
  - destruct (team pc); cbn [fst snd]; rewrite Z.add_0_r; reflexivity.
  - rewrite !Z.add_0_r. reflexivity.
Qed.

(** ** generateFen on a full grid *)

Lemma fenRow_grid (bd : Board) (r : Z) (row : Row) :
  index bd r = Some row -> List.length row = 9%nat ->
  fenRow bd r = Ok (fenOfRow row).
Proof.
  intros Hrow Hlen. unfold fenRow, fenOfRow.
  rewrite (foldM_pure _ (fun acc c => fenStep acc (peek bd (r, c)))).
  - cbn [Res_bind]. rewrite fold_left_map, (peek_row bd r row Hrow Hlen). reflexivity.
  - intros [rowStr emptyCount] c _.
    rewrite cell_peek by (apply index_Some_iff; eauto).
    cbn [Res_bind]. unfold fenStep. cbn [fst snd].
    destruct (peek bd (r, c)); reflexivity.
Qed.

Lemma generateFen_grid (bd : Board) (tm : Team) :
  fullGrid bd -> generateFen bd tm = Ok (fenLine (map fenOfRow bd) tm).
Proof.
  intros Hgrid. unfold generateFen.
  rewrite (foldM_pure _ (fun rows r =>
                           rows ++ [fenOfRow match index bd r with
                                             | Some row => row
                                             | None => []
                                             end])).
  - cbn [Res_bind]. unfold fenLine. do 3 f_equal.
    destruct Hgrid as [Hlen _].
    destruct bd as [| r0 [| r1 [| r2 [| r3 [| r4 [| r5 [| r6 [| r7 [| r8 [| r9 [| r10 rest]]]]]]]]]]];
      try discriminate.
    reflexivity.
  - intros rows r Hr. unfold rows10 in Hr. simpl in Hr.
    destruct (fullGrid_row bd r Hgrid) as (row & Hrow & Hlen); [lia |].
    rewrite (fenRow_grid bd r row Hrow Hlen), Hrow. reflexivity.
Qed.

(** ** The highlighting loops on a full grid *)

Lemma fold_left_filter {A : Type} (g : A -> bool) (l acc : list A) :
  fold_left (fun moves x => if g x then moves ++ [x] else moves) l acc
  = acc ++ filter g l.
Proof.
  revert acc. induction l as [| x rest IH]; intros acc; simpl.
  - rewrite app_nil_r. reflexivity.
  - rewrite IH. destruct (g x); [rewrite <- app_assoc |]; reflexivity.
Qed.

Lemma legalDestinations_grid (bd : Board) (from : Z * Z) (tm : Team) :
  fullGrid bd -> 0 <= fst from <= 9 ->
  legalDestinations bd from tm = Ok (filter (accepts bd from tm) grid).
Proof.
  intros Hgrid Hfrom. unfold legalDestinations.
  rewrite (foldM_pure _ (fun moves to =>
                           if accepts bd from tm to then moves ++ [to] else moves)).
  - rewrite fold_left_filter. reflexivity.
  - intros moves to Hin. apply in_grid in Hin. unfold inGrid in Hin.
    rewrite !andb_true_iff, !Z.leb_le in Hin.
    destruct (isValidMove_returns bd from to tm) as [ok Hok].
    { destruct Hgrid as [Hlen _]. unfold rowsOnBoard. lia. }
    unfold accepts. rewrite Hok. destruct ok; reflexivity.
Qed.
(** * What each handler does to the whole application *)

Lemma executeMove_exact (rd : Render) (start end' : Z * Z) (a : App) (newBoard : Board) :
  relocate (board rd) start end' = Ok newBoard ->
  let out := sendOutcome a (engineEnabled rd)
                         (generateFen newBoard (other (turn rd))) (timeControl rd) in
  executeMove rd start end' a
  = (fst out, mkApp (afterMove rd (state a) start end' newBoard)
                    (isEngineThinking a) (electronAPI a) (snd out) (console a)).
Proof.
  destruct start as [sr sc], end' as [er ec].
  unfold executeMove, relocate, bind, lift, sendOutcome. cbn [fst snd].
  destruct (cell (board rd) sr sc) as [piece | |]; cbn [Res_bind]; try discriminate.
  destruct (store (board rd) er ec piece) as [bd1 | |]; cbn [Res_bind]; try discriminate.
  intros ->.
  cbn [setBoard setSelected setLegalMoves setHistory setTurn update
       state isEngineThinking electronAPI sent console board turn gameStarted
       redSetup blueSetup gameMode selected legalMoves history materialScore
       engineEnabled timeControl].
  destruct (electronAPI a && engineEnabled rd); [| reflexivity].
  destruct (generateFen newBoard (other (turn rd))); try reflexivity.
  unfold sendCommand, searchRequest.
  cbn [state isEngineThinking electronAPI sent console fst snd].
  rewrite <- app_assoc. reflexivity.
Qed.

Lemma withSelection_id (s : Render) :
  withSelection s (selected s) (legalMoves s) = s.
Proof. destruct s. reflexivity. Qed.

(** A click either changes the selection and the highlights only, or
    carries out the move from the selected cell that [isValidMove]
    accepted. *)
Lemma handleSquareClick_frame (a : App) (r c : Z) :
  exists res a',
    handleSquareClick (state a) r c a = (res, a')
    /\ isEngineThinking a' = isEngineThinking a
    /\ electronAPI a' = electronAPI a
    /\ console a' = console a
    /\ ((sent a' = sent a
         /\ exists sel moves,
             state a' = withSelection (state a) sel moves
             /\ (sel = selected (state a) \/ sel = None \/ sel = Some (r, c)))
        \/ exists start newBoard,
            selected (state a) = Some start
            /\ isValidMove (board (state a)) start (r, c) (turn (state a)) = Ok true
            /\ relocate (board (state a)) start (r, c) = Ok newBoard
            /\ state a' = afterMove (state a) (state a) start (r, c) newBoard
            /\ (res, sent a')
               = sendOutcome a (engineEnabled (state a))
                             (generateFen newBoard (other (turn (state a))))
                             (timeControl (state a))).
Proof.
  assert (Hquiet : forall (res : Res unit) (sel : option (Z * Z)) (moves : list (Z * Z)),
             sel = selected (state a) \/ sel = None \/ sel = Some (r, c) ->
             exists res0 a0,
               (res, mkApp (withSelection (state a) sel moves) (isEngineThinking a)
                           (electronAPI a) (sent a) (console a)) = (res0, a0)
               /\ isEngineThinking a0 = isEngineThinking a
               /\ electronAPI a0 = electronAPI a
               /\ console a0 = console a
               /\ ((sent a0 = sent a
                    /\ exists sel moves,
                        state a0 = withSelection (state a) sel moves
                        /\ (sel = selected (state a) \/ sel = None \/ sel = Some (r, c)))
                   \/ exists start newBoard,
                       selected (state a) = Some start
                       /\ isValidMove (board (state a)) start (r, c) (turn (state a))
                          = Ok true
                       /\ relocate (board (state a)) start (r, c) = Ok newBoard
                       /\ state a0
                          = afterMove (state a) (state a) start (r, c) newBoard
                       /\ (res0, sent a0)
                          = sendOutcome a (engineEnabled (state a))
                                        (generateFen newBoard (other (turn (state a))))
                                        (timeControl (state a)))).
  { intros res sel moves Hsel. eexists. eexists. split; [reflexivity |].
    cbn [state isEngineThinking electronAPI sent console].
    repeat split. left. split; [reflexivity |]. exists sel, moves. auto. }
  assert (Hsame : forall res : Res unit,
             (res, a) = (res, mkApp (withSelection (state a) (selected (state a))
                                                   (legalMoves (state a)))
                                    (isEngineThinking a) (electronAPI a) (sent a)
                                    (console a))).
  { intros res. rewrite withSelection_id. destruct a. reflexivity. }
  unfold handleSquareClick.
  destruct (negb (gameStarted (state a)));
    [unfold ret; rewrite Hsame; apply Hquiet; auto |].
  destruct (engineEnabled (state a) && _);
    [unfold ret; rewrite Hsame; apply Hquiet; auto |].
  destruct (selected (state a)) as [[sr sc] |] eqn:Hsel.
  - destruct ((sr =? r) && (sc =? c)).
    { unfold bind, setSelected, setLegalMoves, update.
      apply (Hquiet (Ok tt) None []). auto. }
    unfold bind at 1, lift at 1.
    destruct (cell (board (state a)) sr sc) as [[pc |] | |];
      try (unfold ret; rewrite Hsame; apply Hquiet; auto).
    unfold bind at 1, lift at 1.
    destruct (cell (board (state a)) r c) as [target | |];
      try (rewrite Hsame; apply Hquiet; auto).
    destruct (match target with
              | Some t => Team_eqb (team t) (team pc)
              | None => false
              end).
    { unfold bind, lift, setSelected, setLegalMoves, update.
      destruct (legalDestinations _ _ _) as [moves | |].
      - apply (Hquiet (Ok tt) (Some (r, c)) moves). auto.
      - apply (Hquiet TypeError (Some (r, c)) (legalMoves (state a))). auto.
      - apply (Hquiet Diverge (Some (r, c)) (legalMoves (state a))). auto. }
    unfold bind at 1, lift at 1.
    destruct (isValidMove (board (state a)) (sr, sc) (r, c) (turn (state a)))
      as [[|] | |] eqn:Hok;
      try (rewrite Hsame; apply Hquiet; auto).
    + destruct (relocate_valid _ _ _ _ Hok) as [newBoard Hrel].
      rewrite (executeMove_exact _ _ _ a _ Hrel). cbv zeta.
      eexists. eexists. split; [reflexivity |].
      cbn [state isEngineThinking electronAPI sent console].
      repeat split. right. exists (sr, sc), newBoard.
      repeat split; auto.
      destruct (sendOutcome _ _ _ _); reflexivity.
    + unfold bind, setSelected, setLegalMoves, update.
      apply (Hquiet (Ok tt) None []). auto.
  - unfold bind at 1, lift at 1.
    destruct (cell (board (state a)) r c) as [[pc |] | |];
      try (unfold ret; rewrite Hsame; apply Hquiet; auto).
    destruct (Team_eqb (team pc) (turn (state a)));
      [| unfold ret; rewrite Hsame; apply Hquiet; auto].
    unfold bind, lift, setSelected, setLegalMoves, update.
    destruct (legalDestinations _ _ _) as [moves | |].
    + apply (Hquiet (Ok tt) (Some (r, c)) moves). auto.
    + apply (Hquiet TypeError (Some (r, c)) (legalMoves (state a))). auto.
    + apply (Hquiet Diverge (Some (r, c)) (legalMoves (state a))). auto.
Qed.

(** The effect sets the material score and, when it is the engine's side to
    move, the engine is enabled and no request is pending, sends one
    request for the current position. *)
Lemma boardEffect_frame (a : App) :
  exists res a',
    boardEffect (state a) a = (res, a')
    /\ electronAPI a' = electronAPI a
    /\ console a' = console a
    /\ (state a' = state a
        \/ exists score, state a' = withMaterialScore (state a) score)
    /\ ((sent a' = sent a
         /\ (isEngineThinking a' = isEngineThinking a
             \/ (isEngineThinking a' = true /\ res <> Ok tt)))
        \/ exists fen,
            generateFen (board (state a)) (turn (state a)) = Ok fen
            /\ sent a' = sent a ++ searchRequest fen (timeControl (state a))
            /\ gameStarted (state a) = true
            /\ engineEnabled (state a) = true
            /\ electronAPI a = true
            /\ engineToMove (state a) = true
            /\ isEngineThinking a = false
            /\ isEngineThinking a' = true
            /\ res = Ok tt)
    /\ ((exists score, calculateMaterialScore (board (state a)) = Ok score) ->
        (exists fen, generateFen (board (state a)) (turn (state a)) = Ok fen) ->
        res = Ok tt).
Proof.
  unfold boardEffect.
  destruct (gameStarted (state a)) eqn:Hstarted.
  2:{ exists (Ok tt), a. repeat split; auto. }
  unfold bind at 1, lift at 1.
  destruct (calculateMaterialScore (board (state a))) as [score | |] eqn:Hscore.
  2:{ exists TypeError, a. repeat split; auto. intros [? [= ]]. }
  2:{ exists Diverge, a. repeat split; auto. intros [? [= ]]. }
  unfold bind at 1. unfold setMaterialScore, update.
  unfold checkEngineMove, requestEngineMove.
  cbn [state isEngineThinking electronAPI sent console board turn gameStarted
       redSetup blueSetup gameMode selected legalMoves history materialScore
       engineEnabled timeControl].
  change (mkRender (board (state a)) (turn (state a)) (gameStarted (state a))
                   (redSetup (state a)) (blueSetup (state a)) (gameMode (state a))
                   (selected (state a)) (legalMoves (state a)) (history (state a))
                   score (engineEnabled (state a)) (timeControl (state a)))
    with (withMaterialScore (state a) score).
  change (match gameMode (state a) with
          | PvP => false
          | CvC => true
          | PvC => Team_eqb (turn (state a)) RED
          | CvP => Team_eqb (turn (state a)) BLUE
          end) with (engineToMove (state a)).
  rewrite Hstarted.
  destruct (engineEnabled (state a)) eqn:Henabled; cbn [negb orb].
  2:{ eexists. eexists. split; [reflexivity |].
      cbn [state isEngineThinking electronAPI sent console].
      repeat split; eauto. }
  destruct (isEngineThinking a) eqn:Hbusy.
  { eexists. eexists. split; [reflexivity |].
    cbn [state isEngineThinking electronAPI sent console].
    repeat split; eauto. }
  destruct (engineToMove (state a)) eqn:Hmove.
  2:{ eexists. eexists. split; [reflexivity |].
      cbn [state isEngineThinking electronAPI sent console].
      repeat split; eauto. }
  destruct (electronAPI a) eqn:Hapi; cbn [negb].
  2:{ eexists. eexists. split; [reflexivity |].
      cbn [state isEngineThinking electronAPI sent console].
      repeat split; eauto. }
  unfold bind, setThinking, lift, sendCommand.
  cbn [state isEngineThinking electronAPI sent console].
  destruct (generateFen (board (state a)) (turn (state a))) as [fen | |] eqn:Hfen.
  - eexists. eexists. split; [reflexivity |].
    cbn [state isEngineThinking electronAPI sent console].
    repeat split; eauto. right. exists fen.
    unfold searchRequest. rewrite <- app_assoc. repeat split; auto.
  - eexists. eexists. split; [reflexivity |].
    cbn [state isEngineThinking electronAPI sent console].
    repeat split; eauto.
    + left. split; [reflexivity |]. right. split; [reflexivity | discriminate].
    + intros _ [? [= ]].
  - eexists. eexists. split; [reflexivity |].
    cbn [state isEngineThinking electronAPI sent console].
    repeat split; eauto.
    + left. split; [reflexivity |]. right. split; [reflexivity | discriminate].
    + intros _ [? [= ]].
Qed.

(** * Invariants of the component *)

Lemma sideAt_succ (n : nat) : sideAt (S n) = other (sideAt n).
Proof.
  unfold sideAt. rewrite Nat.even_succ, <- Nat.negb_even.
  destruct (Nat.even n); reflexivity.
Qed.

Lemma wellNumbered_snoc (hs : list MoveRecord.t) (h : MoveRecord.t) :
  wellNumbered hs ->
  MoveRecord.seq h = Z.of_nat (List.length hs) + 1 ->
  MoveRecord.turn h = sideAt (List.length hs) ->
  wellNumbered (hs ++ [h]).
Proof.
  intros Hhs Hseq Hturn i h' Hi.
  destruct (Nat.lt_ge_cases i (List.length hs)) as [Hlt | Hge].
  - rewrite nth_error_app1 in Hi by exact Hlt. auto.
  - rewrite nth_error_app2 in Hi by exact Hge.
    destruct (i - List.length hs)%nat as [| k] eqn:Hk; simpl in Hi.
    + injection Hi as <-. assert (i = List.length hs) by lia. subst i. auto.
    + destruct k; discriminate.
Qed.

Lemma wellNumbered_front (older : list MoveRecord.t) (h : MoveRecord.t) :
  wellNumbered (older ++ [h]) ->
  wellNumbered older /\ MoveRecord.turn h = sideAt (List.length older).
Proof.
  intros Hall. split.
  - intros i h' Hi. apply Hall. rewrite nth_error_app1; [exact Hi |].
    apply nth_error_Some. congruence.
  - apply (Hall (List.length older) h).
    rewrite nth_error_app2, Nat.sub_diag by lia. reflexivity.
Qed.

Lemma fullGrid_initBoard (redSetup blueSetup : SetupType) :
  fullGrid (initBoard redSetup blueSetup).
Proof.
  destruct redSetup, blueSetup; (split; [reflexivity | repeat constructor]).
Qed.

Lemma wellNumbered_nil : wellNumbered [].
Proof. intros [| i] h; discriminate. Qed.

Ltac split_Inv := unfold Inv; cbn; split; [| split; [| split; [| split]]].

Lemma Inv_mount : Inv mountRender.
Proof.
  unfold mountRender. split_Inv.
  - left. repeat split. constructor.
  - discriminate.
  - apply wellNumbered_nil.
  - reflexivity.
  - lia.
Qed.

Lemma rendered_inGrid (s : Render) (r c : Z) :
  fullGrid (board s) -> rendered s r c = true -> inGrid (r, c) = true.
Proof.
  intros [Hlen Hrows]. unfold rendered, inGrid. cbn [fst snd].
  destruct (gameStarted s); [| discriminate]. cbn [andb].
  destruct (index (board s) r) as [row |] eqn:Hrow; [| discriminate].
  assert (Hr : 0 <= r < Z.of_nat (List.length (board s)))
    by (apply index_Some_iff; eauto).
  unfold index in Hrow. destruct (r <? 0); [discriminate |].
  apply nth_error_In in Hrow. rewrite Forall_forall in Hrows.
  rewrite (Hrows _ Hrow). rewrite !andb_true_iff, !Z.leb_le, Z.ltb_lt. lia.
Qed.

Lemma rendered_started (s : Render) (r c : Z) :
  rendered s r c = true -> gameStarted s = true.
Proof. unfold rendered. destruct (gameStarted s); [reflexivity | discriminate]. Qed.

Lemma Inv_started (s : Render) :
  Inv s -> gameStarted s = true ->
  fullGrid (board s) /\ Forall (fun h => fullGrid (MoveRecord.prevBoard h)) (history s).
Proof.
  intros ([(Hstopped & _) | Hgrid] & _) Hstarted; [congruence | exact Hgrid].
Qed.

(** Every event keeps the invariant. *)
Lemma Inv_step (a : App) (e : Event) : Inv (state a) -> Inv (state (dispatch e a)).
Proof.
  intros HInv. pose proof HInv as (Hboards & Hsel & Hnum & Hturn & Htime).
  unfold dispatch, handle. destruct e.
  - (* StartGame *)
    unfold startGame, bind. run_setters.
    split_Inv; try discriminate; auto.
    + right. split; [apply fullGrid_initBoard | constructor].
    + apply wellNumbered_nil.
  - (* Click *)
    destruct (rendered (state a) r c) eqn:Hrendered; [| exact HInv].
    destruct (Inv_started _ HInv (rendered_started _ _ _ Hrendered)) as [Hgrid Hprev].
    pose proof (rendered_inGrid _ _ _ Hgrid Hrendered) as Hrc.
    destruct (handleSquareClick_frame a r c)
      as (res & a' & Hrun & _ & _ & _ & [(_ & sel & moves & Hstate & Hcases) | Hmove]);
      rewrite Hrun; cbn [snd].
    + rewrite Hstate. unfold withSelection. split_Inv; auto.
      intros rc ->. destruct Hcases as [Heq | [Heq | Heq]]; try discriminate.
      * apply Hsel. auto.
      * assert (Hrc' : rc = (r, c)) by congruence. rewrite Hrc'. exact Hrc.
    + destruct Hmove as (start & newBoard & Hstart & _ & Hrel & Hstate & _).
      rewrite Hstate.
      destruct (relocate_fullGrid _ start (r, c) Hgrid (Hsel _ Hstart) Hrc)
        as (newBoard' & Hrel' & Hgrid').
      assert (newBoard' = newBoard) by congruence. subst newBoard'.
      unfold afterMove. split_Inv; try discriminate.
      * right. split; [exact Hgrid' |]. apply Forall_app. split; [exact Hprev |].
        constructor; [exact Hgrid | constructor].
      * apply wellNumbered_snoc; auto.
      * rewrite length_app, Nat.add_1_r, sideAt_succ, Hturn. reflexivity.
      * exact Htime.
  - (* Undo *)
    unfold undoMove.
    destruct (rev (history (state a))) as [| lastMove older] eqn:Hrev; [exact HInv |].
    assert (Hh : history (state a) = rev older ++ [lastMove]).
    { rewrite <- (rev_involutive (history (state a))), Hrev. reflexivity. }
    unfold bind. run_setters. rewrite Hh, removelast_last.
    unfold boardsOK in Hboards. rewrite Hh in Hnum, Hboards.
    destruct (wellNumbered_front _ _ Hnum) as [Hnum' Hlast].
    split_Inv; try discriminate; auto.
    unfold boardsOK. run_setters.
    destruct Hboards as [(Hstopped & Hboard & Hall) | (Hgrid & Hall)];
      apply Forall_app in Hall; destruct Hall as [Hall Hone];
      apply Forall_inv in Hone; [left | right]; auto.
  - (* Pass *)
    unfold passTurn, bind. run_setters.
    split_Inv; auto.
    + unfold boardsOK in *. cbn.
      destruct Hboards as [(Hstopped & Hboard & Hall) | (Hgrid & Hall)].
      * left. split; [exact Hstopped |]. split; [exact Hboard |].
        apply Forall_app. split; [exact Hall |]. constructor; [exact Hboard | constructor].
      * right. split; [exact Hgrid |].
        apply Forall_app. split; [exact Hall |]. constructor; [exact Hgrid | constructor].
    + apply wellNumbered_snoc; auto.
    + rewrite length_app, Nat.add_1_r, sideAt_succ, Hturn. reflexivity.
  - (* Resign *)
    destruct (gameStarted (state a)) eqn:Hstarted; [| exact HInv].
    destruct (Inv_started _ HInv Hstarted) as [Hgrid Hprev].
    unfold resign. run_setters.
    split_Inv; auto. right. auto.
  - (* ToggleEngine *)
    run_setters. exact HInv.
  - run_setters. exact HInv.
  - run_setters. exact HInv.
  - run_setters. exact HInv.
  - (* SetTimeControl *)
    run_setters.
    split_Inv; auto. lia.
  - (* EngineOutput *)
    destruct (dispatch_EngineOutput output a) as (Hstate & _).
    unfold dispatch, handle in Hstate. rewrite Hstate. exact HInv.
  - (* Effect *)
    destruct (boardEffect_frame a)
      as (res & a' & Heq & _ & _ & [Hstate | [score Hstate]] & _);
      rewrite Heq; cbn [snd]; rewrite Hstate; exact HInv.
Qed.

Lemma reachable_Inv (api : bool) (a : App) : reachable api a -> Inv (state a).
Proof.
  induction 1 as [| a e _ IH]; [exact Inv_mount | exact (Inv_step a e IH)].
Qed.

(** * Properties of every reachable state *)

Lemma run_snoc (es : list Event) (e : Event) (a : App) :
  run (es ++ [e]) a = dispatch e (run es a).
Proof. unfold run. rewrite fold_left_app. reflexivity. Qed.

Lemma reachable_run (api : bool) (es : list Event) :
  reachable api (run es (mount api)).
Proof.
  induction es as [| e es IH] using rev_ind; [apply reachable_mount |].
  rewrite run_snoc. apply reachable_step. exact IH.
Qed.

(** Where the boards of a state come from.  Short of a new game, the board
    after an event is the board before it, a board of the history, or the
    board on which a click on a cell on screen has carried out a move from
    the selected cell; the boards of the history are boards of the history
    before, or the board before. *)
Lemma boards_step (P : Board -> Prop) (a : App) (e : Event) :
  isStartGame e = false ->
  (forall start r c newBoard,
      rendered (state a) r c = true ->
      selected (state a) = Some start ->
      relocate (board (state a)) start (r, c) = Ok newBoard ->
      P (board (state a)) -> P newBoard) ->
  P (board (state a)) ->
  Forall (fun h => P (MoveRecord.prevBoard h)) (history (state a)) ->
  P (board (state (dispatch e a)))
  /\ Forall (fun h => P (MoveRecord.prevBoard h)) (history (state (dispatch e a))).
Proof.
  intros He Hmove Hboard Hprev. unfold dispatch, handle. destruct e; try discriminate.
  - (* Click *)
    destruct (rendered (state a) r c) eqn:Hrendered; [| split; assumption].
    destruct (handleSquareClick_frame a r c)
      as (res & a' & Hrun & _ & _ & _ & [(_ & sel & moves & Hstate & _) | Hdone]);
      rewrite Hrun; cbn [snd].
    + rewrite Hstate. split; assumption.
    + destruct Hdone as (start & newBoard & Hstart & _ & Hrel & Hstate & _).
      rewrite Hstate. unfold afterMove. cbn [board history]. split.
      * exact (Hmove start r c newBoard Hrendered Hstart Hrel Hboard).
      * apply Forall_app. split; [exact Hprev |]. constructor; [exact Hboard | constructor].
  - (* Undo *)
    unfold undoMove.
    destruct (rev (history (state a))) as [| lastMove older] eqn:Hrev;
      [split; assumption |].
    assert (Hh : history (state a) = rev older ++ [lastMove]).
    { rewrite <- (rev_involutive (history (state a))), Hrev. reflexivity. }
    unfold bind. run_setters. rewrite Hh, removelast_last.
    rewrite Hh in Hprev. apply Forall_app in Hprev. destruct Hprev as [Hall Hone].
    apply Forall_inv in Hone. split; assumption.
  - (* Pass *)
    unfold passTurn, bind. run_setters.
    split; [exact Hboard |].
    apply Forall_app. split; [exact Hprev |]. constructor; [exact Hboard | constructor].
  - (* Resign *)
    destruct (gameStarted (state a)); [| split; assumption].
    unfold resign. run_setters. split; assumption.
  - run_setters. split; assumption.
  - run_setters. split; assumption.
  - run_setters. split; assumption.
  - run_setters. split; assumption.
  - run_setters. split; assumption.
  - (* EngineOutput *)
    destruct (dispatch_EngineOutput output a) as (Hstate & _).
    unfold dispatch, handle in Hstate. rewrite Hstate. split; assumption.
  - (* Effect *)
    destruct (boardEffect_frame a)
      as (res & a' & Heq & _ & _ & [Hstate | [score Hstate]] & _);
      rewrite Heq; cbn [snd]; rewrite Hstate; split; assumption.
Qed.

Lemma rendered_nil (s : Render) (r c : Z) : board s = [] -> rendered s r c = false.
Proof.
  intros Hempty. unfold rendered. rewrite Hempty, index_nil.
  apply andb_false_r.
Qed.

(** X6.  The board is the empty array until the first game is started and
    a grid of ten rows of nine cells from then on, and so are the boards
    kept for undo: after any events from the mounted component, if no game
    was ever started the game is not running, the board is empty and every
    board of the history is empty; if one was started, the board and every
    board of the history have ten rows of nine cells.  A selected cell
    lies on the grid. *)
Theorem board_keeps_its_shape (api : bool) (es : list Event) :
  (if existsb isStartGame es
   then fullGrid (board (state (run es (mount api))))
        /\ Forall (fun h => fullGrid (MoveRecord.prevBoard h))
                  (history (state (run es (mount api))))
   else gameStarted (state (run es (mount api))) = false
        /\ board (state (run es (mount api))) = []
        /\ Forall (fun h => MoveRecord.prevBoard h = [])
                  (history (state (run es (mount api)))))
  /\ (forall rc, selected (state (run es (mount api))) = Some rc -> inGrid rc = true).
Proof.
  split; [| apply (reachable_Inv api _ (reachable_run api es))].
  induction es as [| e es IH] using rev_ind.
  - cbn. repeat split. constructor.
  - rewrite existsb_app, run_snoc. cbn [existsb]. rewrite orb_false_r.
    pose proof (reachable_Inv api _ (reachable_run api es)) as HInv.
    destruct (isStartGame e) eqn:He.
    + rewrite orb_true_r. destruct e; try discriminate.
      unfold dispatch, handle, startGame, bind. run_setters.
      split; [apply fullGrid_initBoard | constructor].
    + rewrite orb_false_r.
      destruct (existsb isStartGame es).
      * destruct IH as [Hgrid Hprev].
        apply (boards_step fullGrid _ e He); [| exact Hgrid | exact Hprev].
        intros start r c newBoard Hrendered Hstart Hrel _.
        destruct HInv as (_ & Hsel & _).
        destruct (relocate_fullGrid _ start (r, c) Hgrid (Hsel _ Hstart)
                                    (rendered_inGrid _ _ _ Hgrid Hrendered))
          as (newBoard' & Hrel' & Hgrid').
        congruence.
      * destruct IH as (Hstopped & Hempty & Hprev).
        split; [exact (stopped_game_stays_stopped _ e Hstopped He) |].
        apply (boards_step (fun bd => bd = []) _ e He); [| exact Hempty | exact Hprev].
        intros start r c newBoard Hrendered.
        rewrite (rendered_nil _ r c Hempty) in Hrendered. discriminate.
Qed.

Lemma board_keeps_its_shape_witness :
  fullGrid (board (state (run [StartGame; Click 3 0; Click 4 0; Resign; Undo; Pass]
                              (mount true))))
  /\ Forall (fun h => fullGrid (MoveRecord.prevBoard h))
            (history (state (run [StartGame; Click 3 0; Click 4 0; Resign; Undo; Pass]
                                 (mount true)))).
Proof.
  exact (proj1 (board_keeps_its_shape true
                  [StartGame; Click 3 0; Click 4 0; Resign; Undo; Pass])).
Defined.

(** X7.  In every reachable state the records of the history are numbered
    1, 2, 3, ... and name the sides in turn, Cho first, and the side to
    move is fixed by the length of the history: Cho when it is even, Han
    when it is odd. *)
Theorem history_is_numbered (api : bool) (a : App) :
  reachable api a ->
  (forall i h, nth_error (history (state a)) i = Some h ->
               MoveRecord.seq h = Z.of_nat i + 1 /\ MoveRecord.turn h = sideAt i)
  /\ turn (state a) = sideAt (List.length (history (state a))).
Proof.
  intros Hreach. destruct (reachable_Inv api a Hreach) as (_ & _ & Hnum & Hturn & _).
  split; [exact Hnum | exact Hturn].
Qed.

Lemma history_is_numbered_witness :
  turn (state (run [StartGame; Pass; Click 6 0; Click 5 0; Undo; Pass] (mount true)))
  = BLUE.
Proof.
  apply (proj2 (history_is_numbered true _
    (reachable_step true _ Pass
      (reachable_step true _ Undo
        (reachable_step true _ (Click 5 0)
          (reachable_step true _ (Click 6 0)
            (reachable_step true _ Pass
              (reachable_step true _ StartGame (reachable_mount true))))))))).
Defined.

(** ** No handler of the user interface raises *)

Lemma handleSquareClick_returns (a : App) (r c : Z) :
  Inv (state a) -> rendered (state a) r c = true ->
  fst (handleSquareClick (state a) r c a) = Ok tt.
Proof.
  intros HInv Hrendered.
  destruct (Inv_started _ HInv (rendered_started _ _ _ Hrendered)) as [Hgrid _].
  pose proof (rendered_inGrid _ _ _ Hgrid Hrendered) as Hrc.
  destruct HInv as (_ & Hsel & _).
  assert (Hrows : forall rc, inGrid rc = true ->
                             0 <= fst rc < Z.of_nat (List.length (board (state a)))).
  { intros rc Hin. unfold inGrid in Hin. rewrite !andb_true_iff, !Z.leb_le in Hin.
    destruct Hgrid as [-> _]. lia. }
  assert (Hnine : forall rc, inGrid rc = true -> 0 <= fst rc <= 9).
  { intros rc Hin. unfold inGrid in Hin. rewrite !andb_true_iff, !Z.leb_le in Hin. lia. }
  unfold handleSquareClick.
  rewrite (rendered_started _ _ _ Hrendered). cbn [negb].
  destruct (engineEnabled (state a) && _); [reflexivity |].
  destruct (selected (state a)) as [[sr sc] |] eqn:Hselected.
  - destruct ((sr =? r) && (sc =? c)); [reflexivity |].
    unfold bind at 1, lift at 1.
    rewrite (cell_peek _ sr sc (Hrows (sr, sc) (Hsel _ eq_refl))).
    destruct (peek (board (state a)) (sr, sc)) as [pc |]; [| reflexivity].
    unfold bind at 1, lift at 1.
    rewrite (cell_peek _ r c (Hrows (r, c) Hrc)).
    destruct (match peek (board (state a)) (r, c) with
              | Some t => Team_eqb (team t) (team pc)
              | None => false
              end).
    { unfold bind, lift, setSelected, setLegalMoves, update.
      rewrite (legalDestinations_grid _ (r, c) _ Hgrid (Hnine _ Hrc)). reflexivity. }
    unfold bind at 1, lift at 1.
    destruct (isValidMove_returns (board (state a)) (sr, sc) (r, c) (turn (state a)))
      as [ok Hok].
    { split; [apply (Hrows (sr, sc)) | apply (Hrows (r, c))]; auto. }
    rewrite Hok. destruct ok; [| reflexivity].
    destruct (relocate_fullGrid _ (sr, sc) (r, c) Hgrid (Hsel _ eq_refl) Hrc)
      as (newBoard & Hrel & Hgrid').
    rewrite (executeMove_exact _ _ _ a _ Hrel). cbv zeta. cbn [fst].
    unfold sendOutcome. rewrite (generateFen_grid _ _ Hgrid').
    destruct (electronAPI a && engineEnabled (state a)); reflexivity.
  - unfold bind at 1, lift at 1.
    rewrite (cell_peek _ r c (Hrows (r, c) Hrc)).
    destruct (peek (board (state a)) (r, c)) as [pc |]; [| reflexivity].
    destruct (Team_eqb (team pc) (turn (state a))); [| reflexivity].
    unfold bind, lift, setSelected, setLegalMoves, update.
    rewrite (legalDestinations_grid _ (r, c) _ Hgrid (Hnine _ Hrc)). reflexivity.
Qed.

(** X8.  In a reachable state no event of the user interface raises: a
    click on a cell on screen, a button and the effect all run to their
    end. *)
Theorem ui_events_never_raise (api : bool) (a : App) (e : Event) :
  reachable api a -> isEngineOutput e = false -> fst (handle e a) = Ok tt.
Proof.
  intros Hreach He. pose proof (reachable_Inv api a Hreach) as HInv.
  unfold handle. destruct e; try discriminate; try reflexivity.
  - destruct (rendered (state a) r c) eqn:Hrendered; [| reflexivity].
    apply handleSquareClick_returns; assumption.
  - unfold undoMove. destruct (rev (history (state a))); reflexivity.
  - destruct (gameStarted (state a)); reflexivity.
  - destruct (boardEffect_frame a) as (res & a' & Hrun & _ & _ & _ & _ & Hres).
    rewrite Hrun. cbn [fst].
    destruct (gameStarted (state a)) eqn:Hstarted.
    + destruct (Inv_started _ HInv Hstarted) as [Hgrid _].
      apply Hres.
      * eexists. apply calculateMaterialScore_grid. exact Hgrid.
      * eexists. apply generateFen_grid. exact Hgrid.
    + unfold boardEffect in Hrun. rewrite Hstarted in Hrun. injection Hrun as <- _.
      reflexivity.
Qed.

Lemma ui_events_never_raise_witness :
  fst (handle (Click 4 0) (run [StartGame; Click 3 0] (mount true))) = Ok tt.
Proof.
  exact (ui_events_never_raise true _ (Click 4 0)
           (reachable_step true _ (Click 3 0)
              (reachable_step true _ StartGame (reachable_mount true)))
           eq_refl).
Defined.

(** X9.  What a [bestmove] line does.  The in-flight flag is cleared first.
    If there is no second field, or it is empty or the [(none)] token,
    nothing else happens.  If the token does not decode, it is logged.  If
    it decodes, the listener raises in [executeMove], which it runs on the
    empty board of the first render: no setter is called and no command
    sent. *)
Theorem bestmove_line_outcome (a : App) (output : string) :
  electronAPI a = true ->
  String.prefix "bestmove" output = true ->
  handle (EngineOutput output) a
  = match nth_error (split_space output) 1 with
    | None => (Ok tt, flagCleared a)
    | Some moveStr =>
        if String.eqb moveStr "" || String.eqb moveStr "(none)"
        then (Ok tt, flagCleared a)
        else match decode_move moveStr with
             | Some _ => (TypeError, flagCleared a)
             | None =>
                 (Ok tt, mkApp (state a) false (electronAPI a) (sent a)
                               (console a ++ [moveStr]))
             end
    end.
Proof.
  intros Hapi Hprefix. unfold handle. rewrite Hapi.
  unfold onEngineOutput. rewrite Hprefix.
  unfold bind at 1. unfold setThinking at 1.
  destruct (nth_error (split_space output) 1) as [moveStr |]; [| reflexivity].
  destruct (String.eqb moveStr ""); [reflexivity |].
  destruct (String.eqb moveStr "(none)"); [reflexivity |].
  cbn [negb andb orb]. unfold applyEngineMove.
  destruct (decode_move moveStr) as [[start end'] |].
  - rewrite executeMove_mount. reflexivity.
  - unfold bind, console_error, setThinking.
    cbn [state isEngineThinking electronAPI sent console]. rewrite Hapi. reflexivity.
Qed.

Lemma bestmove_line_outcome_witness :
  fst (handle (EngineOutput "bestmove a6a5") (run [StartGame] (mount true)))
  = TypeError.
Proof.
  rewrite (bestmove_line_outcome (run [StartGame] (mount true)) "bestmove a6a5"
                                 eq_refl eq_refl).
  reflexivity.
Defined.

(** * Commands sent to the engine *)

Lemma dispatch_sends (a : App) (e : Event) :
  sent (dispatch e a) = sent a
  \/ exists fen,
      generateFen (board (state (dispatch e a))) (turn (state (dispatch e a))) = Ok fen
      /\ sent (dispatch e a) = sent a ++ searchRequest fen (timeControl (state a))
      /\ engineEnabled (state a) = true
      /\ electronAPI a = true.
Proof.
  unfold dispatch, handle. destruct e; try (left; reflexivity).
  - destruct (rendered (state a) r c); [| left; reflexivity].
    destruct (handleSquareClick_frame a r c)
      as (res & a' & Hrun & _ & _ & _ & [(Hsent & _) | Hmove]);
      rewrite Hrun; cbn [snd]; [left; exact Hsent |].
    destruct Hmove as (start & newBoard & _ & _ & _ & Hstate & Hout).
    unfold sendOutcome in Hout.
    destruct (electronAPI a) eqn:Hapi, (engineEnabled (state a)) eqn:Henabled;
      cbn [andb] in Hout; try (left; congruence).
    destruct (generateFen newBoard (other (turn (state a)))) as [fen | |] eqn:Hfen;
      try (left; congruence).
    right. exists fen. rewrite Hstate. unfold afterMove. cbn [board turn].
    repeat split; congruence.
  - unfold undoMove. destruct (rev (history (state a))); left; reflexivity.
  - destruct (gameStarted (state a)); left; reflexivity.
  - left. destruct (dispatch_EngineOutput output a) as (_ & Hsent & _). exact Hsent.
  - destruct (boardEffect_frame a)
      as (res & a' & Hrun & _ & _ & Hstate & [(Hsent & _) | Hreq] & _);
      rewrite Hrun; cbn [snd]; [left; exact Hsent |].
    destruct Hreq as (fen & Hfen & Hsent & _ & Henabled & Hapi & _).
    right. exists fen.
    destruct Hstate as [-> | [score ->]]; repeat split; auto.
Qed.

(** X10.  One event sends either nothing or exactly one request: a
    [position fen] command followed by a [go movetime] command.  The
    position line is that of the board and the side to move after the
    event, the time is the think time in force when the event came, in
    milliseconds and in plain decimal as long as that is a safe integer,
    and a request is sent only while the engine is enabled and
    [window.electronAPI] exists. *)
Theorem event_sends_at_most_one_request (a : App) (e : Event) :
  safeThinkTime (timeControl (state a)) = true ->
  sent (dispatch e a) = sent a
  \/ exists fen,
      generateFen (board (state (dispatch e a))) (turn (state (dispatch e a))) = Ok fen
      /\ sent (dispatch e a)
         = sent a ++ [("position fen " ++ fen)%string;
                      ("go movetime " ++ dec (timeControl (state a) * 1000))%string]
      /\ engineEnabled (state a) = true
      /\ electronAPI a = true.
Proof. intros _. exact (dispatch_sends a e). Qed.

Lemma event_sends_at_most_one_request_witness :
  sent (dispatch (Click 4 0) (run (firstn 7 pvc_opening) (mount true)))
  = sent (run (firstn 7 pvc_opening) (mount true))
  \/ exists fen,
      generateFen
        (board (state (dispatch (Click 4 0) (run (firstn 7 pvc_opening) (mount true)))))
        (turn (state (dispatch (Click 4 0) (run (firstn 7 pvc_opening) (mount true)))))
      = Ok fen
      /\ sent (dispatch (Click 4 0) (run (firstn 7 pvc_opening) (mount true)))
         = sent (run (firstn 7 pvc_opening) (mount true))
           ++ [("position fen " ++ fen)%string; "go movetime 6000"%string]
      /\ engineEnabled (state (run (firstn 7 pvc_opening) (mount true))) = true
      /\ electronAPI (run (firstn 7 pvc_opening) (mount true)) = true.
Proof.
  exact (event_sends_at_most_one_request (run (firstn 7 pvc_opening) (mount true))
                                         (Click 4 0) eq_refl).
Defined.

Lemma dispatch_electronAPI (a : App) (e : Event) :
  electronAPI (dispatch e a) = electronAPI a.
Proof.
  unfold dispatch, handle. destruct e; try reflexivity.
  - destruct (rendered (state a) r c); [| reflexivity].
    destruct (handleSquareClick_frame a r c) as (res & a' & -> & _ & Hapi & _).
    exact Hapi.
  - unfold undoMove. destruct (rev (history (state a))); reflexivity.
  - destruct (gameStarted (state a)); reflexivity.
  - apply (dispatch_EngineOutput output a).
  - destruct (boardEffect_frame a) as (res & a' & -> & Hapi & _). exact Hapi.
Qed.

Lemma reachable_electronAPI (api : bool) (a : App) :
  reachable api a -> electronAPI a = api.
Proof.
  induction 1 as [| a e _ IH]; [reflexivity |].
  rewrite dispatch_electronAPI. exact IH.
Qed.

(** No event but the think time field changes the think time, and the
    field sets it to what was entered, to one second at least. *)
Lemma dispatch_timeControl (a : App) (e : Event) :
  timeControl (state (dispatch e a))
  = match e with
    | SetTimeControl v =>
        Z.max 1 (match v with
                 | Some n => if n =? 0 then 1 else n
                 | None => 1
                 end)
    | _ => timeControl (state a)
    end.
Proof.
  unfold dispatch, handle. destruct e; try reflexivity.
  - destruct (rendered (state a) r c); [| reflexivity].
    destruct (handleSquareClick_frame a r c)
      as (res & a' & Hrun & _ & _ & _
          & [(_ & sel & moves & Hstate & _) | (start & newBoard & _ & _ & _ & Hstate & _)]);
      rewrite Hrun; cbn [snd]; rewrite Hstate; reflexivity.
  - unfold undoMove. destruct (rev (history (state a))); reflexivity.
  - destruct (gameStarted (state a)); reflexivity.
  - destruct (dispatch_EngineOutput output a) as (Hstate & _).
    unfold dispatch, handle in Hstate. rewrite Hstate. reflexivity.
  - destruct (boardEffect_frame a)
      as (res & a' & Hrun & _ & _ & [Hstate | [score Hstate]] & _);
      rewrite Hrun; cbn [snd]; rewrite Hstate; reflexivity.
Qed.

Lemma safeThinkTime_step (a : App) (e : Event) :
  safeThinkTime (timeControl (state a)) = true -> modestTimes e = true ->
  safeThinkTime (timeControl (state (dispatch e a))) = true.
Proof.
  intros Hsafe He. rewrite dispatch_timeControl.
  destruct e; try exact Hsafe.
  unfold safeThinkTime, MAX_SAFE_INTEGER in *. apply Z.leb_le.
  destruct v as [n |]; cbn [modestTimes] in He; [| lia].
  unfold safeThinkTime, MAX_SAFE_INTEGER in He. apply Z.leb_le in He.
  destruct (n =? 0); lia.
Qed.

Lemma safeThinkTime_run (api : bool) (es : list Event) :
  forallb modestTimes es = true ->
  safeThinkTime (timeControl (state (run es (mount api)))) = true.
Proof.
  induction es as [| e es IH] using rev_ind; intros Hes; [reflexivity |].
  rewrite forallb_app in Hes. apply andb_true_iff in Hes. destruct Hes as [Hes He].
  cbn [forallb] in He. rewrite andb_true_r in He.
  rewrite run_snoc. apply safeThinkTime_step; auto.
Qed.

(** X11.  As long as no think time is entered whose milliseconds are
    beyond the safe integers, the commands sent so far are a sequence of
    whole requests, each a [position fen] command directly followed by its
    [go movetime] command, and each asks for at least one second.
    Without [window.electronAPI] nothing is ever sent. *)
Theorem sent_commands_are_whole_requests (api : bool) (es : list Event) :
  forallb modestTimes es = true ->
  (exists reqs, sent (run es (mount api)) = requestCommands reqs
                /\ Forall (fun req => 1 <= snd req /\ safeThinkTime (snd req) = true)
                          reqs)
  /\ (api = false -> sent (run es (mount api)) = []).
Proof.
  intros Hes. split.
  - induction es as [| e es IH] using rev_ind.
    + exists []. split; [reflexivity | constructor].
    + rewrite forallb_app in Hes. apply andb_true_iff in Hes. destruct Hes as [Hes He].
      destruct (IH Hes) as (reqs & Hsent & Htimes).
      rewrite run_snoc.
      destruct (dispatch_sends (run es (mount api)) e) as [Hsame | (fen & _ & Hmore & _)].
      * exists reqs. split; [congruence | exact Htimes].
      * exists (reqs ++ [(fen, timeControl (state (run es (mount api))))]). split.
        -- rewrite Hmore, Hsent. unfold requestCommands.
           rewrite flat_map_app. cbn [flat_map fst snd]. rewrite app_nil_r.
           reflexivity.
        -- apply Forall_app. split; [exact Htimes |].
           constructor; [| constructor]. cbn [snd]. split.
           ++ apply (reachable_Inv api _ (reachable_run api es)).
           ++ apply safeThinkTime_run. exact Hes.
  - intros ->. clear Hes. induction es as [| e es IH] using rev_ind; [reflexivity |].
    rewrite run_snoc.
    destruct (dispatch_sends (run es (mount false)) e)
      as [Hsame | (fen & _ & _ & _ & Hapi)].
    + congruence.
    + rewrite (reachable_electronAPI false _ (reachable_run false es)) in Hapi.
      discriminate.
Qed.

Lemma sent_commands_are_whole_requests_witness :
  exists reqs, sent (run (SetTimeControl (Some 30) :: pvc_opening) (mount true))
               = requestCommands reqs
               /\ Forall (fun req => 1 <= snd req /\ safeThinkTime (snd req) = true) reqs.
Proof.
  exact (proj1 (sent_commands_are_whole_requests
                  true (SetTimeControl (Some 30) :: pvc_opening) eq_refl)).
Defined.

(** * Undo as a stack *)

Lemma undo_position_congr (a1 a2 : App) :
  position a1 = position a2 ->
  position (dispatch Undo a1) = position (dispatch Undo a2).
Proof.
  unfold position. intros [= Hboard Hturn Hhistory].
  unfold dispatch, handle, undoMove. rewrite Hhistory.
  destruct (rev (history (state a2))) as [| lastMove older].
  - cbn. congruence.
  - unfold bind. run_setters. rewrite Hhistory. reflexivity.
Qed.

Lemma undo_play (a : App) (pl : Ply) :
  match pl with
  | PassPly => True
  | MovePly start end' =>
      isValidMove (board (state a)) start end' (turn (state a)) = Ok true
  end ->
  position (dispatch Undo (play a pl)) = position a.
Proof.
  destruct pl as [| start end']; intros Hok; unfold play.
  - erewrite undoMove_last
      by (unfold dispatch, handle, passTurn, bind; run_setters; reflexivity).
    reflexivity.
  - destruct (relocate_valid _ _ _ _ Hok) as [newBoard Hrel].
    rewrite (executeMove_exact _ _ _ a _ Hrel). cbv zeta. cbn [snd].
    erewrite undoMove_last by (unfold afterMove; cbn [state history]; reflexivity).
    reflexivity.
Qed.

(** X12.  Undo is a stack.  After any number of passes and of moves that
    [isValidMove] accepts, carried out one after the other, as many undos
    bring back the board, the side to move and the history from which they
    started. *)
Theorem undos_take_back_all_plies (a : App) (pls : list Ply) :
  playable a pls ->
  position (run (repeat Undo (List.length pls)) (fold_left play pls a)) = position a.
Proof.
  revert a. induction pls as [| pl rest IH]; intros a Hplayable; [reflexivity |].
  destruct Hplayable as [Hok Hrest]. cbn [fold_left List.length].
  replace (repeat Undo (S (List.length rest)))
    with (repeat Undo (List.length rest) ++ [Undo])
    by (rewrite <- repeat_cons; reflexivity).
  unfold run. rewrite fold_left_app. cbn [fold_left].
  rewrite (undo_position_congr _ (play a pl)) by (apply IH; exact Hrest).
  apply undo_play. exact Hok.
Qed.

Lemma undos_take_back_all_plies_witness :
  let a := run [StartGame] (mount true) in
  position (run [Undo; Undo; Undo]
                (fold_left play [MovePly (3, 0) (4, 0); PassPly; MovePly (4, 0) (5, 0)] a))
  = position a.
Proof.
  apply (undos_take_back_all_plies (run [StartGame] (mount true))
           [MovePly (3, 0) (4, 0); PassPly; MovePly (4, 0) (5, 0)]).
  repeat split; vm_compute; reflexivity.
Defined.

(** * Clicks *)

(** X13.  While the engine is enabled and it is the engine's side to move
    (always in [CvC], Han in [PvC], Cho in [CvP]) a click changes nothing
    at all. *)
Theorem click_is_ignored_on_engine_turn (a : App) (r c : Z) :
  engineEnabled (state a) = true -> engineToMove (state a) = true ->
  dispatch (Click r c) a = a.
Proof.
  intros Henabled Hmove. unfold dispatch, handle.
  destruct (rendered (state a) r c); [| reflexivity].
  unfold handleSquareClick. destruct (negb (gameStarted (state a))); [reflexivity |].
  rewrite Henabled. unfold engineToMove in Hmove.
  destruct (gameMode (state a)); try discriminate; cbn [andb];
    try rewrite Hmove; reflexivity.
Qed.

Lemma click_is_ignored_on_engine_turn_witness :
  let a := run [SetGameMode CvC; ToggleEngine; StartGame] (mount true) in
  dispatch (Click 3 0) a = a.
Proof.
  exact (click_is_ignored_on_engine_turn
           (run [SetGameMode CvC; ToggleEngine; StartGame] (mount true)) 3 0
           eq_refl eq_refl).
Defined.

(** X14.  In a reachable state, with nothing selected and the human to
    move, a click on a piece of the side to move selects that cell and
    highlights exactly the cells of the grid to which [isValidMove] lets
    the piece go; board, side and history stay as they are. *)
Theorem first_click_selects_and_highlights (api : bool) (a : App) (r c : Z) (pc : Piece) :
  reachable api a ->
  rendered (state a) r c = true ->
  engineEnabled (state a) && engineToMove (state a) = false ->
  selected (state a) = None ->
  cell (board (state a)) r c = Ok (Some pc) ->
  team pc = turn (state a) ->
  let a' := dispatch (Click r c) a in
  selected (state a') = Some (r, c)
  /\ (forall to, In to (legalMoves (state a'))
                 <-> inGrid to = true
                     /\ isValidMove (board (state a)) (r, c) to (turn (state a)) = Ok true)
  /\ position a' = position a.
Proof.
  intros Hreach Hrendered Hhuman Hnone Hcell Hteam. cbv zeta.
  pose proof (reachable_Inv api a Hreach) as HInv.
  destruct (Inv_started _ HInv (rendered_started _ _ _ Hrendered)) as [Hgrid _].
  pose proof (rendered_inGrid _ _ _ Hgrid Hrendered) as Hrc.
  assert (Hnine : 0 <= r <= 9).
  { unfold inGrid in Hrc. cbn [fst snd] in Hrc.
    rewrite !andb_true_iff, !Z.leb_le in Hrc. lia. }
  assert (Hrun : dispatch (Click r c) a
                 = mkApp (withSelection (state a) (Some (r, c))
                            (filter (accepts (board (state a)) (r, c) (turn (state a)))
                                    grid))
                         (isEngineThinking a) (electronAPI a) (sent a) (console a)).
  { unfold dispatch, handle. rewrite Hrendered. unfold handleSquareClick.
    rewrite (rendered_started _ _ _ Hrendered). cbn [negb].
    change (engineEnabled (state a)
            && match gameMode (state a) with
               | PvP => false
               | CvC => true
               | PvC => Team_eqb (turn (state a)) RED
               | CvP => Team_eqb (turn (state a)) BLUE
               end)
      with (engineEnabled (state a) && engineToMove (state a)).
    rewrite Hhuman, Hnone. unfold bind at 1, lift at 1. rewrite Hcell.
    replace (Team_eqb (team pc) (turn (state a))) with true
      by (symmetry; apply Team_eqb_eq; exact Hteam).
    unfold bind, lift, setSelected, setLegalMoves, update.
    rewrite (legalDestinations_grid _ (r, c) _ Hgrid Hnine). reflexivity. }
  rewrite Hrun. unfold position, withSelection.
  cbn [state selected legalMoves board turn history].
  split; [reflexivity |]. split; [| reflexivity].
  intros to. rewrite filter_In, in_grid. unfold accepts.
  destruct (isValidMove (board (state a)) (r, c) to (turn (state a))) as [[|] | |];
    split; intros [? ?]; split; auto; discriminate.
Qed.

Lemma first_click_selects_and_highlights_witness :
  selected (state (dispatch (Click 3 0) (run [StartGame] (mount true)))) = Some (3, 0).
Proof.
  exact (proj1 (first_click_selects_and_highlights true (run [StartGame] (mount true))
                  3 0 (p BLUE jol)
                  (reachable_step true _ StartGame (reachable_mount true))
                  eq_refl eq_refl eq_refl eq_refl eq_refl)).
Defined.

(** * The position line *)

Lemma unfenRow_app (s t : string) :
  unfenRow (s ++ t) = unfenRow s ++ unfenRow t.
Proof.
  induction s as [| ch s IH]; [reflexivity |].
  simpl. rewrite IH, app_assoc. reflexivity.
Qed.

Lemma unfenRow_fenMap (pc : Piece) : unfenRow (fenMap pc) = [Some pc].
Proof. destruct pc as [[] []]; reflexivity. Qed.

Lemma small_count (n : Z) :
  1 <= n <= 9 ->
  n = 1 \/ n = 2 \/ n = 3 \/ n = 4 \/ n = 5 \/ n = 6 \/ n = 7 \/ n = 8 \/ n = 9.
Proof. lia. Qed.

Lemma unfenRow_dec (n : Z) :
  1 <= n <= 9 -> unfenRow (dec n) = repeat None (Z.to_nat n).
Proof.
  intros Hn. destruct (small_count n Hn) as [-> | [-> | [-> | [-> | [-> | [-> | [-> | [-> | ->]]]]]]]];
    reflexivity.
Qed.

Lemma unfenRow_flushEmpty (s : string) (n : Z) :
  0 <= n <= 9 ->
  unfenRow (flushEmpty s n) = unfenRow s ++ repeat None (Z.to_nat n).
Proof.
  intros Hn. unfold flushEmpty. destruct (Z.ltb_spec 0 n).
  - rewrite unfenRow_app, unfenRow_dec by lia. reflexivity.
  - replace n with 0 by lia. simpl. rewrite app_nil_r. reflexivity.
Qed.

Lemma unfenRow_fold (row : Row) (s : string) (n : Z) :
  0 <= n -> n + Z.of_nat (List.length row) <= 9 ->
  unfenRow (flushEmpty (fst (fold_left fenStep row (s, n)))
                       (snd (fold_left fenStep row (s, n))))
  = unfenRow (flushEmpty s n) ++ row.
Proof.
  revert s n. induction row as [| x rest IH]; intros s n Hn Hlen.
  - cbn. rewrite app_nil_r. reflexivity.
  - cbn [fold_left]. cbn [List.length] in Hlen.
    destruct x as [pc |].
    + change (fenStep (s, n) (Some pc)) with ((flushEmpty s n ++ fenMap pc)%string, 0).
      rewrite IH by lia.
      rewrite (unfenRow_flushEmpty _ 0) by lia.
      rewrite unfenRow_app, unfenRow_fenMap. simpl. rewrite app_nil_r, <- app_assoc.
      reflexivity.
    + change (fenStep (s, n) None) with (s, n + 1).
      rewrite IH by lia.
      rewrite !unfenRow_flushEmpty by lia.
      replace (Z.to_nat (n + 1)) with (S (Z.to_nat n)) by lia.
      cbn [repeat]. rewrite repeat_cons, <- !app_assoc. reflexivity.
Qed.

(** A rank of at most nine cells is read back from its encoding. *)
Lemma unfenRow_fenOfRow (row : Row) :
  (List.length row <= 9)%nat -> unfenRow (fenOfRow row) = row.
Proof.
  intros Hlen. unfold fenOfRow.
  rewrite unfenRow_fold by lia. reflexivity.
Qed.

(** ** The characters of a rank *)

Lemma freeOf_app (sep : ascii) (s t : string) :
  freeOf sep (s ++ t) = freeOf sep s && freeOf sep t.
Proof.
  induction s as [| ch s IH]; [reflexivity |].
  simpl. rewrite IH, andb_assoc. reflexivity.
Qed.

Section RankCharacters.

Variable sep : ascii.
Hypothesis sep_no_letter : forall pc, freeOf sep (fenMap pc) = true.
Hypothesis sep_no_digit : forall n, 1 <= n <= 9 -> freeOf sep (dec n) = true.

Lemma freeOf_flushEmpty (s : string) (n : Z) :
  0 <= n <= 9 -> freeOf sep s = true -> freeOf sep (flushEmpty s n) = true.
Proof.
  intros Hn Hs. unfold flushEmpty. destruct (Z.ltb_spec 0 n); [| exact Hs].
  rewrite freeOf_app, Hs, sep_no_digit by lia. reflexivity.
Qed.

Lemma freeOf_fold (row : Row) (s : string) (n : Z) :
  0 <= n -> n + Z.of_nat (List.length row) <= 9 ->
  freeOf sep s = true ->
  freeOf sep (flushEmpty (fst (fold_left fenStep row (s, n)))
                         (snd (fold_left fenStep row (s, n)))) = true.
Proof.
  revert s n. induction row as [| x rest IH]; intros s n Hn Hlen Hs.
  - cbn. apply freeOf_flushEmpty; [cbn [List.length] in Hlen; lia | exact Hs].
  - cbn [fold_left]. cbn [List.length] in Hlen.
    destruct x as [pc |].
    + change (fenStep (s, n) (Some pc)) with ((flushEmpty s n ++ fenMap pc)%string, 0).
      apply IH; try lia.
      rewrite freeOf_app, freeOf_flushEmpty, sep_no_letter by (lia || assumption).
      reflexivity.
    + change (fenStep (s, n) None) with (s, n + 1).
      apply IH; try lia. exact Hs.
Qed.

Lemma freeOf_fenOfRow (row : Row) :
  (List.length row <= 9)%nat -> freeOf sep (fenOfRow row) = true.
Proof.
  intros Hlen. unfold fenOfRow. apply freeOf_fold; (lia || reflexivity).
Qed.

End RankCharacters.

Lemma rank_has_no_slash (row : Row) :
  (List.length row <= 9)%nat -> freeOf "/" (fenOfRow row) = true.
Proof.
  apply freeOf_fenOfRow.
  - intros [[] []]; reflexivity.
  - intros n Hn.
    destruct (small_count n Hn) as [-> | [-> | [-> | [-> | [-> | [-> | [-> | [-> | ->]]]]]]]];
      reflexivity.
Qed.

Lemma rank_has_no_space (row : Row) :
  (List.length row <= 9)%nat -> freeOf " " (fenOfRow row) = true.
Proof.
  apply freeOf_fenOfRow.
  - intros [[] []]; reflexivity.
  - intros n Hn.
    destruct (small_count n Hn) as [-> | [-> | [-> | [-> | [-> | [-> | [-> | [-> | ->]]]]]]]];
      reflexivity.
Qed.

(** ** Splitting *)

Lemma split_on_free (sep : ascii) (s : string) :
  freeOf sep s = true -> split_on sep s = [s].
Proof.
  induction s as [| ch s IH]; [reflexivity |].
  simpl. destruct (Ascii.eqb ch sep); [discriminate |]. simpl.
  intros Hs. rewrite (IH Hs). reflexivity.
Qed.

Lemma split_on_app (sep : ascii) (s t : string) :
  freeOf sep s = true ->
  split_on sep (s ++ String sep t) = s :: split_on sep t.
Proof.
  induction s as [| ch s IH].
  - intros _. simpl. rewrite Ascii.eqb_refl. reflexivity.
  - simpl. destruct (Ascii.eqb ch sep); [discriminate |]. simpl.
    intros Hs. rewrite (IH Hs). reflexivity.
Qed.

Lemma split_on_concat (ranks : list string) :
  ranks <> [] -> Forall (fun s => freeOf "/" s = true) ranks ->
  split_on "/" (String.concat "/" ranks) = ranks.
Proof.
  induction ranks as [| x [| y rest] IH]; intros Hne Hfree; [congruence | |].
  - simpl. apply split_on_free. apply (Forall_inv Hfree).
  - change (String.concat "/" (x :: y :: rest))
      with (x ++ String "/" (String.concat "/" (y :: rest)))%string.
    rewrite split_on_app by apply (Forall_inv Hfree).
    rewrite IH; [reflexivity | discriminate | apply (Forall_inv_tail Hfree)].
Qed.

Lemma freeOf_concat (ranks : list string) :
  Forall (fun s => freeOf " " s = true) ranks ->
  freeOf " " (String.concat "/" ranks) = true.
Proof.
  induction ranks as [| x [| y rest] IH]; intros Hfree; [reflexivity | |].
  - apply (Forall_inv Hfree).
  - change (String.concat "/" (x :: y :: rest))
      with (x ++ String "/" (String.concat "/" (y :: rest)))%string.
    rewrite freeOf_app, (Forall_inv Hfree). simpl.
    apply IH. apply (Forall_inv_tail Hfree).
Qed.

Lemma parseFen_fenLine (bd : Board) (tm : Team) :
  fullGrid bd -> parseFen (fenLine (map fenOfRow bd) tm) = Some (bd, tm).
Proof.
  intros [Hlen Hrows]. unfold parseFen, fenLine.
  assert (Hnine : Forall (fun row : Row => (List.length row <= 9)%nat) bd).
  { eapply Forall_impl; [| exact Hrows]. cbv beta. lia. }
  change (" " ++ match tm with BLUE => "b" | RED => "w" end ++ " - - 0 1")%string
    with (String " " (match tm with BLUE => "b" | RED => "w" end ++ " - - 0 1"))%string.
  rewrite split_on_app.
  2:{ apply freeOf_concat. apply Forall_map.
      eapply Forall_impl; [| exact Hnine]. apply rank_has_no_space. }
  rewrite split_on_concat.
  2:{ destruct bd; [discriminate | discriminate]. }
  2:{ apply Forall_map. eapply Forall_impl; [| exact Hnine]. apply rank_has_no_slash. }
  assert (Hback : map unfenRow (map fenOfRow bd) = bd).
  { rewrite map_map. rewrite <- (map_id bd) at 2. apply map_ext_Forall.
    eapply Forall_impl; [| exact Hnine]. apply unfenRow_fenOfRow. }
  rewrite Hback. destruct tm; reflexivity.
Qed.

(** X15.  On a board of ten rows of nine cells [generateFen] returns a
    line from which board and side to move can be read back: the ranks
    are the fields of the first word between slashes, a digit standing
    for that many empty cells and a letter for its piece, and the second
    word is [b] for Cho and [w] for Han.  So two such positions with the
    same line are the same. *)
Theorem generateFen_can_be_read_back :
  (forall (bd : Board) (tm : Team),
      fullGrid bd ->
      exists line, generateFen bd tm = Ok line /\ parseFen line = Some (bd, tm))
  /\ (forall (bd1 bd2 : Board) (tm1 tm2 : Team),
         fullGrid bd1 -> fullGrid bd2 ->
         generateFen bd1 tm1 = generateFen bd2 tm2 -> bd1 = bd2 /\ tm1 = tm2).
Proof.
  split.
  - intros bd tm Hgrid. eexists. split; [apply generateFen_grid; exact Hgrid |].
    apply parseFen_fenLine. exact Hgrid.
  - intros bd1 bd2 tm1 tm2 H1 H2.
    rewrite (generateFen_grid _ _ H1), (generateFen_grid _ _ H2). intros [= Hline].
    pose proof (parseFen_fenLine bd1 tm1 H1) as P1.
    rewrite Hline, (parseFen_fenLine bd2 tm2 H2) in P1.
    injection P1 as <- <-. auto.
Qed.

Lemma generateFen_can_be_read_back_witness :
  exists line, generateFen (initBoard an an) BLUE = Ok line
               /\ parseFen line = Some (initBoard an an, BLUE).
Proof.
  exact (proj1 generateFen_can_be_read_back (initBoard an an) BLUE
               (fullGrid_initBoard an an)).
Defined.

(** * More on the move token *)

(** X16.  Whatever token [decode_move] accepts, the two cells it names lie
    on the grid of ten rows and nine columns. *)
Theorem decode_move_names_grid_cells (moveStr : string) (start end' : Z * Z) :
  decode_move moveStr = Some (start, end') ->
  inGrid start = true /\ inGrid end' = true.
Proof.
  intros Hdec. destruct (decode_move_on_grid _ _ _ Hdec) as [Hs He].
  unfold inGrid. rewrite !andb_true_iff, !Z.leb_le. lia.
Qed.

Lemma decode_move_names_grid_cells_witness :
  inGrid (9, 1) = true /\ inGrid (7, 2) = true.
Proof.
  exact (decode_move_names_grid_cells "b0c2" (9, 1) (7, 2) eq_refl).
Defined.

Lemma nat_of_ascii_inj (x y : ascii) : nat_of_ascii x = nat_of_ascii y -> x = y.
Proof.
  intros H. rewrite <- (ascii_nat_embedding x), <- (ascii_nat_embedding y), H.
  reflexivity.
Qed.

(** X17.  Two tokens of four characters that [decode_move] maps to the
    same pair of cells are the same token. *)
Theorem decode_move_is_injective (t1 t2 : string) (m : (Z * Z) * (Z * Z)) :
  String.length t1 = 4%nat -> String.length t2 = 4%nat ->
  decode_move t1 = Some m -> decode_move t2 = Some m -> t1 = t2.
Proof.
  intros L1 L2.
  destruct t1 as [| f1 [| r1 [| g1 [| s1 [| x1 rest1]]]]]; try discriminate.
  destruct t2 as [| f2 [| r2 [| g2 [| s2 [| x2 rest2]]]]]; try discriminate.
  rewrite !decode_move_prefix.
  destruct (isFile f1 && isRank r1 && isFile g1 && isRank s1); [| discriminate].
  destruct (isFile f2 && isRank r2 && isFile g2 && isRank s2); [| discriminate].
  intros Heq1 Heq. rewrite <- Heq1 in Heq. clear Heq1.
  assert (Hr : 9 - rankOf r2 = 9 - rankOf r1) by congruence.
  assert (Hf : fileOf f2 = fileOf f1) by congruence.
  assert (Hs : 9 - rankOf s2 = 9 - rankOf s1) by congruence.
  assert (Hg : fileOf g2 = fileOf g1) by congruence.
  clear Heq. unfold fileOf, rankOf in Hr, Hf, Hs, Hg.
  assert (f2 = f1) by (apply nat_of_ascii_inj; lia).
  assert (r2 = r1) by (apply nat_of_ascii_inj; lia).
  assert (g2 = g1) by (apply nat_of_ascii_inj; lia).
  assert (s2 = s1) by (apply nat_of_ascii_inj; lia).
  congruence.
Qed.

Lemma decode_move_is_injective_witness : "b0c2"%string = "b0c2"%string.
Proof.
  exact (decode_move_is_injective "b0c2" "b0c2" ((9, 1), (7, 2))
                                  eq_refl eq_refl eq_refl eq_refl).
Defined.

(** * The starting position *)

(** X18.  Whatever the two setups, [initBoard] yields ten rows of nine
    cells on which each side has one general, two guards, two rooks, two
    cannons, two horses, two elephants and five soldiers, with the
    generals on (1,4) and (8,4), and [calculateMaterialScore] counts 72
    points for each side. *)
Theorem initBoard_is_a_full_set (redSetup blueSetup : SetupType) :
  fullGrid (initBoard redSetup blueSetup)
  /\ (forall tm, map (countPieces (initBoard redSetup blueSetup) tm)
                     [jang; sa; cha; po; ma; sang; jol]
                 = [1; 2; 2; 2; 2; 2; 5]%nat)
  /\ cell (initBoard redSetup blueSetup) 1 4 = Ok (Some (p BLUE jang))
  /\ cell (initBoard redSetup blueSetup) 8 4 = Ok (Some (p RED jang))
  /\ calculateMaterialScore (initBoard redSetup blueSetup) = Ok (72, 72).
Proof.
  split; [apply fullGrid_initBoard |].
  destruct redSetup, blueSetup;
    (split; [intros []; reflexivity | repeat split; reflexivity]).
Qed.

(** * Material *)

Lemma material_sum (cells : list (option Piece)) (acc : Z * Z) :
  fold_left addScore cells acc
  = (fst acc + fold_right (fun x s => fst (cellScore x) + s) 0 cells,
     snd acc + fold_right (fun x s => snd (cellScore x) + s) 0 cells).
Proof.
  revert acc. induction cells as [| x rest IH]; intros [red blue]; cbn [fold_left fold_right].
  - cbn [fst snd]. rewrite !Z.add_0_r. reflexivity.
  - rewrite IH. unfold addScore. cbn [fst snd]. f_equal; lia.
Qed.

Lemma material_grid (bd : Board) :
  material (map (peek bd) grid)
  = (sumOver (fun x => fst (cellScore x)) (peek bd) grid,
     sumOver (fun x => snd (cellScore x)) (peek bd) grid).
Proof.
  unfold material, sumOver. rewrite material_sum. cbn [fst snd].
  f_equal; generalize grid; intros l; induction l as [| rc l IH]; cbn; congruence.
Qed.

Lemma NoDup_grid : NoDup grid.
Proof.
  unfold grid, rows10, cols9. cbn [flat_map map app].
  repeat (constructor; [cbn [In]; intros Hin;
                        repeat (destruct Hin as [Hin | Hin]; [discriminate |]);
                        exact Hin |]).
  constructor.
Qed.

(** Moving what stands on one cell of a list onto another changes a sum
    over the list by what stood on the second cell. *)
Lemma sumOver_relocate (h : option Piece -> Z) (f g : Z * Z -> option Piece)
      (start end' : Z * Z) (l : list (Z * Z)) :
  NoDup l -> start <> end' -> h None = 0 ->
  g start = None -> g end' = f start ->
  (forall rc, rc <> start -> rc <> end' -> g rc = f rc) ->
  (In start l -> In end' l -> sumOver h g l = sumOver h f l - h (f end'))
  /\ (In start l -> ~ In end' l -> sumOver h g l = sumOver h f l - h (f start))
  /\ (~ In start l -> In end' l ->
      sumOver h g l = sumOver h f l - h (f end') + h (f start))
  /\ (~ In start l -> ~ In end' l -> sumOver h g l = sumOver h f l).
Proof.
  intros Hnodup Hne Hnone Hgs Hge Hother.
  induction Hnodup as [| rc l Hnotin Hnodup IH]; cbn [sumOver fold_right In].
  - repeat split; tauto.
  - fold (sumOver h g l). fold (sumOver h f l).
    destruct IH as (IH1 & IH2 & IH3 & IH4).
    assert (Hdec : forall x y : Z * Z, x = y \/ x <> y).
    { intros [x1 x2] [y1 y2]. destruct (Z.eq_dec x1 y1), (Z.eq_dec x2 y2);
        [left; congruence | right; congruence ..]. }
    destruct (Hdec rc start) as [-> | Hs]; [| destruct (Hdec rc end') as [-> | He]].
    + rewrite Hgs, Hnone.
      repeat split; intros Hin1 Hin2.
      * destruct Hin2 as [Heq | Hin2]; [congruence |]. rewrite (IH3 Hnotin Hin2). lia.
      * rewrite IH4; [lia | exact Hnotin | tauto].
      * tauto.
      * tauto.
    + rewrite Hge.
      repeat split; intros Hin1 Hin2.
      * destruct Hin1 as [Heq | Hin1]; [congruence |]. rewrite (IH2 Hin1 Hnotin). lia.
      * tauto.
      * rewrite IH4; [lia | tauto | exact Hnotin].
      * tauto.
    + rewrite (Hother rc Hs He).
      repeat split; intros Hin1 Hin2.
      * rewrite IH1; [lia | destruct Hin1; congruence | destruct Hin2; congruence].
      * rewrite IH2; [lia | destruct Hin1; congruence | tauto].
      * rewrite IH3; [lia | tauto | destruct Hin2; congruence].
      * rewrite IH4; [lia | tauto | tauto].
Qed.

(** X19.  On a board of ten rows of nine cells, a move that [isValidMove]
    accepts to a cell of the grid changes the material that
    [calculateMaterialScore] counts by exactly what stood on the
    destination: the score of the captured piece leaves its side's total,
    and the mover's total stays as it is. *)
Theorem capture_costs_the_captured_piece (a : App) (start end' : Z * Z) :
  fullGrid (board (state a)) -> inGrid end' = true ->
  isValidMove (board (state a)) start end' (turn (state a)) = Ok true ->
  let bd := board (state a) in
  let bd' := board (state (snd (executeMove (state a) start end' a))) in
  exists red blue,
    calculateMaterialScore bd = Ok (red, blue)
    /\ calculateMaterialScore bd'
       = Ok (red - fst (cellScore (peek bd end')), blue - snd (cellScore (peek bd end')))
    /\ match turn (state a) with
       | RED => fst (cellScore (peek bd end')) = 0
       | BLUE => snd (cellScore (peek bd end')) = 0
       end.
Proof.
  intros Hgrid Hend Hok. cbv zeta.
  destruct (legal_move_passes_filters_aux _ _ _ _ Hok)
    as (t & target & Hne & Hpiece & Htarget & Hteam).
  assert (Hstart : inGrid start = true).
  { pose proof (cell_row_defined _ _ _ _ Hpiece) as Hrow.
    destruct Hgrid as [Hlen Hrows]. rewrite Hlen in Hrow.
    unfold cell in Hpiece.
    destruct (index (board (state a)) (fst start)) as [row |] eqn:Hix; [| discriminate].
    assert (Hrowlen : List.length row = 9%nat).
    { unfold index in Hix. destruct (fst start <? 0); [discriminate |].
      apply nth_error_In in Hix. rewrite Forall_forall in Hrows. auto. }
    destruct (index row (snd start)) as [x |] eqn:Hcol; [| discriminate].
    assert (Hc : 0 <= snd start < Z.of_nat (List.length row))
      by (apply index_Some_iff; eauto).
    unfold inGrid. rewrite !andb_true_iff, !Z.leb_le. lia. }
  destruct (relocate_fullGrid _ start end' Hgrid Hstart Hend)
    as (newBoard & Hrel & Hgrid').
  rewrite (executeMove_exact _ _ _ a _ Hrel). cbv zeta.
  cbn [snd state afterMove board].
  rewrite (calculateMaterialScore_grid _ Hgrid), (calculateMaterialScore_grid _ Hgrid').
  rewrite !material_grid.
  assert (Hcols : 0 <= snd start /\ 0 <= snd end').
  { unfold inGrid in Hstart, Hend. rewrite !andb_true_iff, !Z.leb_le in Hstart, Hend. lia. }
  destruct (relocate_cells _ _ _ _ Hrel Hne (proj1 Hcols) (proj2 Hcols))
    as (Hce & Hcs & Hco).
  assert (Hpeek : forall bd rc x, cell bd (fst rc) (snd rc) = Ok x -> peek bd rc = x).
  { intros bd rc x Hx. unfold peek. rewrite Hx. reflexivity. }
  assert (Hgs : peek newBoard start = None) by (apply Hpeek; exact Hcs).
  assert (Hge : peek newBoard end' = peek (board (state a)) start).
  { unfold peek at 1. rewrite Hce. reflexivity. }
  assert (Hgo : forall rc, rc <> start -> rc <> end' ->
                           peek newBoard rc = peek (board (state a)) rc).
  { intros rc H1 H2. unfold peek. rewrite (Hco rc H1 H2). reflexivity. }
  eexists. eexists. split; [reflexivity |]. split.
  - f_equal. f_equal.
    + apply (sumOver_relocate (fun x => fst (cellScore x)) _ _ start end' grid
                              NoDup_grid Hne eq_refl Hgs Hge Hgo);
        apply in_grid; assumption.
    + apply (sumOver_relocate (fun x => snd (cellScore x)) _ _ start end' grid
                              NoDup_grid Hne eq_refl Hgs Hge Hgo);
        apply in_grid; assumption.
  - rewrite (Hpeek _ _ _ Htarget). unfold cellScore.
    destruct target as [x |]; [| destruct (turn (state a)); reflexivity].
    destruct (turn (state a)), (team x); try reflexivity; congruence.
Qed.

Lemma capture_costs_the_captured_piece_witness :
  exists red blue,
    calculateMaterialScore (initBoard an an) = Ok (red, blue)
    /\ calculateMaterialScore
         (board (state (snd (executeMove (state (run [StartGame; Pass] (mount true)))
                                         (7, 1) (0, 1)
                                         (run [StartGame; Pass] (mount true))))))
       = Ok (red - 0, blue - 5)
    /\ 0 = 0.
Proof.
  exact (capture_costs_the_captured_piece (run [StartGame; Pass] (mount true))
           (7, 1) (0, 1) (fullGrid_initBoard an an) eq_refl eq_refl).
Defined.

(** * The exported log *)

Lemma giboLines_numbered (hs : list MoveRecord.t) (k : nat) :
  (forall i h, nth_error hs i = Some h ->
               MoveRecord.seq h = Z.of_nat (k + i) + 1
               /\ MoveRecord.turn h = sideAt (k + i)) ->
  map giboLine hs
  = map (fun ih => numberedLine (fst ih) (snd ih))
        (combine (seq k (List.length hs)) hs).
Proof.
  revert k. induction hs as [| h rest IH]; intros k Hnum; [reflexivity |].
  cbn [map List.length seq combine fst snd]. f_equal.
  - destruct (Hnum 0%nat h eq_refl) as [Hseq Hturn].
    rewrite Nat.add_0_r in Hseq, Hturn.
    unfold giboLine, numberedLine. rewrite Hseq, Hturn. reflexivity.
  - apply IH. intros i h' Hi.
    replace (S k + i)%nat with (k + S i)%nat by lia. apply Hnum. exact Hi.
Qed.

(** X20.  In every reachable state the text that [saveGibo] exports has one
    line per record, the lines carry the numbers 1, 2, 3, ... and name the
    sides in turn, [b] first. *)
Theorem saveGibo_lines_are_numbered (api : bool) (a : App) :
  reachable api a ->
  saveGibo (state a)
  = String.concat (String (ascii_of_nat 10) EmptyString)
      (map (fun ih => numberedLine (fst ih) (snd ih))
           (combine (seq 0 (List.length (history (state a)))) (history (state a)))).
Proof.
  intros Hreach. unfold saveGibo. f_equal.
  apply giboLines_numbered. intros i h Hi.
  destruct (reachable_Inv api a Hreach) as (_ & _ & Hnum & _).
  exact (Hnum i h Hi).
Qed.

Lemma saveGibo_lines_are_numbered_witness :
  saveGibo (state (run [StartGame; Click 3 0; Click 4 0; Pass] (mount true)))
  = String.concat (String (ascii_of_nat 10) EmptyString)
                  ["1. b: 3,0 > 4,0"; "2. r: PASS"]%string.
Proof.
  exact (saveGibo_lines_are_numbered true _
    (reachable_step true _ Pass
      (reachable_step true _ (Click 4 0)
        (reachable_step true _ (Click 3 0)
          (reachable_step true _ StartGame (reachable_mount true)))))).
Defined.

(** * A pending request *)

Lemma bystander_keeps_request (a : App) (e : Event) :
  isEngineThinking a = true -> bystander e = true ->
  sent (dispatch e a) = sent a /\ isEngineThinking (dispatch e a) = true.
Proof.
  intros Hbusy He. unfold dispatch, handle.
  destruct e; try discriminate; try (split; [reflexivity | exact Hbusy]).
  - unfold undoMove. destruct (rev (history (state a))); split; auto.
  - destruct (gameStarted (state a)); split; auto.
  - destruct (boardEffect_frame a)
      as (res & a' & -> & _ & _ & _ & [(Hsent & Hflag) | Hreq] & _); cbn [snd].
    + split; [exact Hsent |]. destruct Hflag as [-> | [-> _]]; auto.
    + destruct Hreq as (fen & _ & _ & _ & _ & _ & _ & Hidle & _). congruence.
Qed.

(** X21.  While a request of [requestEngineMove] is pending, the effect
    sends no further request: whatever buttons are pressed and however
    often the effect runs, as long as no cell is clicked, no game started
    and no engine output arrives, nothing is sent and the request stays
    pending. *)
Theorem pending_request_blocks_the_effect (a : App) (es : list Event) :
  isEngineThinking a = true -> forallb bystander es = true ->
  sent (run es a) = sent a /\ isEngineThinking (run es a) = true.
Proof.
  revert a. induction es as [| e es IH]; intros a Hbusy Hes; [auto |].
  cbn [forallb] in Hes. apply andb_true_iff in Hes. destruct Hes as [He Hes].
  destruct (bystander_keeps_request a e Hbusy He) as [Hsent Hflag].
  unfold run in *. cbn [fold_left].
  destruct (IH (dispatch e a) Hflag Hes) as [Hsent' Hflag'].
  split; [congruence | exact Hflag'].
Qed.

Lemma pending_request_blocks_the_effect_witness :
  sent (run [Effect; Pass; Effect; Undo; Effect] (run pvc_opening (mount true)))
  = sent (run pvc_opening (mount true)).
Proof.
  exact (proj1 (pending_request_blocks_the_effect (run pvc_opening (mount true))
                  [Effect; Pass; Effect; Undo; Effect] eq_refl eq_refl)).
Defined.

(** * Generals and guards *)

Lemma palace_piece_stays (bd : Board) (start end' : Z * Z) (tm : Team)
      (t : PieceType) (target : option Piece) :
  t = sa \/ t = jang ->
  passesFilters bd start end' tm t target ->
  isValidMove bd start end' tm = Ok true ->
  inPalace (fst end') (snd end') tm = true.
Proof.
  intros Ht Hf. destruct start as [sy sx], end' as [ey ex]. cbn [fst snd].
  destruct Ht as [-> | ->]; pass_filters Hf;
    (destruct (inPalace ey ex tm); cbn [negb]; [reflexivity | discriminate]).
Qed.

Lemma cell_Some_inGrid (bd : Board) (r c : Z) (pc : Piece) :
  fullGrid bd -> cell bd r c = Ok (Some pc) -> inGrid (r, c) = true.
Proof.
  intros [Hlen Hrows] Hcell.
  pose proof (cell_row_defined _ _ _ _ Hcell) as Hr. rewrite Hlen in Hr.
  unfold cell in Hcell.
  destruct (index bd r) as [row |] eqn:Hix; [| discriminate].
  assert (Hrowlen : List.length row = 9%nat).
  { unfold index in Hix. destruct (r <? 0); [discriminate |].
    apply nth_error_In in Hix. rewrite Forall_forall in Hrows. auto. }
  destruct (index row c) as [x |] eqn:Hcol; [| discriminate].
  assert (Hc : 0 <= c < Z.of_nat (List.length row)) by (apply index_Some_iff; eauto).
  unfold inGrid. cbn [fst snd]. rewrite !andb_true_iff, !Z.leb_le. lia.
Qed.

Lemma atHome_sound (bd : Board) :
  fullGrid bd -> forallb (atHome bd) grid = true -> palaceBound bd.
Proof.
  intros Hgrid Hall r c pc Hcell Ht.
  rewrite forallb_forall in Hall.
  assert (Hin : In (r, c) grid) by (apply in_grid; eapply cell_Some_inGrid; eauto).
  specialize (Hall _ Hin). unfold atHome, peek in Hall. cbn [fst snd] in Hall.
  rewrite Hcell in Hall. destruct Ht as [Ht | Ht]; rewrite Ht in Hall; exact Hall.
Qed.

Lemma palaceBound_initBoard (redSetup blueSetup : SetupType) :
  palaceBound (initBoard redSetup blueSetup).
Proof.
  apply atHome_sound; [apply fullGrid_initBoard |].
  destruct redSetup, blueSetup; reflexivity.
Qed.

Lemma palaceBound_nil : palaceBound [].
Proof. intros r c pc Hcell. unfold cell, index in Hcell.
       destruct (r <? 0); [discriminate |]. destruct (Z.to_nat r); discriminate. Qed.

Lemma palaceBound_relocate (bd newBoard : Board) (start end' : Z * Z) (tm : Team) :
  palaceBound bd ->
  isValidMove bd start end' tm = Ok true ->
  0 <= snd start -> 0 <= snd end' ->
  relocate bd start end' = Ok newBoard ->
  palaceBound newBoard.
Proof.
  intros Hpal Hok Hsc Hec Hrel r c pc Hcell Ht.
  destruct (legal_move_passes_filters_aux _ _ _ _ Hok) as (t & target & Hf).
  pose proof Hf as (Hne & Hpiece & _).
  destruct (relocate_cells _ _ _ _ Hrel Hne Hsc Hec) as (Hce & Hcs & Hco).
  assert (Hdec : forall x y : Z * Z, x = y \/ x <> y).
  { intros [x1 x2] [y1 y2]. destruct (Z.eq_dec x1 y1), (Z.eq_dec x2 y2);
      [left; congruence | right; congruence ..]. }
  destruct (Hdec (r, c) end') as [He | He];
    [| destruct (Hdec (r, c) start) as [Hs | Hs]].
  - subst end'. cbn [fst snd] in Hce. rewrite Hce, Hpiece in Hcell.
    assert (Hpc : pc = p tm t) by congruence. subst pc. cbn [type team] in *.
    exact (palace_piece_stays _ _ _ _ _ _ Ht Hf Hok).
  - subst start. cbn [fst snd] in Hcs. congruence.
  - specialize (Hco (r, c) Hs He). cbn [fst snd] in Hco. rewrite Hco in Hcell.
    exact (Hpal r c pc Hcell Ht).
Qed.

(** Every event keeps the generals and guards at home. *)
Lemma palacesKept_step (a : App) (e : Event) :
  Inv (state a) -> palacesKept (state a) -> palacesKept (state (dispatch e a)).
Proof.
  intros HInv Hkept. pose proof HInv as (_ & Hsel & _).
  pose proof Hkept as (Hboard & Hprev).
  unfold dispatch, handle. destruct e.
  - (* StartGame *)
    unfold startGame, bind. run_setters.
    split; [apply palaceBound_initBoard | constructor].
  - (* Click *)
    destruct (rendered (state a) r c) eqn:Hrendered; [| exact Hkept].
    destruct (Inv_started _ HInv (rendered_started _ _ _ Hrendered)) as [Hgrid _].
    pose proof (rendered_inGrid _ _ _ Hgrid Hrendered) as Hrc.
    destruct (handleSquareClick_frame a r c)
      as (res & a' & Hrun & _ & _ & _ & [(_ & sel & moves & Hstate & _) | Hmove]);
      rewrite Hrun; cbn [snd].
    + rewrite Hstate. exact Hkept.
    + destruct Hmove as (start & newBoard & Hstart & Hok & Hrel & Hstate & _).
      rewrite Hstate. unfold afterMove, palacesKept. cbn [board history].
      pose proof (Hsel _ Hstart) as Hs.
      unfold inGrid in Hs, Hrc. cbn [fst snd] in Hrc.
      rewrite !andb_true_iff, !Z.leb_le in Hs, Hrc.
      split.
      * apply (palaceBound_relocate _ _ start (r, c) (turn (state a)) Hboard Hok);
          [lia | cbn [snd]; lia | exact Hrel].
      * apply Forall_app. split; [exact Hprev |]. constructor; [exact Hboard | constructor].
  - (* Undo *)
    unfold undoMove.
    destruct (rev (history (state a))) as [| lastMove older] eqn:Hrev; [exact Hkept |].
    assert (Hh : history (state a) = rev older ++ [lastMove]).
    { rewrite <- (rev_involutive (history (state a))), Hrev. reflexivity. }
    unfold bind. run_setters. rewrite Hh, removelast_last.
    rewrite Hh in Hprev. apply Forall_app in Hprev. destruct Hprev as [Hall Hone].
    apply Forall_inv in Hone. split; assumption.
  - (* Pass *)
    unfold passTurn, bind. run_setters.
    split; [exact Hboard |].
    apply Forall_app. split; [exact Hprev |]. constructor; [exact Hboard | constructor].
  - (* Resign *)
    destruct (gameStarted (state a)); [| exact Hkept].
    unfold resign. run_setters. exact Hkept.
  - run_setters. exact Hkept.
  - run_setters. exact Hkept.
  - run_setters. exact Hkept.
  - run_setters. exact Hkept.
  - run_setters. exact Hkept.
  - (* EngineOutput *)
    destruct (dispatch_EngineOutput output a) as (Hstate & _).
    unfold dispatch, handle in Hstate. rewrite Hstate. exact Hkept.
  - (* Effect *)
    destruct (boardEffect_frame a)
      as (res & a' & Heq & _ & _ & [Hstate | [score Hstate]] & _);
      rewrite Heq; cbn [snd]; rewrite Hstate; exact Hkept.
Qed.

Lemma reachable_palacesKept (api : bool) (a : App) :
  reachable api a -> palacesKept (state a).
Proof.
  induction 1 as [| a e Hreach IH].
  - split; [apply palaceBound_nil | constructor].
  - exact (palacesKept_step a e (reachable_Inv api a Hreach) IH).
Qed.

(** X22.  Whatever the events, a general or a guard never stands outside
    the palace of its side: not on the board on display, and on no board
    that [executeMove] or [passTurn] kept for [undoMove]. *)
Theorem generals_and_guards_stay_home (api : bool) (a : App) (r c : Z) (pc : Piece) :
  reachable api a ->
  type pc = sa \/ type pc = jang ->
  (cell (board (state a)) r c = Ok (Some pc) -> inPalace r c (team pc) = true)
  /\ (forall h, In h (history (state a)) ->
                cell (MoveRecord.prevBoard h) r c = Ok (Some pc) ->
                inPalace r c (team pc) = true).
Proof.
  intros Hreach Ht. destruct (reachable_palacesKept api a Hreach) as [Hboard Hprev].
  split.
  - intros Hcell. exact (Hboard r c pc Hcell Ht).
  - intros h Hin Hcell. rewrite Forall_forall in Hprev.
    exact (Hprev h Hin r c pc Hcell Ht).
Qed.

Lemma generals_and_guards_stay_home_witness :
  inPalace 2 4 BLUE = true.
Proof.
  apply (proj1 (generals_and_guards_stay_home true
                  (run [StartGame; Click 1 4; Click 2 4] (mount true))
                  2 4 (p BLUE jang)
                  (reachable_step true _ (Click 2 4)
                     (reachable_step true _ (Click 1 4)
                        (reachable_step true _ StartGame (reachable_mount true))))
                  (or_intror eq_refl))).
  reflexivity.
Defined.
